(** * Enhanced Channel Manager: authentication and session lifecycle

    A shallow embedding of [backend/auth/settings.py] and
    [backend/auth/routes.py], and the properties of the authentication
    core stated over it. [auth/password.py] and [auth/tokens.py] are not
    among the sources: the routes are verified against their interfaces
    ([PasswordLib], [TokenLib]), and the modules [Password] and [Tokens]
    model, from the specification, the two functions the properties of the
    password policy and of access tokens are about.

    Conventions.
    - A table of the relational store is the list of its rows, in the order
      the store returns them; [Query.first] is [list_find], and the row
      object a query returned is denoted by its position in the table, so
      that assigning to an attribute of the object is an update at that
      position.
    - A value compared with the column [users.id] in a query filter is
      compared as the store compares it ([Store]): the routes bind the [sub]
      claim of a token there, which need not be an integer.
    - [datetime.utcnow()] is the request's clock reading [now], in seconds.
    - A Python exception is a value of [exn]; a call either returns or
      raises ([result]). *)

From Stdlib Require Import ZArith Lia.
From Stdlib Require Import Ascii String.
From stdpp Require Import base option list strings gmap pretty.

Local Open Scope string_scope.
Local Open Scope Z_scope.
Local Open Scope list_scope.

(** ** Exceptions and results *)

Inductive exn : Type :=
  | HTTPException (status_code : Z) (detail : string)
  | AuthenticationError (msg : string)
  | TokenExpiredError
  | TokenRevokedError
  | InvalidTokenError (msg : string)
  | OtherException (what : string).

Inductive result (A : Type) : Type :=
  | Ok (a : A)
  | Raise (e : exn).
Arguments Ok {A} a.
Arguments Raise {A} e.

Definition HTTP_400_BAD_REQUEST : Z := 400.
Definition HTTP_401_UNAUTHORIZED : Z := 401.
Definition HTTP_403_FORBIDDEN : Z := 403.
Definition HTTP_404_NOT_FOUND : Z := 404.
Definition HTTP_409_CONFLICT : Z := 409.
Definition HTTP_422_UNPROCESSABLE_ENTITY : Z := 422.

(** Python truthiness of an optional string: [None] and the empty string
    are falsy. *)
Definition truthy (o : option string) : bool :=
  match o with
  | Some s => negb (String.eqb s EmptyString)
  | None => false
  end.

(** ** auth/settings.py *)

Module Settings.

Record JWTSettings : Type := {
  secret_key : string;
  algorithm : string;
  access_token_expire_minutes : Z;
  refresh_token_expire_days : Z
}.

Record SessionSettings : Type := {
  max_sessions_per_user : Z;
  inactivity_timeout_minutes : Z;
  extend_on_activity : bool
}.

Record LocalAuthSettings : Type := {
  local_enabled : bool;
  min_password_length : Z;
  require_uppercase : bool;
  require_lowercase : bool;
  require_number : bool;
  require_special : bool
}.

Record DispatcharrAuthSettings : Type := {
  dispatcharr_enabled : bool;
  use_dispatcharr_auth : bool;
  auto_create_users : bool
}.

Record AuthSettings : Type := {
  setup_complete : bool;
  primary_auth_mode : string;
  require_auth : bool;
  jwt : JWTSettings;
  session : SessionSettings;
  local : LocalAuthSettings;
  dispatcharr : DispatcharrAuthSettings
}.

(** The field defaults of the pydantic models. *)
Definition default_JWTSettings : JWTSettings :=
  {| secret_key := EmptyString; algorithm := "HS256";
     access_token_expire_minutes := 30; refresh_token_expire_days := 7 |}.

Definition default_SessionSettings : SessionSettings :=
  {| max_sessions_per_user := 5; inactivity_timeout_minutes := 0;
     extend_on_activity := true |}.

Definition default_LocalAuthSettings : LocalAuthSettings :=
  {| local_enabled := true; min_password_length := 8;
     require_uppercase := true; require_lowercase := true;
     require_number := true; require_special := false |}.

Definition default_DispatcharrAuthSettings : DispatcharrAuthSettings :=
  {| dispatcharr_enabled := false; use_dispatcharr_auth := false;
     auto_create_users := true |}.

Definition default_AuthSettings : AuthSettings :=
  {| setup_complete := false; primary_auth_mode := "local";
     require_auth := true;
     jwt := default_JWTSettings; session := default_SessionSettings;
     local := default_LocalAuthSettings;
     dispatcharr := default_DispatcharrAuthSettings |}.

Definition is_setup_required (s : AuthSettings) : bool :=
  negb (setup_complete s).

Definition get_enabled_providers (s : AuthSettings) : list string :=
  ((if local_enabled (local s) then ["local"] else [])
   ++ (if dispatcharr_enabled (dispatcharr s) then ["dispatcharr"] else []))%list.

Definition with_secret_key (s : AuthSettings) (k : string) : AuthSettings :=
  {| setup_complete := setup_complete s;
     primary_auth_mode := primary_auth_mode s;
     require_auth := require_auth s;
     jwt := {| secret_key := k; algorithm := algorithm (jwt s);
               access_token_expire_minutes := access_token_expire_minutes (jwt s);
               refresh_token_expire_days := refresh_token_expire_days (jwt s) |};
     session := session s; local := local s; dispatcharr := dispatcharr s |}.

Definition with_setup_complete (s : AuthSettings) (b : bool) : AuthSettings :=
  {| setup_complete := b;
     primary_auth_mode := primary_auth_mode s;
     require_auth := require_auth s;
     jwt := jwt s; session := session s; local := local s;
     dispatcharr := dispatcharr s |}.

Definition with_require_auth (s : AuthSettings) (b : bool) : AuthSettings :=
  {| setup_complete := setup_complete s;
     primary_auth_mode := primary_auth_mode s;
     require_auth := b;
     jwt := jwt s; session := session s; local := local s;
     dispatcharr := dispatcharr s |}.

Definition with_primary_auth_mode (s : AuthSettings) (m : string)
    : AuthSettings :=
  {| setup_complete := setup_complete s;
     primary_auth_mode := m;
     require_auth := require_auth s;
     jwt := jwt s; session := session s; local := local s;
     dispatcharr := dispatcharr s |}.

Definition with_local (s : AuthSettings) (l : LocalAuthSettings)
    : AuthSettings :=
  {| setup_complete := setup_complete s;
     primary_auth_mode := primary_auth_mode s;
     require_auth := require_auth s;
     jwt := jwt s; session := session s; local := l;
     dispatcharr := dispatcharr s |}.

Definition with_dispatcharr (s : AuthSettings) (d : DispatcharrAuthSettings)
    : AuthSettings :=
  {| setup_complete := setup_complete s;
     primary_auth_mode := primary_auth_mode s;
     require_auth := require_auth s;
     jwt := jwt s; session := session s; local := local s;
     dispatcharr := d |}.

Definition with_local_enabled (l : LocalAuthSettings) (b : bool)
    : LocalAuthSettings :=
  {| local_enabled := b;
     min_password_length := min_password_length l;
     require_uppercase := require_uppercase l;
     require_lowercase := require_lowercase l;
     require_number := require_number l;
     require_special := require_special l |}.

Definition with_min_password_length (l : LocalAuthSettings) (n : Z)
    : LocalAuthSettings :=
  {| local_enabled := local_enabled l;
     min_password_length := n;
     require_uppercase := require_uppercase l;
     require_lowercase := require_lowercase l;
     require_number := require_number l;
     require_special := require_special l |}.

Definition with_dispatcharr_enabled (d : DispatcharrAuthSettings) (b : bool)
    : DispatcharrAuthSettings :=
  {| dispatcharr_enabled := b;
     use_dispatcharr_auth := use_dispatcharr_auth d;
     auto_create_users := auto_create_users d |}.

Definition with_auto_create_users (d : DispatcharrAuthSettings) (b : bool)
    : DispatcharrAuthSettings :=
  {| dispatcharr_enabled := dispatcharr_enabled d;
     use_dispatcharr_auth := use_dispatcharr_auth d;
     auto_create_users := b |}.

(** What the operating system lets the process do with
    [AUTH_CONFIG_FILE].
    - [Writable]: the file can be tested, read and written.
    - [ReadOnly]: [open] for writing raises [PermissionError]; the file
      stays as it is.
    - [Full written]: [Path.write_text] opens the file with mode ['w'],
      which truncates it, and the write then fails with an [OSError] after
      [written] characters.
    - [Unsearchable]: the directory cannot be searched. [Path.exists] is a
      [stat] that re-raises a [PermissionError], and so does [open]. *)
Inductive disk : Type :=
  | Writable
  | ReadOnly
  | Full (written : nat)
  | Unsearchable.

(** What the module sees of the process and of the operating system:
    the module-level [_cached_auth_settings], the contents of
    [AUTH_CONFIG_FILE] when it exists, whether [CONFIG_DIR.mkdir]
    succeeds, what the file system allows on the file, and the key
    [secrets.token_urlsafe(32)] draws next. *)
Record World : Type := {
  _cached_auth_settings : option AuthSettings;
  auth_config_file : option string;
  mkdir_succeeds : bool;
  config_disk : disk;
  next_secret : string
}.

Definition set_cache (w : World) (c : option AuthSettings) : World :=
  {| _cached_auth_settings := c;
     auth_config_file := auth_config_file w;
     mkdir_succeeds := mkdir_succeeds w;
     config_disk := config_disk w;
     next_secret := next_secret w |}.

Definition set_file (w : World) (f : option string) : World :=
  {| _cached_auth_settings := _cached_auth_settings w;
     auth_config_file := f;
     mkdir_succeeds := mkdir_succeeds w;
     config_disk := config_disk w;
     next_secret := next_secret w |}.

(** Whether [AUTH_CONFIG_FILE.write_text(...)] returns; it raises an
    [OSError] ([PermissionError] is one) otherwise. *)
Definition write_succeeds (w : World) : bool :=
  match config_disk w with
  | Writable => true
  | ReadOnly | Full _ | Unsearchable => false
  end.

(** What a [write_text(text)] that raised leaves of the file. *)
Definition after_failed_write (w : World) (text : string) : option string :=
  match config_disk w with
  | Full written => Some (String.substring 0 written text)
  | Writable | ReadOnly | Unsearchable => auth_config_file w
  end.

(** Whether [AUTH_CONFIG_FILE.exists()] raises instead of answering. *)
Definition exists_raises (w : World) : bool :=
  match config_disk w with
  | Unsearchable => true
  | Writable | ReadOnly | Full _ => false
  end.

Section Persistence.
(** [json.dumps(settings.model_dump(), indent=2)]: [None] when it raises
    (an exception that is not an [OSError]); and
    [loads] is [json.loads] followed by the [AuthSettings]
    constructor: [None] when parsing or validation raises. *)
Variable dumps : AuthSettings -> option string.
Variable loads : string -> option AuthSettings.

Definition _ensure_config_dir (w : World) : bool := mkdir_succeeds w.

Definition _generate_secret_key (w : World) : string := next_secret w.

Definition save_auth_settings (settings : AuthSettings) (w : World)
  : result bool * World :=
  if negb (_ensure_config_dir w) then
    (Ok false, set_cache w (Some settings))
  else
    match dumps settings with
    | None => (Raise (OtherException "Failed to save auth settings"), w)
    | Some settings_json =>
        if write_succeeds w then
          (Ok true, set_cache (set_file w (Some settings_json)) (Some settings))
        else
          (Ok false,
           set_cache (set_file w (after_failed_write w settings_json))
             (Some settings))
    end.

(** The tail of [load_auth_settings]: defaults with a fresh key. *)
Definition load_defaults (w : World) : result AuthSettings * World :=
  let s := with_secret_key default_AuthSettings (_generate_secret_key w) in
  let w1 := set_cache w (Some s) in
  match save_auth_settings s w1 with
  | (Ok _, w2) => (Ok s, w2)
  | (Raise e, w2) => (Raise e, w2)
  end.

(** [AUTH_CONFIG_FILE.exists()] is evaluated outside the [try]: when it
    raises, the load raises. Everything raised inside the [try] is caught,
    and the load goes on with the defaults. *)
Definition load_auth_settings (w : World) : result AuthSettings * World :=
  match _cached_auth_settings w with
  | Some s => (Ok s, w)
  | None =>
      if exists_raises w then (Raise (OtherException "PermissionError"), w)
      else
        match auth_config_file w with
        | None => load_defaults w
        | Some text =>
            match loads text with
            | None => load_defaults w
            | Some s =>
                let w1 := set_cache w (Some s) in
                if negb (String.eqb (secret_key (jwt s)) EmptyString) then
                  (Ok s, w1)
                else
                  let s' := with_secret_key s (_generate_secret_key w1) in
                  let w2 := set_cache w1 (Some s') in
                  match save_auth_settings s' w2 with
                  | (Ok _, w3) => (Ok s', w3)
                  | (Raise _, w3) => load_defaults w3
                  end
            end
        end
  end.

Definition clear_auth_settings_cache (w : World) : World :=
  set_cache w None.

Definition get_auth_settings (w : World) : result AuthSettings * World :=
  load_auth_settings w.

(** The object [get_auth_settings] returns is the cached one, so an
    assignment to one of its attributes shows in the cache at once. *)
Definition get_jwt_secret_key (w : World) : result string * World :=
  match get_auth_settings w with
  | (Raise e, w1) => (Raise e, w1)
  | (Ok settings, w1) =>
      if negb (String.eqb (secret_key (jwt settings)) EmptyString) then
        (Ok (secret_key (jwt settings)), w1)
      else
        let settings' := with_secret_key settings (_generate_secret_key w1) in
        let w2 := set_cache w1 (Some settings') in
        match save_auth_settings settings' w2 with
        | (Ok _, w3) => (Ok (secret_key (jwt settings')), w3)
        | (Raise e, w3) => (Raise e, w3)
        end
  end.

Definition mark_setup_complete (w : World) : result unit * World :=
  match get_auth_settings w with
  | (Raise e, w1) => (Raise e, w1)
  | (Ok settings, w1) =>
      let settings' := with_setup_complete settings true in
      let w2 := set_cache w1 (Some settings') in
      match save_auth_settings settings' w2 with
      | (Ok _, w3) => (Ok tt, w3)
      | (Raise e, w3) => (Raise e, w3)
      end
  end.
End Persistence.

End Settings.

(** ** The ORM classes the routes use *)

(** Modelled from the spec: the classes [User], [UserIdentity],
    [UserSession] and [PasswordResetToken] that routes.py imports from
    [models] are not part of models.py as given. Their columns are those of
    the data model (section 3 of the specification), which are also the
    attributes routes.py reads and writes. Timestamps are seconds. *)

Module User.
Record t : Type := mk {
  id : Z;
  username : string;
  email : option string;
  password_hash : option string;
  display_name : option string;
  is_admin : bool;
  is_active : bool;
  auth_provider : string;
  external_id : option string;
  created_at : Z;
  updated_at : Z;
  last_login_at : option Z
}.

Definition set_password_hash (h : option string) (u : t) : t :=
  mk (id u) (username u) (email u) h (display_name u) (is_admin u)
     (is_active u) (auth_provider u) (external_id u) (created_at u)
     (updated_at u) (last_login_at u).

Definition set_updated_at (ts : Z) (u : t) : t :=
  mk (id u) (username u) (email u) (password_hash u) (display_name u)
     (is_admin u) (is_active u) (auth_provider u) (external_id u)
     (created_at u) ts (last_login_at u).

Definition set_last_login_at (ts : option Z) (u : t) : t :=
  mk (id u) (username u) (email u) (password_hash u) (display_name u)
     (is_admin u) (is_active u) (auth_provider u) (external_id u)
     (created_at u) (updated_at u) ts.

Definition set_email (e : option string) (u : t) : t :=
  mk (id u) (username u) e (password_hash u) (display_name u)
     (is_admin u) (is_active u) (auth_provider u) (external_id u)
     (created_at u) (updated_at u) (last_login_at u).

Definition set_display_name (d : option string) (u : t) : t :=
  mk (id u) (username u) (email u) (password_hash u) d
     (is_admin u) (is_active u) (auth_provider u) (external_id u)
     (created_at u) (updated_at u) (last_login_at u).

Definition set_is_admin (b : bool) (u : t) : t :=
  mk (id u) (username u) (email u) (password_hash u) (display_name u)
     b (is_active u) (auth_provider u) (external_id u)
     (created_at u) (updated_at u) (last_login_at u).

Definition set_is_active (b : bool) (u : t) : t :=
  mk (id u) (username u) (email u) (password_hash u) (display_name u)
     (is_admin u) b (auth_provider u) (external_id u)
     (created_at u) (updated_at u) (last_login_at u).
End User.

Module UserIdentity.
Record t : Type := mk {
  id : Z;
  user_id : Z;
  provider : string;
  external_id : option string;
  identifier : string;
  linked_at : Z;
  last_used_at : option Z
}.

Definition set_last_used_at (ts : option Z) (i : t) : t :=
  mk (id i) (user_id i) (provider i) (external_id i) (identifier i)
     (linked_at i) ts.
End UserIdentity.

Module UserSession.
Record t : Type := mk {
  id : Z;
  user_id : Z;
  refresh_token_hash : string;
  ip_address : option string;
  user_agent : string;
  is_revoked : bool;
  expires_at : Z;
  last_used_at : option Z
}.

Definition set_refresh_token_hash (h : string) (s : t) : t :=
  mk (id s) (user_id s) h (ip_address s) (user_agent s) (is_revoked s)
     (expires_at s) (last_used_at s).

Definition set_is_revoked (b : bool) (s : t) : t :=
  mk (id s) (user_id s) (refresh_token_hash s) (ip_address s)
     (user_agent s) b (expires_at s) (last_used_at s).

Definition set_expires_at (ts : Z) (s : t) : t :=
  mk (id s) (user_id s) (refresh_token_hash s) (ip_address s)
     (user_agent s) (is_revoked s) ts (last_used_at s).

Definition set_last_used_at (ts : option Z) (s : t) : t :=
  mk (id s) (user_id s) (refresh_token_hash s) (ip_address s)
     (user_agent s) (is_revoked s) (expires_at s) ts.
End UserSession.

Module PasswordResetToken.
Record t : Type := mk {
  id : Z;
  user_id : Z;
  token_hash : string;
  expires_at : Z;
  used_at : option Z
}.

Definition set_used_at (ts : option Z) (r : t) : t :=
  mk (id r) (user_id r) (token_hash r) (expires_at r) ts.
End PasswordResetToken.

(** ** The database and the ORM session *)

Record Db : Type := mkDb {
  users : list User.t;
  user_identities : list UserIdentity.t;
  user_sessions : list UserSession.t;
  password_reset_tokens : list PasswordResetToken.t
}.

Definition set_users (f : list User.t → list User.t) (db : Db) : Db :=
  mkDb (f (users db)) (user_identities db) (user_sessions db)
       (password_reset_tokens db).

Definition set_user_identities
    (f : list UserIdentity.t → list UserIdentity.t) (db : Db) : Db :=
  mkDb (users db) (f (user_identities db)) (user_sessions db)
       (password_reset_tokens db).

Definition set_user_sessions
    (f : list UserSession.t → list UserSession.t) (db : Db) : Db :=
  mkDb (users db) (user_identities db) (f (user_sessions db))
       (password_reset_tokens db).

Definition set_password_reset_tokens
    (f : list PasswordResetToken.t → list PasswordResetToken.t) (db : Db) : Db :=
  mkDb (users db) (user_identities db) (user_sessions db)
       (f (password_reset_tokens db)).

(** The value an autoincrement primary key takes for the next row. *)
Definition next_id (ids : list Z) : Z := 1 + foldr Z.max 0 ids.

(** A SQLAlchemy [Session]: [working] is what queries of this request see
    (pending changes included), [stored] is what was last committed and is
    all that survives the request. *)
Record Session : Type := mkSession {
  working : Db;
  stored : Db
}.

Definition M (A : Type) : Type := Session → result A * Session.

#[global] Instance M_ret : MRet M := λ A a s, (Ok a, s).

#[global] Instance M_bind : MBind M := λ A B k m s,
  match m s with
  | (Ok a, s') => k a s'
  | (Raise e, s') => (Raise e, s')
  end.

Definition raise {A} (e : exn) : M A := λ s, (Raise e, s).

Definition query : M Db := λ s, (Ok (working s), s).

Definition update (f : Db → Db) : M unit :=
  λ s, (Ok tt, mkSession (f (working s)) (stored s)).

Definition commit : M unit :=
  λ s, (Ok tt, mkSession (working s) (working s)).

(** One request against the store [db]: open a session, run the handler,
    close the session (which drops what was not committed). *)
Definition serve {A} (handler : M A) (db : Db) : result A * Db :=
  let '(r, s) := handler (mkSession db db) in (r, stored s).

(** [Query.filter(...).all()] returns row objects; an object is a position
    in the table together with the row read there. *)
Definition all {A} (P : A → Prop) `{∀ x, Decision (P x)} (tbl : list A)
  : list (nat * A) :=
  filter (λ ir, P ir.2) (imap pair tbl).

(** [Query.filter(...).first()]. *)
Definition first {A} (P : A → Prop) `{∀ x, Decision (P x)} (tbl : list A)
  : option (nat * A) :=
  list_find P tbl.

(** [Query.filter(...).count()]. *)
Definition count {A} (P : A → Prop) `{∀ x, Decision (P x)} (tbl : list A)
  : Z :=
  Z.of_nat (length (filter P tbl)).

(** [try: body except ...]: [handler e] is the clause that catches [e],
    if any. *)
Definition try_except {A} (body : M A) (handler : exn → option (M A)) : M A :=
  λ s, match body s with
       | (Raise e, s') =>
           match handler e with
           | Some h => h s'
           | None => (Raise e, s')
           end
       | r => r
       end.

(** A call into a library that returns or raises without touching the
    session. *)
Definition call {A} (r : result A) : M A := λ s, (r, s).

(** ** What a request reads besides the database *)

(** The clock ([datetime.utcnow()]) and the entropy the request draws
    ([secrets], salts, token identifiers). *)
Record Env : Type := mkEnv {
  utcnow : Z;
  urandom : string
}.

(** JSON claim values, and the claims dictionary of a decoded token. *)
Inductive claim : Type :=
  | CInt (n : Z)
  | CStr (s : string).

#[global] Instance claim_eq_dec : EqDecision claim.
Proof. solve_decision. Defined.

Abbreviation Claims := (gmap string claim).

(** [auth/tokens.py] is not part of the sources given; routes.py is
    verified against its interface. *)
Class TokenLib : Type := {
  create_access_token : Env → Z → string → string;
  create_refresh_token : Env → Z → string;
  decode_token : Env → string → result Claims;
  rotate_refresh_token : Env → string → result (string * string);
  hash_token : string → string
}.

(** The comparison [User.id == value] of a query filter, as the store
    evaluates it for a value bound from a claim. The value
    [claims.get("sub")] is whatever the token carries: an integer is
    compared with the integer column as an integer; what a string is equal
    to is the engine's business (SQLite converts a numeric text before it
    compares), and the routes are verified against any. *)
Class Store : Type := {
  column_eq : Z → claim → bool;
  column_eq_int : ∀ id n, column_eq id (CInt n) = bool_decide (id = n)
}.

Record PasswordValidationResult : Type := mkPasswordValidationResult {
  valid : bool;
  error : option string
}.

(** [auth/password.py] likewise. *)
Class PasswordLib : Type := {
  hash_password : Env → string → string;
  verify_password : string → string → bool;
  validate_password : string → option string → PasswordValidationResult
}.

(** ** auth/password.py: the password policy *)

Module Password.

(** Modelled from the spec: auth/password.py is not among the sources;
    only its tests and its callers are. [validate_password] follows section
    4.2 of the specification: the rules in the order it lists them, the
    first failing rule's message returned. Characters are ASCII. The
    deny-list holds the passwords the unit tests expect to be refused as
    common. *)

Definition isupper (c : ascii) : bool :=
  let n := N_of_ascii c in ((65 <=? n) && (n <=? 90))%N.

Definition islower (c : ascii) : bool :=
  let n := N_of_ascii c in ((97 <=? n) && (n <=? 122))%N.

Definition isdigit (c : ascii) : bool :=
  let n := N_of_ascii c in ((48 <=? n) && (n <=? 57))%N.

Definition isspecial (c : ascii) : bool :=
  negb (isupper c || islower c || isdigit c).

Definition lower_char (c : ascii) : ascii :=
  if isupper c then ascii_of_N (N_of_ascii c + 32) else c.

Fixpoint lower (s : string) : string :=
  match s with
  | EmptyString => EmptyString
  | String c s => String (lower_char c) (lower s)
  end.

(** [any(p(c) for c in s)]. *)
Definition any (p : ascii → bool) (s : string) : bool :=
  existsb p (list_ascii_of_string s).

(** [needle in hay]. *)
Definition contains (needle hay : string) : bool :=
  match String.index 0 needle hay with
  | Some _ => true
  | None => false
  end.

Definition COMMON_PASSWORDS : list string :=
  ["password123!"; "qwerty123!"; "admin123!"; "welcome123!"; "letmein123!"].

Definition failed (msg : string) : PasswordValidationResult :=
  mkPasswordValidationResult false (Some msg).

Definition too_short_message (cfg : Settings.LocalAuthSettings) : string :=
  "Password must be at least "
  +:+ pretty (Settings.min_password_length cfg) +:+ " characters long".

Definition validate_password_with (cfg : Settings.LocalAuthSettings)
    (deny : list string) (password : string) (username : option string)
    : PasswordValidationResult :=
  if Z.of_nat (String.length password) <? Settings.min_password_length cfg then
    failed (too_short_message cfg)
  else if Settings.require_uppercase cfg && negb (any isupper password) then
    failed "Password must contain at least one uppercase letter"
  else if Settings.require_lowercase cfg && negb (any islower password) then
    failed "Password must contain at least one lowercase letter"
  else if Settings.require_number cfg && negb (any isdigit password) then
    failed "Password must contain at least one number"
  else if Settings.require_special cfg && negb (any isspecial password) then
    failed "Password must contain at least one special character"
  else if bool_decide (lower password ∈ deny) then
    failed "Password is too common"
  else if truthy username
          && contains (lower (default EmptyString username)) (lower password) then
    failed "Password cannot contain your username"
  else
    mkPasswordValidationResult true None.

Definition validate_password (password : string) (username : option string)
    : PasswordValidationResult :=
  validate_password_with Settings.default_LocalAuthSettings COMMON_PASSWORDS
    password username.

(** The rules, as the specification lists them. *)
Inductive rule : Type :=
  | MinLength | Uppercase | Lowercase | Number | Special
  | NotCommon | NotUsername.

Definition rules : list rule :=
  [MinLength; Uppercase; Lowercase; Number; Special; NotCommon; NotUsername].

(** Rule [r] is enabled and the password fails it. *)
Definition violates (cfg : Settings.LocalAuthSettings) (deny : list string)
    (password : string) (username : option string) (r : rule) : bool :=
  match r with
  | MinLength =>
      Z.of_nat (String.length password) <? Settings.min_password_length cfg
  | Uppercase => Settings.require_uppercase cfg && negb (any isupper password)
  | Lowercase => Settings.require_lowercase cfg && negb (any islower password)
  | Number => Settings.require_number cfg && negb (any isdigit password)
  | Special => Settings.require_special cfg && negb (any isspecial password)
  | NotCommon => bool_decide (lower password ∈ deny)
  | NotUsername =>
      truthy username
      && contains (lower (default EmptyString username)) (lower password)
  end.

Definition message (cfg : Settings.LocalAuthSettings) (r : rule) : string :=
  match r with
  | MinLength => too_short_message cfg
  | Uppercase => "Password must contain at least one uppercase letter"
  | Lowercase => "Password must contain at least one lowercase letter"
  | Number => "Password must contain at least one number"
  | Special => "Password must contain at least one special character"
  | NotCommon => "Password is too common"
  | NotUsername => "Password cannot contain your username"
  end.

End Password.

(** ** auth/tokens.py: signed tokens *)

Module Tokens.

(** Modelled from the spec: auth/tokens.py is not among the sources; only
    its tests and its callers are. Creation and decoding follow sections
    4.3 and 6 of the specification. A token keeps its three segments
    apart (header, payload, signature) instead of joining their base64url
    encodings with dots; a string that does not split into three segments
    is [None]. [sign] is the keyed signature of header and payload. *)

Record token : Type := mk {
  header : Claims;
  payload : Claims;
  signature : string
}.

Section Signing.
Variable sign : string → Claims → Claims → string.
Variable jwt : Settings.JWTSettings.

Definition encode (claims : Claims) : token :=
  let header : Claims :=
    {[ "alg" := CStr (Settings.algorithm jwt); "typ" := CStr "JWT" ]} in
  mk header claims (sign (Settings.secret_key jwt) header claims).

(** [expires_delta] is in seconds; [None] is the configured lifetime. *)
Definition create_access_token (env : Env) (user_id : Z) (username : string)
    (expires_delta : option Z) : token :=
  let ttl :=
    default (Settings.access_token_expire_minutes jwt * 60) expires_delta in
  encode {[ "sub" := CInt user_id; "username" := CStr username;
            "iat" := CInt (utcnow env); "exp" := CInt (utcnow env + ttl) ]}.

Definition create_refresh_token (env : Env) (user_id : Z)
    (expires_delta : option Z) : token :=
  let ttl :=
    default (Settings.refresh_token_expire_days jwt * (24 * 60 * 60))
            expires_delta in
  encode {[ "sub" := CInt user_id; "type" := CStr "refresh";
            "iat" := CInt (utcnow env); "exp" := CInt (utcnow env + ttl) ]}.

Definition decode_token (env : Env) (tok : option token) : result Claims :=
  match tok with
  | None => Raise (InvalidTokenError "Not enough segments")
  | Some t =>
      if bool_decide (header t !! "alg" ≠ Some (CStr (Settings.algorithm jwt)))
      then Raise (InvalidTokenError "The specified alg value is not allowed")
      else if negb (String.eqb (signature t)
                      (sign (Settings.secret_key jwt) (header t) (payload t)))
      then Raise (InvalidTokenError "Signature verification failed")
      else
        match payload t !! "exp" with
        | Some (CInt exp) =>
            if exp <? utcnow env then Raise TokenExpiredError
            else Ok (payload t)
        | Some (CStr _) =>
            Raise (InvalidTokenError "Expiration Time claim (exp) must be an integer")
        | None => Ok (payload t)
        end
  end.
End Signing.

End Tokens.

(** ** auth/routes.py *)

Module Routes.

Record LoginRequest : Type := {
  username : string;
  password : string
}.

(** The part of the FastAPI [Request] that [login] reads. *)
Record Request : Type := {
  client_host : option string;
  header_user_agent : option string
}.

Record UserResponse : Type := {
  id : Z;
  ur_username : string;
  email : option string;
  display_name : option string;
  is_admin : bool;
  is_active : bool;
  auth_provider : string;
  external_id : option string
}.

Definition model_validate (u : User.t) : UserResponse :=
  {| id := User.id u; ur_username := User.username u;
     email := User.email u; display_name := User.display_name u;
     is_admin := User.is_admin u; is_active := User.is_active u;
     auth_provider := User.auth_provider u;
     external_id := User.external_id u |}.

(** The two cookies [_set_auth_cookies] puts on the response. *)
Record Cookies : Type := {
  access_token : string;
  refresh_token : string
}.

Record LoginResponse : Type := {
  user : UserResponse;
  login_message : string;
  login_cookies : Cookies
}.

Record RefreshResponse : Type := {
  refresh_message : string;
  refresh_cookies : Cookies
}.

Record MessageResponse : Type := { message : string }.

Definition seconds_per_day : Z := 24 * 60 * 60.
Definition seconds_per_hour : Z := 60 * 60.

Module SetupRequest.
Record t : Type := {
  username : string;
  email : string;
  password : string
}.
End SetupRequest.

Module ChangePasswordRequest.
Record t : Type := {
  current_password : string;
  new_password : string
}.
End ChangePasswordRequest.

Module UpdateProfileRequest.
Record t : Type := {
  display_name : option string;
  email : option string
}.
End UpdateProfileRequest.

Module UserUpdateRequest.
Record t : Type := {
  is_admin : option bool;
  is_active : option bool;
  display_name : option string;
  email : option string
}.
End UserUpdateRequest.

Module AuthSettingsUpdateRequest.
Record t : Type := {
  require_auth : option bool;
  primary_auth_mode : option string;
  local_enabled : option bool;
  local_min_password_length : option Z;
  dispatcharr_enabled : option bool;
  dispatcharr_auto_create_users : option bool
}.
End AuthSettingsUpdateRequest.

Module AuthSettingsPublicResponse.
Record t : Type := {
  require_auth : bool;
  primary_auth_mode : string;
  local_enabled : bool;
  local_min_password_length : Z;
  dispatcharr_enabled : bool;
  dispatcharr_auto_create_users : bool
}.
End AuthSettingsPublicResponse.

Module AuthStatusResponse.
Record t : Type := {
  setup_complete : bool;
  require_auth : bool;
  enabled_providers : list string;
  primary_auth_mode : string;
  smtp_configured : bool
}.
End AuthStatusResponse.

(** [SetupResponse], [UpdateProfileResponse] and [UserUpdateResponse]: a
    user view and a message. *)
Record UserMessageResponse : Type := {
  um_user : UserResponse;
  um_message : string
}.

Record SetupRequiredResponse : Type := { required : bool }.

(** [value or None]. *)
Definition or_none (value : string) : option string :=
  if String.eqb value EmptyString then None else Some value.

(** The dependency [require_admin], applied to the user
    [get_current_user] returned. *)
Definition require_admin (user : User.t) : result User.t :=
  if negb (User.is_admin user) then
    Raise (HTTPException HTTP_403_FORBIDDEN "Admin access required")
  else Ok user.

Section Handlers.
Context {TL : TokenLib} {PL : PasswordLib} {ST : Store}.

(** The cached settings object [get_auth_settings()] returns. *)
Variable settings : Settings.AuthSettings.

Definition login (login_request : LoginRequest) (request : Request)
    (env : Env) : M LoginResponse :=
  db ← query;
  let identity :=
    first (λ i, UserIdentity.provider i = "local"
                ∧ UserIdentity.identifier i = username login_request)
          (user_identities db) in
  let user :=
    match identity with
    | Some (_, i) =>
        first (λ u, User.id u = UserIdentity.user_id i) (users db)
    | None =>
        first (λ u, User.username u = username login_request) (users db)
    end in
  match user with
  | None =>
      raise (HTTPException HTTP_401_UNAUTHORIZED
               "Invalid username or password")
  | Some (ku, user) =>
      let has_local_identity :=
        bool_decide (is_Some
          (first (λ i, UserIdentity.user_id i = User.id user
                       ∧ UserIdentity.provider i = "local")
                 (user_identities db))) in
      if negb has_local_identity
         && bool_decide (User.auth_provider user ≠ "local")
      then
        raise (HTTPException HTTP_401_UNAUTHORIZED
                 "Please use your configured authentication provider to log in")
      else if negb (truthy (User.password_hash user))
              || negb (verify_password (password login_request)
                         (default EmptyString (User.password_hash user)))
      then
        raise (HTTPException HTTP_401_UNAUTHORIZED
                 "Invalid username or password")
      else
        match identity with
        | Some (ki, i) =>
            update (set_user_identities
              (<[ki := UserIdentity.set_last_used_at (Some (utcnow env)) i]>))
        | None => mret tt
        end;;
        if negb (User.is_active user) then
          raise (HTTPException HTTP_401_UNAUTHORIZED
                   "User account is disabled")
        else
          let access_token :=
            create_access_token env (User.id user) (User.username user) in
          let refresh_token := create_refresh_token env (User.id user) in
          db1 ← query;
          let user_session :=
            UserSession.mk
              (next_id (UserSession.id <$> user_sessions db1))
              (User.id user)
              (hash_token refresh_token)
              (client_host request)
              (String.substring 0 500
                 (default EmptyString (header_user_agent request)))
              false
              (utcnow env
               + Settings.refresh_token_expire_days (Settings.jwt settings)
                 * seconds_per_day)
              None in
          update (set_user_sessions (λ tbl, (tbl ++ [user_session])%list));;
          let user' := User.set_last_login_at (Some (utcnow env)) user in
          update (set_users (<[ku := user']>));;
          commit;;
          mret {| user := model_validate user';
                  login_message := "Login successful";
                  login_cookies :=
                    {| access_token := access_token;
                       refresh_token := refresh_token |} |}
  end.

(** The [except] clauses of [refresh_tokens]. *)
Definition refresh_handler {A} (e : exn) : option (M A) :=
  match e with
  | TokenExpiredError =>
      Some (raise (AuthenticationError "Refresh token expired"))
  | TokenRevokedError =>
      Some (raise (AuthenticationError "Refresh token revoked"))
  | InvalidTokenError msg =>
      Some (raise (AuthenticationError ("Invalid refresh token: " +:+ msg)))
  | _ => None
  end.

(** [refresh_token] is what [get_refresh_token_from_request(request)]
    returned. *)
Definition refresh_tokens (refresh_token : option string) (env : Env)
    : M RefreshResponse :=
  if negb (truthy refresh_token) then
    raise (AuthenticationError "No refresh token provided")
  else
    let refresh_token := default EmptyString refresh_token in
    try_except
      (claims ← call (decode_token env refresh_token);
       if bool_decide (claims !! "type" ≠ Some (CStr "refresh")) then
         raise (AuthenticationError "Invalid token type")
       else
         match claims !! "sub" with
         | None => raise (AuthenticationError "Invalid token payload")
         | Some user_id =>
             let token_hash := hash_token refresh_token in
             db ← query;
             match first (λ s, UserSession.refresh_token_hash s = token_hash
                               ∧ UserSession.is_revoked s = false)
                         (user_sessions db) with
             | None =>
                 raise (AuthenticationError "Session not found or revoked")
             | Some (k, user_session) =>
                 if bool_decide (UserSession.expires_at user_session
                                 < utcnow env) then
                   raise (AuthenticationError "Session expired")
                 else
                   match first (λ u, column_eq (User.id u) user_id = true)
                               (users db) with
                   | None =>
                       raise (AuthenticationError "User not found or disabled")
                   | Some (_, user) =>
                       if negb (User.is_active user) then
                         raise (AuthenticationError
                                  "User not found or disabled")
                       else
                         '(new_access_token, new_refresh_token) ←
                           call (rotate_refresh_token env refresh_token);
                         let user_session' :=
                           UserSession.set_expires_at
                             (utcnow env
                              + Settings.refresh_token_expire_days
                                  (Settings.jwt settings)
                                * seconds_per_day)
                             (UserSession.set_last_used_at
                                (Some (utcnow env))
                                (UserSession.set_refresh_token_hash
                                   (hash_token new_refresh_token)
                                   user_session)) in
                         update (set_user_sessions (<[k := user_session']>));;
                         commit;;
                         mret {| refresh_message := "Token refreshed";
                                 refresh_cookies :=
                                   {| access_token := new_access_token;
                                      refresh_token := new_refresh_token |} |}
                   end
             end
         end)
      refresh_handler.

(** [except Exception] in [logout] has nothing to catch here: hashing
    and the query do not raise. *)
Definition logout (refresh_token : option string) : M MessageResponse :=
  (if truthy refresh_token then
     let token_hash := hash_token (default EmptyString refresh_token) in
     db ← query;
     match first (λ s, UserSession.refresh_token_hash s = token_hash)
                 (user_sessions db) with
     | Some (k, user_session) =>
         update (set_user_sessions
           (<[k := UserSession.set_is_revoked true user_session]>));;
         commit
     | None => mret tt
     end
   else mret tt);;
  mret {| message := "Logged out successfully" |}.

(** [secrets.token_urlsafe(32)]. *)
Definition token_urlsafe (env : Env) : string := urandom env.

(** After the commit the handler mails the raw token
    ([send_password_reset_email]) and logs whether that worked; neither
    touches the database or the response. *)
Definition forgot_password (email : string) (env : Env)
    : M MessageResponse :=
  db ← query;
  match first (λ u, User.email u = Some email) (users db) with
  | Some (_, user) =>
      if User.is_active user
         && bool_decide (User.auth_provider user = "local") then
        let raw_token := token_urlsafe env in
        let token_hash := hash_password env raw_token in
        let reset_token :=
          PasswordResetToken.mk
            (next_id (PasswordResetToken.id <$> password_reset_tokens db))
            (User.id user)
            token_hash
            (utcnow env + 1 * seconds_per_hour)
            None in
        update (set_password_reset_tokens
                  (λ tbl, (tbl ++ [reset_token])%list));;
        commit
      else mret tt
  | None => mret tt
  end;;
  mret {| message :=
    "If an account with that email exists, a password reset link has been sent." |}.

Definition reset_password (token new_password : string) (env : Env)
    : M MessageResponse :=
  db ← query;
  let reset_tokens :=
    all (λ r, PasswordResetToken.used_at r = None)
        (password_reset_tokens db) in
  let valid_token :=
    snd <$> list_find
      (λ token_record : nat * PasswordResetToken.t,
         verify_password token
           (PasswordResetToken.token_hash token_record.2) = true)
      reset_tokens in
  match valid_token with
  | None =>
      raise (HTTPException HTTP_400_BAD_REQUEST
               "Invalid or expired reset token")
  | Some (k, valid_token) =>
      if bool_decide (PasswordResetToken.expires_at valid_token
                      < utcnow env) then
        raise (HTTPException HTTP_400_BAD_REQUEST
                 "Reset token has expired")
      else
        match first (λ u, User.id u = PasswordResetToken.user_id valid_token)
                    (users db) with
        | None =>
            raise (HTTPException HTTP_400_BAD_REQUEST
                     "Invalid or expired reset token")
        | Some (ku, user) =>
            if negb (User.is_active user) then
              raise (HTTPException HTTP_400_BAD_REQUEST
                       "Invalid or expired reset token")
            else
              let password_result :=
                validate_password new_password (Some (User.username user)) in
              if negb (valid password_result) then
                raise (HTTPException HTTP_422_UNPROCESSABLE_ENTITY
                         (default EmptyString (error password_result)))
              else
                update (set_users
                  (<[ku := User.set_updated_at (utcnow env)
                             (User.set_password_hash
                                (Some (hash_password env new_password))
                                user)]>));;
                update (set_password_reset_tokens
                  (<[k := PasswordResetToken.set_used_at
                            (Some (utcnow env)) valid_token]>));;
                commit;;
                mret {| message := "Password reset successfully" |}
        end
  end.

(** *** Linked identities *)

Definition get_user_identities (user_id : Z)
    : M (list (nat * UserIdentity.t)) :=
  db ← query;
  mret (all (λ i, UserIdentity.user_id i = user_id) (user_identities db)).

Definition add_user_identity (user_id : Z) (provider identifier : string)
    (external_id : option string) (env : Env) : M UserIdentity.t :=
  db ← query;
  let identity :=
    UserIdentity.mk (next_id (UserIdentity.id <$> user_identities db))
      user_id provider external_id identifier (utcnow env) None in
  update (set_user_identities (λ tbl, (tbl ++ [identity])%list));;
  mret identity.

Definition remove_user_identity (identity_id user_id : Z) : M bool :=
  db ← query;
  let identity_count :=
    count (λ i, UserIdentity.user_id i = user_id) (user_identities db) in
  if bool_decide (identity_count ≤ 1) then mret false
  else
    let result :=
      count (λ i, UserIdentity.id i = identity_id
                  ∧ UserIdentity.user_id i = user_id)
            (user_identities db) in
    update (set_user_identities
      (filter (λ i, ¬ (UserIdentity.id i = identity_id
                       ∧ UserIdentity.user_id i = user_id))));;
    mret (bool_decide (0 < result)).

Definition unlink_identity (identity_id : Z) (current_user : User.t)
    : M MessageResponse :=
  db ← query;
  match first (λ i, UserIdentity.id i = identity_id
                    ∧ UserIdentity.user_id i = User.id current_user)
              (user_identities db) with
  | None =>
      raise (HTTPException HTTP_404_NOT_FOUND "Identity not found")
  | Some (k, identity) =>
      let identity_count :=
        count (λ i, UserIdentity.user_id i = User.id current_user)
              (user_identities db) in
      if bool_decide (identity_count ≤ 1) then
        raise (HTTPException HTTP_400_BAD_REQUEST
                 "Cannot unlink your last identity - you would be locked out")
      else
        update (set_user_identities (delete k));;
        commit;;
        mret {| message := "Identity unlinked successfully" |}
  end.

(** *** First-run setup *)

Definition check_setup_required : M SetupRequiredResponse :=
  db ← query;
  let user_count := Z.of_nat (length (users db)) in
  mret {| required := bool_decide (user_count = 0) |}.

(** The columns the constructor call leaves out take their defaults; the
    two creation timestamps default to the clock. *)
Definition initial_setup (setup_request : SetupRequest.t) (env : Env)
    : M UserMessageResponse :=
  db ← query;
  let user_count := Z.of_nat (length (users db)) in
  if bool_decide (0 < user_count) then
    raise (HTTPException HTTP_403_FORBIDDEN
             "Setup already completed. Users already exist.")
  else
    let password_result :=
      validate_password (SetupRequest.password setup_request)
        (Some (SetupRequest.username setup_request)) in
    if negb (valid password_result) then
      raise (HTTPException HTTP_422_UNPROCESSABLE_ENTITY
               (default EmptyString (error password_result)))
    else
      let user :=
        User.mk (next_id (User.id <$> users db))
          (SetupRequest.username setup_request)
          (Some (SetupRequest.email setup_request))
          (Some (hash_password env (SetupRequest.password setup_request)))
          None true true "local" None (utcnow env) (utcnow env) None in
      update (set_users (λ tbl, (tbl ++ [user])%list));;
      db1 ← query;
      let identity :=
        UserIdentity.mk (next_id (UserIdentity.id <$> user_identities db1))
          (User.id user) "local" None
          (SetupRequest.username setup_request) (utcnow env) None in
      update (set_user_identities (λ tbl, (tbl ++ [identity])%list));;
      commit;;
      mret {| um_user := model_validate user; um_message := "Setup complete" |}.

(** *** The current user's own account *)

(** [current_user] is the row object [get_current_user] returned: its
    position in the table and the row. *)
Definition change_password (change_request : ChangePasswordRequest.t)
    (current_user : nat * User.t) (env : Env) : M MessageResponse :=
  let '(ku, current_user) := current_user in
  if negb (truthy (User.password_hash current_user))
     || negb (verify_password
                (ChangePasswordRequest.current_password change_request)
                (default EmptyString (User.password_hash current_user)))
  then
    raise (HTTPException HTTP_401_UNAUTHORIZED "Current password is incorrect")
  else
    let password_result :=
      validate_password (ChangePasswordRequest.new_password change_request)
        (Some (User.username current_user)) in
    if negb (valid password_result) then
      raise (HTTPException HTTP_422_UNPROCESSABLE_ENTITY
               (default EmptyString (error password_result)))
    else
      update (set_users
        (<[ku := User.set_updated_at (utcnow env)
                   (User.set_password_hash
                      (Some (hash_password env
                               (ChangePasswordRequest.new_password change_request)))
                      current_user)]>));;
      commit;;
      mret {| message := "Password changed successfully" |}.

Definition update_current_user_profile
    (update_request : UpdateProfileRequest.t) (current_user : nat * User.t)
    (env : Env) : M UserMessageResponse :=
  let '(ku, current_user) := current_user in
  let named :=
    match UpdateProfileRequest.display_name update_request with
    | Some display_name =>
        User.set_display_name (or_none display_name) current_user
    | None => current_user
    end in
  update (set_users (<[ku := named]>));;
  mailed ←
    match UpdateProfileRequest.email update_request with
    | Some email =>
        db ← query;
        if negb (String.eqb email EmptyString)
           && bool_decide (is_Some
                (first (λ u, User.email u = Some email
                             ∧ User.id u ≠ User.id current_user)
                       (users db)))
        then raise (HTTPException HTTP_409_CONFLICT "Email already in use")
        else mret (User.set_email (or_none email) named)
    | None => mret named
    end;
  let updated := User.set_updated_at (utcnow env) mailed in
  update (set_users (<[ku := updated]>));;
  commit;;
  mret {| um_user := model_validate updated; um_message := "Profile updated" |}.

(** *** Administration of users *)

Definition update_user (user_id : Z) (update_request : UserUpdateRequest.t)
    (caller : User.t) (env : Env) : M UserMessageResponse :=
  admin_user ← call (require_admin caller);
  db ← query;
  match first (λ u, User.id u = user_id) (users db) with
  | None => raise (HTTPException HTTP_404_NOT_FOUND "User not found")
  | Some (k, user) =>
      if bool_decide (UserUpdateRequest.is_admin update_request = Some false)
         && bool_decide (User.id user = User.id admin_user) then
        raise (HTTPException HTTP_400_BAD_REQUEST
                 "Cannot remove your own admin status")
      else if bool_decide (UserUpdateRequest.is_active update_request
                           = Some false)
              && bool_decide (User.id user = User.id admin_user) then
        raise (HTTPException HTTP_400_BAD_REQUEST
                 "Cannot deactivate your own account")
      else
        let user1 :=
          match UserUpdateRequest.is_admin update_request with
          | Some b => User.set_is_admin b user
          | None => user
          end in
        let user2 :=
          match UserUpdateRequest.is_active update_request with
          | Some b => User.set_is_active b user1
          | None => user1
          end in
        let user3 :=
          match UserUpdateRequest.display_name update_request with
          | Some d => User.set_display_name (Some d) user2
          | None => user2
          end in
        let user4 :=
          match UserUpdateRequest.email update_request with
          | Some e => User.set_email (Some e) user3
          | None => user3
          end in
        let user5 := User.set_updated_at (utcnow env) user4 in
        update (set_users (<[k := user5]>));;
        commit;;
        mret {| um_user := model_validate user5; um_message := "User updated" |}
  end.

(** What deleting the user object does to the identity rows: the cascade
    the relationship declares in [models], which is not among the sources. *)
Variable on_delete_user : User.t → list UserIdentity.t → list UserIdentity.t.

Definition delete_user (user_id : Z) (caller : User.t) : M MessageResponse :=
  admin_user ← call (require_admin caller);
  db ← query;
  match first (λ u, User.id u = user_id) (users db) with
  | None => raise (HTTPException HTTP_404_NOT_FOUND "User not found")
  | Some (k, user) =>
      if bool_decide (User.id user = User.id admin_user) then
        raise (HTTPException HTTP_400_BAD_REQUEST
                 "Cannot delete your own account")
      else
        let username := User.username user in
        update (set_user_sessions
                  (filter (λ s, UserSession.user_id s ≠ user_id)));;
        update (set_password_reset_tokens
                  (filter (λ r, PasswordResetToken.user_id r ≠ user_id)));;
        update (set_users (delete k));;
        update (set_user_identities (on_delete_user user));;
        commit;;
        mret {| message := "User '" +:+ username +:+ "' deleted" |}
  end.

End Handlers.

(** *** Endpoints over the settings *)

Section SettingsHandlers.
Variable dumps : Settings.AuthSettings → option string.
Variable loads : string → option Settings.AuthSettings.

(** [user_count] is [session.query(User).count()], and [smtp_configured]
    what [get_settings().is_smtp_configured()] answers. *)
Definition get_auth_status (user_count : Z) (smtp_configured : bool)
    (w : Settings.World) : result AuthStatusResponse.t * Settings.World :=
  match Settings.get_auth_settings dumps loads w with
  | (Raise e, w1) => (Raise e, w1)
  | (Ok auth_settings, w1) =>
      let respond setup_complete auth_settings :=
        {| AuthStatusResponse.setup_complete := setup_complete;
           AuthStatusResponse.require_auth :=
             Settings.require_auth auth_settings;
           AuthStatusResponse.enabled_providers :=
             Settings.get_enabled_providers auth_settings;
           AuthStatusResponse.primary_auth_mode :=
             Settings.primary_auth_mode auth_settings;
           AuthStatusResponse.smtp_configured := smtp_configured |} in
      if negb (Settings.setup_complete auth_settings)
         && bool_decide (0 < user_count) then
        let auth_settings' := Settings.with_setup_complete auth_settings true in
        let w2 := Settings.set_cache w1 (Some auth_settings') in
        match Settings.save_auth_settings dumps auth_settings' w2 with
        | (Ok _, w3) => (Ok (respond true auth_settings'), w3)
        | (Raise e, w3) => (Raise e, w3)
        end
      else
        (Ok (respond (Settings.setup_complete auth_settings) auth_settings), w1)
  end.

Definition get_admin_auth_settings (caller : User.t) (w : Settings.World)
    : result AuthSettingsPublicResponse.t * Settings.World :=
  match require_admin caller with
  | Raise e => (Raise e, w)
  | Ok admin_user =>
      match Settings.get_auth_settings dumps loads w with
      | (Raise e, w1) => (Raise e, w1)
      | (Ok settings, w1) =>
          (Ok {| AuthSettingsPublicResponse.require_auth :=
                   Settings.require_auth settings;
                 AuthSettingsPublicResponse.primary_auth_mode :=
                   Settings.primary_auth_mode settings;
                 AuthSettingsPublicResponse.local_enabled :=
                   Settings.local_enabled (Settings.local settings);
                 AuthSettingsPublicResponse.local_min_password_length :=
                   Settings.min_password_length (Settings.local settings);
                 AuthSettingsPublicResponse.dispatcharr_enabled :=
                   Settings.dispatcharr_enabled (Settings.dispatcharr settings);
                 AuthSettingsPublicResponse.dispatcharr_auto_create_users :=
                   Settings.auto_create_users (Settings.dispatcharr settings) |},
           w1)
      end
  end.

(** The assignments of [update_admin_auth_settings], in its order. *)
Definition apply_update (r : AuthSettingsUpdateRequest.t)
    (settings : Settings.AuthSettings) : Settings.AuthSettings :=
  let s1 :=
    match AuthSettingsUpdateRequest.require_auth r with
    | Some b => Settings.with_require_auth settings b
    | None => settings
    end in
  let s2 :=
    match AuthSettingsUpdateRequest.primary_auth_mode r with
    | Some m => Settings.with_primary_auth_mode s1 m
    | None => s1
    end in
  let s3 :=
    match AuthSettingsUpdateRequest.local_enabled r with
    | Some b =>
        Settings.with_local s2 (Settings.with_local_enabled (Settings.local s2) b)
    | None => s2
    end in
  let s4 :=
    match AuthSettingsUpdateRequest.local_min_password_length r with
    | Some n =>
        Settings.with_local s3
          (Settings.with_min_password_length (Settings.local s3) n)
    | None => s3
    end in
  let s5 :=
    match AuthSettingsUpdateRequest.dispatcharr_enabled r with
    | Some b =>
        Settings.with_dispatcharr s4
          (Settings.with_dispatcharr_enabled (Settings.dispatcharr s4) b)
    | None => s4
    end in
  match AuthSettingsUpdateRequest.dispatcharr_auto_create_users r with
  | Some b =>
      Settings.with_dispatcharr s5
        (Settings.with_auto_create_users (Settings.dispatcharr s5) b)
  | None => s5
  end.

Definition update_admin_auth_settings
    (update_request : AuthSettingsUpdateRequest.t) (caller : User.t)
    (w : Settings.World) : result MessageResponse * Settings.World :=
  match require_admin caller with
  | Raise e => (Raise e, w)
  | Ok admin_user =>
      match Settings.get_auth_settings dumps loads w with
      | (Raise e, w1) => (Raise e, w1)
      | (Ok settings, w1) =>
          let settings' := apply_update update_request settings in
          let w2 := Settings.set_cache w1 (Some settings') in
          match Settings.save_auth_settings dumps settings' w2 with
          | (Ok _, w3) => (Ok {| message := "Settings updated" |}, w3)
          | (Raise e, w3) => (Raise e, w3)
          end
      end
  end.
End SettingsHandlers.
End Routes.

(** ** The endpoints as a state machine over the store *)

Module Api.

Inductive request : Type :=
  | Login (login_request : Routes.LoginRequest) (request : Routes.Request)
  | Refresh (refresh_token : option string)
  | Logout (refresh_token : option string)
  | ForgotPassword (email : string)
  | ResetPassword (token new_password : string)
  | UnlinkIdentity (identity_id : Z) (current_user : User.t).

Section Machine.
Context {TL : TokenLib} {PL : PasswordLib} {ST : Store}.
Variable settings : Settings.AuthSettings.

(** The handler of a request; what it returns here is the cookie pair
    it set, if it set one. *)
Definition handler (q : request) (env : Env) : M (option Routes.Cookies) :=
  match q with
  | Login login_request request =>
      r ← Routes.login settings login_request request env;
      mret (Some (Routes.login_cookies r))
  | Refresh refresh_token =>
      r ← Routes.refresh_tokens settings refresh_token env;
      mret (Some (Routes.refresh_cookies r))
  | Logout refresh_token =>
      Routes.logout refresh_token;; mret None
  | ForgotPassword email =>
      Routes.forgot_password email env;; mret None
  | ResetPassword token new_password =>
      Routes.reset_password token new_password env;; mret None
  | UnlinkIdentity identity_id current_user =>
      Routes.unlink_identity identity_id current_user;; mret None
  end.

Definition step (db : Db) (q : request * Env)
    : result (option Routes.Cookies) * Db :=
  serve (handler q.1 q.2) db.

(** The store after a sequence of requests, each served in turn. *)
Fixpoint run (db : Db) (qs : list (request * Env)) : Db :=
  match qs with
  | [] => db
  | q :: qs => run (step db q).2 qs
  end.

(** No request of the sequence sets a refresh cookie whose hash is [h]. *)
Fixpoint never_issues (h : string) (db : Db) (qs : list (request * Env))
    : Prop :=
  match qs with
  | [] => True
  | q :: qs =>
      (∀ c, (step db q).1 = Ok (Some c) →
            hash_token (Routes.refresh_token c) ≠ h)
      ∧ never_issues h (step db q).2 qs
  end.

(** Every refresh cookie a request of the sequence sets is fresh: its hash
    is stored in no live row when the request arrives. *)
Fixpoint always_fresh (db : Db) (qs : list (request * Env)) : Prop :=
  match qs with
  | [] => True
  | q :: qs =>
      (∀ c, (step db q).1 = Ok (Some c) →
            Forall (λ us, ¬ (UserSession.refresh_token_hash us
                             = hash_token (Routes.refresh_token c)
                             ∧ UserSession.is_revoked us = false))
              (user_sessions db))
      ∧ always_fresh (step db q).2 qs
  end.
End Machine.
End Api.

(** ** Vocabulary of the statements *)

(** A session row is live for a hash when it stores that hash and is not
    revoked: the filter of the session query in [refresh_tokens]. *)
Definition live (h : string) (us : UserSession.t) : Prop :=
  UserSession.refresh_token_hash us = h ∧ UserSession.is_revoked us = false.

#[global] Instance live_dec h us : Decision (live h us).
Proof. unfold live. apply _. Defined.

(** At most one row of the table satisfies [P]. *)
Definition at_most_one {A} (P : A → Prop) `{∀ x, Decision (P x)}
    (tbl : list A) : Prop :=
  (length (filter P tbl) ≤ 1)%nat.

(** No two live rows of the session table store the same hash. *)
Definition live_hashes_distinct (db : Db) : Prop :=
  ∀ h, at_most_one (live h) (user_sessions db).

Section Vocabulary.
Context {TL : TokenLib} {PL : PasswordLib} {ST : Store}.
Variable settings : Settings.AuthSettings.

(** The row a successful rotation writes back. *)
Definition rotated (env : Env) (new_refresh_token : string)
    (us : UserSession.t) : UserSession.t :=
  UserSession.set_expires_at
    (utcnow env
     + Settings.refresh_token_expire_days (Settings.jwt settings)
       * Routes.seconds_per_day)
    (UserSession.set_last_used_at (Some (utcnow env))
       (UserSession.set_refresh_token_hash (hash_token new_refresh_token) us)).

(** The raw reset token [token] verifies against the record's hash: the
    record is one of [token]'s. *)
Definition names (token : string) (r : PasswordResetToken.t) : Prop :=
  verify_password token (PasswordResetToken.token_hash r) = true.

#[global] Instance names_dec `{PasswordLib} token r : Decision (names token r).
Proof. unfold names. apply _. Defined.

(** A reset record that was used, or whose expiry is in the past. *)
Definition spent (now : Z) (r : PasswordResetToken.t) : Prop :=
  PasswordResetToken.used_at r ≠ None ∨ PasswordResetToken.expires_at r < now.

(** The user [login] resolves a username to: through the local identity
    when there is one, through the username column otherwise. *)
Definition login_user (db : Db) (username : string) : option User.t :=
  match first (λ i, UserIdentity.provider i = "local"
                    ∧ UserIdentity.identifier i = username)
              (user_identities db) with
  | Some (_, i) =>
      snd <$> first (λ u, User.id u = UserIdentity.user_id i) (users db)
  | None => snd <$> first (λ u, User.username u = username) (users db)
  end.

(** The user may log in with a password: a local identity row, or the
    legacy [auth_provider] column saying so. *)
Definition local_account (db : Db) (user : User.t) : Prop :=
  (∃ i, i ∈ user_identities db
        ∧ UserIdentity.user_id i = User.id user
        ∧ UserIdentity.provider i = "local")
  ∨ User.auth_provider user = "local".

(** The password does not open the account: no usable hash, or the
    hash does not verify. *)
Definition wrong_password (password : string) (user : User.t) : Prop :=
  truthy (User.password_hash user) = false
  ∨ verify_password password
      (default EmptyString (User.password_hash user)) = false.

(** The user [forgot_password] looks at is one it mails a token to. *)
Definition reset_eligible (db : Db) (email : string) : bool :=
  match first (λ u, User.email u = Some email) (users db) with
  | Some (_, user) =>
      User.is_active user && bool_decide (User.auth_provider user = "local")
  | None => false
  end.

(** How many identities a user has. *)
Definition identity_count (user_id : Z) (db : Db) : Z :=
  count (λ i, UserIdentity.user_id i = user_id) (user_identities db).

(** The session row [login] stores. *)
Definition opened_session (db : Db) (user : User.t) (request : Routes.Request)
    (env : Env) : UserSession.t :=
  UserSession.mk
    (next_id (UserSession.id <$> user_sessions db))
    (User.id user)
    (hash_token (create_refresh_token env (User.id user)))
    (Routes.client_host request)
    (String.substring 0 500
       (default EmptyString (Routes.header_user_agent request)))
    false
    (utcnow env
     + Settings.refresh_token_expire_days (Settings.jwt settings)
       * Routes.seconds_per_day)
    None.

(** The administrator [initial_setup] creates in an empty user table. *)
Definition first_admin (setup_request : Routes.SetupRequest.t) (env : Env)
    : User.t :=
  User.mk 1 (Routes.SetupRequest.username setup_request)
    (Some (Routes.SetupRequest.email setup_request))
    (Some (hash_password env (Routes.SetupRequest.password setup_request)))
    None true true "local" None (utcnow env) (utcnow env) None.
End Vocabulary.

(** No two users have the same email. *)
Definition emails_unique (db : Db) : Prop :=
  ∀ e, at_most_one (λ u, User.email u = Some e) (users db).

(** ** A scenario: test doubles for the two libraries, and a small store *)

Module Scenario.

(** Tokens are tagged strings; they belong to user 1, but for carol's. *)
Definition tokens : TokenLib := {|
  create_access_token env user_id username := "access-" +:+ urandom env;
  create_refresh_token env user_id := "refresh-" +:+ urandom env;
  decode_token env tok :=
    if String.prefix "refresh-carol" tok then
      Ok ({[ "sub" := CInt 3; "type" := CStr "refresh" ]} : Claims)
    else if String.prefix "refresh-" tok then
      Ok ({[ "sub" := CInt 1; "type" := CStr "refresh" ]} : Claims)
    else if String.prefix "access-" tok then
      Ok ({[ "sub" := CInt 1; "username" := CStr "admin" ]} : Claims)
    else Raise (InvalidTokenError "Not enough segments");
  rotate_refresh_token env tok :=
    Ok ("access-" +:+ urandom env, "refresh-" +:+ urandom env);
  hash_token tok := "sha256:" +:+ tok
|}.

(** Unsalted hashing. *)
Definition passwords : PasswordLib := {|
  hash_password env plain := "$2b$12$" +:+ plain;
  verify_password plain hashed :=
    negb (String.eqb plain EmptyString)
    && String.eqb hashed ("$2b$12$" +:+ plain);
  validate_password := Password.validate_password
|}.

(** The same tokens with a lifetime: they have expired after time 5000. *)
Definition expiring_tokens : TokenLib := {|
  create_access_token := create_access_token (TokenLib:=tokens);
  create_refresh_token := create_refresh_token (TokenLib:=tokens);
  decode_token env tok :=
    if bool_decide (5000 < utcnow env) then Raise TokenExpiredError
    else decode_token (TokenLib:=tokens) env tok;
  rotate_refresh_token := rotate_refresh_token (TokenLib:=tokens);
  hash_token := hash_token (TokenLib:=tokens)
|}.

(** A store that takes a string for the id it is the decimal numeral of. *)
Definition store : Store := {|
  column_eq id c :=
    match c with
    | CInt n => bool_decide (id = n)
    | CStr text => String.eqb text (pretty id)
    end;
  column_eq_int id n := eq_refl
|}.

Definition settings : Settings.AuthSettings := Settings.default_AuthSettings.

Definition admin : User.t :=
  User.mk 1 "admin" (Some "admin@example.com")
    (Some "$2b$12$validpassword123") None true true "local" None 0 0 None.

(** A single sign-on account: no password hash, no local identity. *)
Definition bob : User.t :=
  User.mk 2 "bob" (Some "bob@example.com") None None false true
    "dispatcharr" (Some "42") 0 0 None.

(** A deactivated local account. *)
Definition carol : User.t :=
  User.mk 3 "carol" (Some "carol@example.com")
    (Some "$2b$12$CarolPass123!") None false false "local" None 0 0 None.

Definition db : Db := {|
  users := [admin; bob; carol];
  user_identities :=
    [UserIdentity.mk 1 1 "local" None "admin" 0 None;
     UserIdentity.mk 2 2 "dispatcharr" (Some "42") "bob" 0 None;
     UserIdentity.mk 3 3 "local" None "carol" 0 None];
  user_sessions :=
    [UserSession.mk 1 1 "sha256:refresh-1" None "pytest" false 604800 None;
     UserSession.mk 2 3 "sha256:refresh-carol" None "pytest" false 604800 None];
  password_reset_tokens :=
    [PasswordResetToken.mk 1 1 "$2b$12$reset-1" 3600 None]
|}.

Definition at_time (now : Z) (entropy : string) : Env := mkEnv now entropy.

(** A keyed signature for the scenario: the key, and the subject and
    expiry it covers. *)
Definition sign (secret : string) (header payload : Claims) : string :=
  let show (c : option claim) : string :=
    match c with
    | Some (CInt n) => pretty n
    | Some (CStr s) => s
    | None => "-"
    end in
  secret +:+ ":" +:+ show (payload !! "sub") +:+ ":" +:+ show (payload !! "exp").

(** What the first refresh with ["refresh-1"] answers at time 1000. *)
Definition rotation_reply : Routes.RefreshResponse :=
  {| Routes.refresh_message := "Token refreshed";
     Routes.refresh_cookies :=
       {| Routes.access_token := "access-r2";
          Routes.refresh_token := "refresh-r2" |} |}.

(** Requests that follow it: a login, a logout of the rotated session,
    a refresh of the login's session, and a first replay. *)
Definition later_requests : list (Api.request * Env) :=
  [(Api.Login
      {| Routes.username := "admin"; Routes.password := "validpassword123" |}
      {| Routes.client_host := Some "127.0.0.1";
         Routes.header_user_agent := Some "pytest" |},
    at_time 1100 "r3");
   (Api.Logout (Some "refresh-r2"), at_time 1200 "r0");
   (Api.Refresh (Some "refresh-r3"), at_time 1300 "r4");
   (Api.Refresh (Some "refresh-1"), at_time 1400 "r6")].

(** A configuration file that keeps the signing key only. *)
Definition dumps (s : Settings.AuthSettings) : option string :=
  Some (Settings.secret_key (Settings.jwt s)).

Definition loads (text : string) : option Settings.AuthSettings :=
  if String.eqb text EmptyString then None
  else Some (Settings.with_secret_key Settings.default_AuthSettings text).

(** A fresh installation on a writable disk, and one on a read-only disk
    with an unreadable file. *)
Definition fresh_world : Settings.World :=
  {| Settings._cached_auth_settings := None;
     Settings.auth_config_file := None;
     Settings.mkdir_succeeds := true;
     Settings.config_disk := Settings.Writable;
     Settings.next_secret := "k1" |}.

Definition read_only_world : Settings.World :=
  {| Settings._cached_auth_settings := None;
     Settings.auth_config_file := Some EmptyString;
     Settings.mkdir_succeeds := true;
     Settings.config_disk := Settings.ReadOnly;
     Settings.next_secret := "k2" |}.

(** A disk that fills up as soon as the file has been opened for writing,
    and a configuration directory that cannot be searched. *)
Definition full_world : Settings.World :=
  {| Settings._cached_auth_settings := None;
     Settings.auth_config_file := Some EmptyString;
     Settings.mkdir_succeeds := true;
     Settings.config_disk := Settings.Full 1;
     Settings.next_secret := "k3" |}.

Definition unsearchable_world : Settings.World :=
  {| Settings._cached_auth_settings := None;
     Settings.auth_config_file := Some EmptyString;
     Settings.mkdir_succeeds := true;
     Settings.config_disk := Settings.Unsearchable;
     Settings.next_secret := "k4" |}.

Definition keyed_settings : Settings.AuthSettings :=
  Settings.with_secret_key Settings.default_AuthSettings "k0".

Definition settings_update : Routes.AuthSettingsUpdateRequest.t :=
  {| Routes.AuthSettingsUpdateRequest.require_auth := Some false;
     Routes.AuthSettingsUpdateRequest.primary_auth_mode := None;
     Routes.AuthSettingsUpdateRequest.local_enabled := None;
     Routes.AuthSettingsUpdateRequest.local_min_password_length := Some 12;
     Routes.AuthSettingsUpdateRequest.dispatcharr_enabled := Some true;
     Routes.AuthSettingsUpdateRequest.dispatcharr_auto_create_users := None |}.

Definition request : Routes.Request :=
  {| Routes.client_host := Some "127.0.0.1";
     Routes.header_user_agent := Some "pytest" |}.

Definition admin_login : Routes.LoginRequest :=
  {| Routes.username := "admin"; Routes.password := "validpassword123" |}.

Definition carol_login : Routes.LoginRequest :=
  {| Routes.username := "carol"; Routes.password := "CarolPass123!" |}.

Definition setup_request : Routes.SetupRequest.t :=
  {| Routes.SetupRequest.username := "root";
     Routes.SetupRequest.email := "root@example.com";
     Routes.SetupRequest.password := "ValidPass123!" |}.

Definition empty_db : Db := mkDb [] [] [] [].

(** The identity rows of a deleted user go with it. *)
Definition cascade (user : User.t) (tbl : list UserIdentity.t)
    : list UserIdentity.t :=
  filter (λ i, UserIdentity.user_id i ≠ User.id user) tbl.

(** An administrator who tries to demote and deactivate themselves. *)
Definition demote_self : Routes.UserUpdateRequest.t :=
  {| Routes.UserUpdateRequest.is_admin := Some false;
     Routes.UserUpdateRequest.is_active := Some false;
     Routes.UserUpdateRequest.display_name := None;
     Routes.UserUpdateRequest.email := None |}.

(** A profile update that asks for an email another user has. *)
Definition take_bobs_email : Routes.UpdateProfileRequest.t :=
  {| Routes.UpdateProfileRequest.display_name := Some "Administrator";
     Routes.UpdateProfileRequest.email := Some "bob@example.com" |}.

End Scenario.

(** * Properties *)

(** ** The settings cache *)

(** C10. Whenever [save_auth_settings s] returns, [s] is the cached
    settings, and the next [get_auth_settings] returns [s] without touching
    the world. When the configuration directory cannot be created the
    call returns [False] and the file is what it was; when the write raises
    an [OSError] it returns [False] as well, and the file is what the failed
    write left of it: the file as it was when it could not be opened, the
    part written when the write failed after the open truncated it. *)
Theorem save_auth_settings_caches dumps loads (s : Settings.AuthSettings)
    (w : Settings.World) :
  (∀ b w', Settings.save_auth_settings dumps s w = (Ok b, w') →
     Settings._cached_auth_settings w' = Some s
     ∧ Settings.get_auth_settings dumps loads w' = (Ok s, w'))
  ∧ (Settings.mkdir_succeeds w = false →
     ∃ w', Settings.save_auth_settings dumps s w = (Ok false, w')
           ∧ Settings.auth_config_file w' = Settings.auth_config_file w)
  ∧ (Settings.mkdir_succeeds w = true → Settings.write_succeeds w = false →
     ∀ j, dumps s = Some j →
     ∃ w', Settings.save_auth_settings dumps s w = (Ok false, w')
           ∧ Settings.auth_config_file w' = Settings.after_failed_write w j)
  ∧ (Settings.mkdir_succeeds w = true → Settings.write_succeeds w = true →
     ∀ j, dumps s = Some j →
     ∃ w', Settings.save_auth_settings dumps s w = (Ok true, w')
           ∧ Settings.auth_config_file w' = Some j).
Proof.
  unfold Settings.save_auth_settings, Settings._ensure_config_dir.
  split; [|split; [|split]].
  - intros b w' Hsave.
    assert (Hc : Settings._cached_auth_settings w' = Some s).
    { destruct (Settings.mkdir_succeeds w); simpl in Hsave.
      - destruct (dumps s); [|discriminate].
        destruct (Settings.write_succeeds w); inversion Hsave; reflexivity.
      - inversion Hsave; reflexivity. }
    split; [exact Hc|].
    unfold Settings.get_auth_settings, Settings.load_auth_settings.
    rewrite Hc. reflexivity.
  - intros ->. simpl. eexists; split; reflexivity.
  - intros -> -> j ->. simpl. eexists; split; reflexivity.
  - intros -> -> j ->. simpl. eexists; split; reflexivity.
Qed.

(** ** Stepping through a handler *)

Ltac unfold_M :=
  unfold mbind, M_bind, mret, M_ret, raise, query, update, commit, call,
    try_except.

Ltac run_handler :=
  unfold_M; simpl;
  repeat (case_match; simpl in *; simplify_eq; try done).

Lemma serve_bind_ret {A B} (m : M A) (f : A → B) (db : Db) :
  serve (r ← m; mret (f r)) db
  = match serve m db with
    | (Ok r, db') => (Ok (f r), db')
    | (Raise e, db') => (Raise e, db')
    end.
Proof. unfold serve. unfold_M. by destruct (m _) as [[r|e] s']. Qed.

(** ** Tables *)

Lemma at_most_one_lookup {A} (P : A → Prop) `{∀ x, Decision (P x)}
    (tbl : list A) (j k : nat) (x y : A) :
  at_most_one P tbl →
  tbl !! j = Some x → tbl !! k = Some y → P x → P y → j = k.
Proof.
  unfold at_most_one. revert j k.
  induction tbl as [|z tbl IH]; intros j k Hone Hj Hk Hx Hy; [done|].
  rewrite filter_cons in Hone.
  assert (Hnone : P z → ∀ i w, tbl !! i = Some w → ¬ P w).
  { intros Hz i w Hi Hw. rewrite decide_True in Hone by done. simpl in Hone.
    assert (Hin : w ∈ filter P tbl).
    { apply list_elem_of_filter. split; [done|]. by eapply list_elem_of_lookup_2. }
    destruct (filter P tbl); [by apply elem_of_nil in Hin | simpl in Hone; lia]. }
  destruct j as [|j], k as [|k]; simpl in *; simplify_eq.
  - done.
  - by destruct (Hnone Hx k y).
  - by destruct (Hnone Hy j x).
  - f_equal. apply IH; try done. destruct (decide (P z)); simpl in *; lia.
Qed.

Lemma truthy_Some (tok : string) : tok ≠ EmptyString → truthy (Some tok) = true.
Proof.
  intros Hne. simpl. destruct (String.eqb_spec tok EmptyString); [done | reflexivity].
Qed.

Lemma filter_insert_length {A} (P : A → Prop) `{∀ x, Decision (P x)}
    (l : list A) (k : nat) (x y : A) :
  l !! k = Some x → (P x ↔ P y) →
  length (filter P (<[k:=y]> l)) = length (filter P l).
Proof.
  revert k. induction l as [|z l IH]; intros k Hk Hxy; [done|].
  destruct k as [|k]; simpl in *.
  - simplify_eq. rewrite !filter_cons.
    destruct (decide (P x)), (decide (P y)); simpl; tauto.
  - rewrite !filter_cons. destruct (decide (P z)); simpl; rewrite IH; done.
Qed.

Lemma filter_delete_length {A} (P : A → Prop) `{∀ x, Decision (P x)}
    (l : list A) (k : nat) (x : A) :
  l !! k = Some x →
  length (filter P l)
  = (length (filter P (delete k l)) + (if decide (P x) then 1 else 0))%nat.
Proof.
  revert k. induction l as [|z l IH]; intros k Hk; [done|].
  destruct k as [|k]; simpl in *.
  - simplify_eq. rewrite filter_cons. destruct (decide (P x)); simpl; lia.
  - rewrite !filter_cons. destruct (decide (P z)); simpl; rewrite (IH k Hk); lia.
Qed.

Lemma filter_split_length {A} (P Q : A → Prop) `{∀ x, Decision (P x)}
    `{∀ x, Decision (Q x)} (l : list A) :
  (length (filter P l)
   ≤ length (filter P (filter (λ x, ¬ Q x) l)) + length (filter Q l))%nat.
Proof.
  induction l as [|z l IH]; [done|].
  rewrite !filter_cons.
  destruct (decide (Q z)), (decide (P z)), (decide (¬ Q z)); simpl;
    rewrite ?filter_cons; try (destruct (decide (P z))); simpl; try lia; tauto.
Qed.

Lemma filter_unaffected_length {A} (P Q : A → Prop) `{∀ x, Decision (P x)}
    `{∀ x, Decision (Q x)} (l : list A) :
  (∀ x, Q x → ¬ P x) →
  length (filter P (filter (λ x, ¬ Q x) l)) = length (filter P l).
Proof.
  intros HQP. induction l as [|z l IH]; [done|].
  rewrite !filter_cons.
  destruct (decide (¬ Q z)) as [Hq|Hq]; simpl.
  - rewrite filter_cons. destruct (decide (P z)); simpl; by rewrite IH.
  - apply dec_stable in Hq. rewrite decide_False by by apply HQP. done.
Qed.

Lemma primary_key_length (l : list UserIdentity.t) (a : Z) (Q : UserIdentity.t → Prop) `{∀ x, Decision (Q x)} :
  NoDup (UserIdentity.id <$> l) →
  (length (filter (λ i, UserIdentity.id i = a ∧ Q i) l) ≤ 1)%nat.
Proof.
  induction l as [|z l IH]; [simpl; lia|].
  rewrite fmap_cons, NoDup_cons. intros [Hz Hl]. rewrite filter_cons.
  destruct (decide _) as [[Hid _]|_]; [|by apply IH]. simpl.
  assert (filter (λ i, UserIdentity.id i = a ∧ Q i) l = []) as ->; [|simpl; lia].
  destruct (filter _ l) as [|w ws] eqn:Hf; [done|]. exfalso. apply Hz.
  assert (Hw : w ∈ filter (λ i, UserIdentity.id i = a ∧ Q i) l)
    by (rewrite Hf; left).
  apply list_elem_of_filter in Hw as [[Hwa _] Hw].
  rewrite Hid, <- Hwa. by apply list_elem_of_fmap_2.
Qed.

Lemma filter_none_length {A} (P : A → Prop) `{∀ x, Decision (P x)} (l : list A) :
  Forall (λ x, ¬ P x) l → length (filter P l) = 0%nat.
Proof.
  induction 1 as [|x l Hx _ IH]; [done|]. by rewrite filter_cons, decide_False.
Qed.

Lemma filter_insert_length_le {A} (P : A → Prop) `{∀ x, Decision (P x)}
    (l : list A) (k : nat) (y : A) :
  (length (filter P (<[k:=y]> l))
   ≤ length (filter P l) + (if decide (P y) then 1 else 0))%nat.
Proof.
  revert k. induction l as [|z l IH]; intros k; [simpl; lia|].
  destruct k as [|k]; simpl; rewrite !filter_cons.
  - repeat case_decide; simpl; lia.
  - specialize (IH k). repeat case_decide; simpl in *; lia.
Qed.

Lemma first_live (h : string) (tbl : list UserSession.t) :
  first (live h) tbl
  = first (λ s, UserSession.refresh_token_hash s = h
                ∧ UserSession.is_revoked s = false) tbl.
Proof. reflexivity. Qed.

(** ** Token refresh *)

Section Refresh.
Context {TL : TokenLib} {ST : Store}.
Variable settings : Settings.AuthSettings.

(** For an integer subject the store selects the user by its id. *)
Lemma first_column_eq_int (n : Z) (tbl : list User.t) :
  first (λ u, column_eq (User.id u) (CInt n) = true) tbl
  = first (λ u, User.id u = n) tbl.
Proof.
  unfold first. induction tbl as [|u tbl IH]; [done|]. cbn [list_find].
  rewrite IH.
  destruct (decide (User.id u = n)) as [Hid|Hid],
    (decide (column_eq (User.id u) (CInt n) = true)) as [Hc|Hc];
    try done; rewrite column_eq_int in Hc.
  - by rewrite bool_decide_eq_true_2 in Hc.
  - by apply bool_decide_eq_true in Hc.
Qed.

(** C5. A token that decodes but does not carry [type == "refresh"] (an
    access token, for one) is refused with "Invalid token type"; nothing
    is returned, so no cookie is set, and the session is left as it was. *)
Theorem refresh_rejects_wrong_token_type (tok : string) (env : Env)
    (claims : Claims) (s : Session) :
  tok ≠ EmptyString →
  decode_token env tok = Ok claims →
  claims !! "type" ≠ Some (CStr "refresh") →
  Routes.refresh_tokens settings (Some tok) env s
  = (Raise (AuthenticationError "Invalid token type"), s).
Proof.
  intros Htok Hdec Hty. unfold Routes.refresh_tokens.
  rewrite (truthy_Some _ Htok). simpl. unfold_M. rewrite Hdec.
  rewrite bool_decide_eq_true_2 by done. reflexivity.
Qed.

(** C9. A refresh token that decodes, whose session row is found, not
    revoked and not expired, is still refused with "User not found or
    disabled" when the user its [sub] names is missing or inactive, and
    the session (pending and stored rows alike) is left as it was. The
    user [sub] names is the first row the store's comparison of [users.id]
    with the claim's value selects, whatever the value is; for an integer
    [sub] it is the first row with that id. *)
Theorem refresh_rejects_missing_or_disabled_user (tok : string) (env : Env)
    (claims : Claims) (user_id : claim) (k : nat) (us : UserSession.t)
    (s : Session) :
  tok ≠ EmptyString →
  decode_token env tok = Ok claims →
  claims !! "type" = Some (CStr "refresh") →
  claims !! "sub" = Some user_id →
  first (live (hash_token tok)) (user_sessions (working s)) = Some (k, us) →
  utcnow env ≤ UserSession.expires_at us →
  let refused :=
    Routes.refresh_tokens settings (Some tok) env s
    = (Raise (AuthenticationError "User not found or disabled"), s) in
  (match first (λ u, column_eq (User.id u) user_id = true)
           (users (working s)) with
   | Some (_, user) => User.is_active user = false
   | None => True
   end → refused)
  ∧ (∀ n, user_id = CInt n →
       match first (λ u, User.id u = n) (users (working s)) with
       | Some (_, user) => User.is_active user = false
       | None => True
       end → refused).
Proof.
  intros Htok Hdec Hty Hsub Hrow Hexp refused.
  assert (Hstore : match first (λ u, column_eq (User.id u) user_id = true)
                           (users (working s)) with
                   | Some (_, user) => User.is_active user = false
                   | None => True
                   end → refused).
  { intros Huser. subst refused. unfold Routes.refresh_tokens.
    rewrite (truthy_Some _ Htok). simpl. unfold_M. rewrite Hdec.
    rewrite bool_decide_eq_false_2 by (intros Hne; by apply Hne).
    rewrite Hsub. rewrite <- first_live, Hrow.
    rewrite bool_decide_eq_false_2 by lia.
    destruct (first _ (users (working s))) as [[ku user]|]; [|reflexivity].
    rewrite Huser. reflexivity. }
  split; [exact Hstore|].
  intros n -> Huser. apply Hstore. by rewrite first_column_eq_int.
Qed.
End Refresh.

Lemma refresh_rejects_wrong_token_type_witness :
  Routes.refresh_tokens (TL:=Scenario.tokens) (ST:=Scenario.store)
    Scenario.settings (Some "access-1") (Scenario.at_time 1000 "r2")
    (mkSession Scenario.db Scenario.db)
  = (Raise (AuthenticationError "Invalid token type"),
     mkSession Scenario.db Scenario.db).
Proof.
  eapply (refresh_rejects_wrong_token_type (TL:=Scenario.tokens)
            (ST:=Scenario.store)).
  - discriminate.
  - vm_compute. reflexivity.
  - vm_compute. discriminate.
Defined.

Lemma refresh_rejects_missing_or_disabled_user_witness :
  Routes.refresh_tokens (TL:=Scenario.tokens) (ST:=Scenario.store)
    Scenario.settings (Some "refresh-carol") (Scenario.at_time 1000 "r2")
    (mkSession Scenario.db Scenario.db)
  = (Raise (AuthenticationError "User not found or disabled"),
     mkSession Scenario.db Scenario.db).
Proof.
  edestruct (refresh_rejects_missing_or_disabled_user (TL:=Scenario.tokens)
               (ST:=Scenario.store) Scenario.settings "refresh-carol"
               (Scenario.at_time 1000 "r2"))
    with (user_id := CInt 3) (s := mkSession Scenario.db Scenario.db)
    as [_ Hinteger].
  - discriminate.
  - vm_compute. reflexivity.
  - vm_compute. reflexivity.
  - vm_compute. reflexivity.
  - vm_compute. reflexivity.
  - vm_compute. discriminate.
  - apply (Hinteger 3); [reflexivity|]. vm_compute. reflexivity.
Defined.

Section RefreshRotation.
Context {TL : TokenLib} {ST : Store}.
Variable settings : Settings.AuthSettings.

(** What a successful refresh did. *)
Lemma refresh_tokens_Ok rt env s resp s' :
  Routes.refresh_tokens settings rt env s = (Ok resp, s') →
  ∃ tok claims k us,
    rt = Some tok ∧ tok ≠ EmptyString
    ∧ decode_token env tok = Ok claims
    ∧ claims !! "type" = Some (CStr "refresh")
    ∧ is_Some (claims !! "sub")
    ∧ first (live (hash_token tok)) (user_sessions (working s)) = Some (k, us)
    ∧ working s' =
        set_user_sessions
          (<[k := rotated settings env
                    (Routes.refresh_token (Routes.refresh_cookies resp)) us]>)
          (working s)
    ∧ stored s' = working s'.
Proof.
  unfold Routes.refresh_tokens. destruct (truthy rt) eqn:Hrt; [|discriminate].
  destruct rt as [tok|]; [|discriminate]. simpl. unfold_M.
  destruct (decode_token env tok) as [claims|e] eqn:Hdec; [|by destruct e].
  case_bool_decide as Hty; [discriminate|].
  destruct (claims !! "sub") as [uid|] eqn:Hsub; [|discriminate].
  rewrite <- first_live.
  destruct (first (live _) _) as [[k us]|] eqn:Hrow; [|discriminate].
  case_bool_decide; [discriminate|].
  destruct (first _ (users _)) as [[ku user]|]; [|discriminate].
  destruct (User.is_active user); [|discriminate]. simpl.
  destruct (rotate_refresh_token env tok) as [[na nr]|e]; [|by destruct e].
  intros [= <- <-]. exists tok, claims, k, us. simpl.
  split_and!; try done. intros ->. discriminate.
Qed.

(** A refused refresh changes nothing, pending or stored. *)
Lemma refresh_tokens_Raise rt env s e s' :
  Routes.refresh_tokens settings rt env s = (Raise e, s') → s' = s.
Proof.
  unfold Routes.refresh_tokens. destruct (truthy rt); [|by intros [= _ <-]].
  simpl. unfold_M.
  destruct (decode_token env _) as [claims|e0];
    [|destruct e0; simpl; by intros [= _ <-]].
  case_bool_decide; [by intros [= _ <-]|].
  destruct (claims !! "sub") as [uid|]; [|by intros [= _ <-]].
  destruct (first _ (user_sessions _)) as [[k us]|]; [|by intros [= _ <-]].
  case_bool_decide; [by intros [= _ <-]|].
  destruct (first _ (users _)) as [[ku user]|]; [|by intros [= _ <-]].
  destruct (User.is_active user); [|by intros [= _ <-]]. simpl.
  destruct (rotate_refresh_token env _) as [[na nr]|e0];
    [discriminate | destruct e0; simpl; by intros [= _ <-]].
Qed.

(** With no live row for the token's hash the refresh is refused, and
    with the replay error when the token itself is still in order. *)
Lemma refresh_tokens_dead tok env s :
  tok ≠ EmptyString →
  Forall (λ us, ¬ live (hash_token tok) us) (user_sessions (working s)) →
  ∃ e, Routes.refresh_tokens settings (Some tok) env s = (Raise e, s)
       ∧ ∀ claims, decode_token env tok = Ok claims →
           claims !! "type" = Some (CStr "refresh") →
           is_Some (claims !! "sub") →
           e = AuthenticationError "Session not found or revoked".
Proof.
  intros Htok Hdead. apply (list_find_None (live (hash_token tok))) in Hdead.
  destruct (Routes.refresh_tokens settings (Some tok) env s) as [[r|e] s']
    eqn:Hr.
  - apply refresh_tokens_Ok in Hr
      as (tok' & claims & k & us & [= <-] & _ & _ & _ & _ & Hrow & _).
    unfold first in Hrow. congruence.
  - pose proof (refresh_tokens_Raise _ _ _ _ _ Hr) as ->.
    exists e. split; [done|]. intros claims Hdec Hty [uid Hsub].
    revert Hr. unfold Routes.refresh_tokens.
    rewrite (truthy_Some _ Htok). simpl. unfold_M. rewrite Hdec.
    rewrite bool_decide_eq_false_2 by (intros Hne; by apply Hne).
    rewrite Hsub, <- first_live. unfold first. rewrite Hdead.
    by intros [= <-].
Qed.

(** A token the library finds expired is refused as expired, before any
    row is looked up. *)
Lemma refresh_tokens_expired tok env s :
  tok ≠ EmptyString →
  decode_token env tok = Raise TokenExpiredError →
  Routes.refresh_tokens settings (Some tok) env s
  = (Raise (AuthenticationError "Refresh token expired"), s).
Proof.
  intros Htok Hdec. unfold Routes.refresh_tokens.
  rewrite (truthy_Some _ Htok). simpl. unfold_M. by rewrite Hdec.
Qed.
End RefreshRotation.

(** ** The session table across requests *)

Section Sessions.
Context {TL : TokenLib} {PL : PasswordLib} {ST : Store}.
Variable settings : Settings.AuthSettings.

Lemma login_sessions lr rq env db :
  match serve (Routes.login settings lr rq env) db with
  | (Ok r, db') =>
      ∃ us, user_sessions db' = user_sessions db ++ [us]
            ∧ UserSession.refresh_token_hash us
              = hash_token (Routes.refresh_token (Routes.login_cookies r))
  | (Raise _, db') => db' = db
  end.
Proof.
  unfold serve, Routes.login. run_handler; eexists; split; reflexivity.
Qed.

Lemma logout_sessions rt db :
  ∃ r db', serve (Routes.logout rt) db = (Ok r, db')
    ∧ (db' = db
       ∨ ∃ k us, user_sessions db'
                 = <[k := UserSession.set_is_revoked true us]> (user_sessions db)).
Proof. unfold serve, Routes.logout. run_handler; eauto 10. Qed.

Lemma forgot_password_sessions email env db :
  user_sessions (serve (Routes.forgot_password email env) db).2
  = user_sessions db.
Proof. unfold serve, Routes.forgot_password. run_handler. Qed.

Lemma reset_password_sessions tok pw env db :
  user_sessions (serve (Routes.reset_password tok pw env) db).2
  = user_sessions db.
Proof. unfold serve, Routes.reset_password. run_handler. Qed.

Lemma unlink_identity_sessions i u db :
  user_sessions (serve (Routes.unlink_identity i u) db).2 = user_sessions db.
Proof. unfold serve, Routes.unlink_identity. run_handler. Qed.

(** A hash with no live row stays without one across a request that
    does not issue a refresh token with that hash. *)
Lemma step_keeps_hash_dead h db q :
  Forall (λ us, ¬ live h us) (user_sessions db) →
  (∀ c, (Api.step settings db q).1 = Ok (Some c) →
        hash_token (Routes.refresh_token c) ≠ h) →
  Forall (λ us, ¬ live h us) (user_sessions (Api.step settings db q).2).
Proof.
  intros Hdead. destruct q as [[lr rq|rt|rt|email|tok pw|i u] env];
    unfold Api.step, Api.handler; simpl; rewrite serve_bind_ret;
    intros Hfresh.
  - pose proof (login_sessions lr rq env db) as Hl.
    destruct (serve (Routes.login _ _ _ _) db) as [[r|e] db']; simpl in *.
    + destruct Hl as (us & -> & Hus). apply Forall_app. split; [done|].
      apply Forall_singleton. intros [Hh _].
      eapply Hfresh; [done|]. congruence.
    + by subst.
  - unfold serve in *.
    destruct (Routes.refresh_tokens settings rt env _) as [[r|e] s'] eqn:Hr;
      simpl in *.
    + apply refresh_tokens_Ok in Hr
        as (tok & claims & k & us & -> & _ & _ & _ & _ & Hrow & Hw & ->).
      rewrite Hw. simpl. apply Forall_insert; [done|].
      intros [Hh _]. eapply Hfresh; [done|]. exact Hh.
    + apply refresh_tokens_Raise in Hr as ->. done.
  - destruct (logout_sessions rt db) as (r & db' & -> & Hdb'). simpl.
    destruct Hdb' as [->|(k & us & ->)]; [done|].
    apply Forall_insert; [done|]. by intros [_ ?].
  - pose proof (forgot_password_sessions email env db) as Hs.
    destruct (serve _ db) as [[r'|e] s']; simpl in *; by rewrite Hs.
  - pose proof (reset_password_sessions tok pw env db) as Hs.
    destruct (serve _ db) as [[r'|e] s']; simpl in *; by rewrite Hs.
  - pose proof (unlink_identity_sessions i u db) as Hs.
    destruct (serve _ db) as [[r'|e] s']; simpl in *; by rewrite Hs.
Qed.

Lemma run_keeps_hash_dead h qs db :
  Forall (λ us, ¬ live h us) (user_sessions db) →
  Api.never_issues settings h db qs →
  Forall (λ us, ¬ live h us) (user_sessions (Api.run settings db qs)).
Proof.
  revert db. induction qs as [|q qs IH]; intros db Hdead Hqs; [done|].
  destruct Hqs as [Hq Hqs]. simpl. apply IH; [|done].
  by apply step_keeps_hash_dead.
Qed.

(** Live hashes stay distinct across requests that issue fresh tokens. *)
Lemma step_keeps_live_hashes_distinct db q :
  live_hashes_distinct db →
  (∀ c, (Api.step settings db q).1 = Ok (Some c) →
        Forall (λ us, ¬ live (hash_token (Routes.refresh_token c)) us)
          (user_sessions db)) →
  live_hashes_distinct (Api.step settings db q).2.
Proof.
  unfold live_hashes_distinct, at_most_one.
  intros Hdist. destruct q as [[lr rq|rt|rt|email|tok pw|i u] env];
    unfold Api.step, Api.handler; simpl; rewrite serve_bind_ret;
    intros Hfresh h.
  - pose proof (login_sessions lr rq env db) as Hl.
    destruct (serve (Routes.login _ _ _ _) db) as [[r|e] db']; simpl in *.
    + destruct Hl as (us & -> & Hus). rewrite filter_app, length_app.
      rewrite list.filter_singleton; [|exact []].
      specialize (Hfresh _ eq_refl). specialize (Hdist h).
      destruct (decide (live h us)) as [[Hh _]|_]; simpl; [|lia].
      rewrite (filter_none_length (live h)); [lia|].
      by replace h with (hash_token (Routes.refresh_token (Routes.login_cookies r)))
        by congruence.
    + by subst.
  - unfold serve in *.
    destruct (Routes.refresh_tokens settings rt env _) as [[r|e] s'] eqn:Hr;
      simpl in *.
    + apply refresh_tokens_Ok in Hr
        as (tok & claims & k & us & -> & _ & _ & _ & _ & Hrow & Hw & ->).
      rewrite Hw. simpl.
      pose proof (filter_insert_length_le (live h) (user_sessions db) k
                    (rotated settings env
                       (Routes.refresh_token (Routes.refresh_cookies r)) us))
        as Hle.
      specialize (Hfresh _ eq_refl). specialize (Hdist h).
      revert Hle. case_decide as Hlv; intros Hle; [|lia].
      destruct Hlv as [Hh _]. simpl in Hh.
      rewrite (filter_none_length (live h) (user_sessions db)) in Hle; [lia|].
      by rewrite <- Hh.
    + apply refresh_tokens_Raise in Hr as ->. apply Hdist.
  - destruct (logout_sessions rt db) as (r & db' & -> & Hdb'). simpl.
    destruct Hdb' as [->|(k & us & ->)]; [apply Hdist|].
    pose proof (filter_insert_length_le (live h) (user_sessions db) k
                  (UserSession.set_is_revoked true us)) as Hle.
    specialize (Hdist h).
    rewrite decide_False in Hle by (by intros [_ ?]). lia.
  - pose proof (forgot_password_sessions email env db) as Hs.
    destruct (serve _ db) as [[r'|e] s']; simpl in *; rewrite Hs; apply Hdist.
  - pose proof (reset_password_sessions tok pw env db) as Hs.
    destruct (serve _ db) as [[r'|e] s']; simpl in *; rewrite Hs; apply Hdist.
  - pose proof (unlink_identity_sessions i u db) as Hs.
    destruct (serve _ db) as [[r'|e] s']; simpl in *; rewrite Hs; apply Hdist.
Qed.

Lemma run_keeps_live_hashes_distinct qs db :
  live_hashes_distinct db →
  Api.always_fresh settings db qs →
  live_hashes_distinct (Api.run settings db qs).
Proof.
  revert db. induction qs as [|q qs IH]; intros db Hdist Hqs; [done|].
  destruct Hqs as [Hq Hqs]. simpl. apply IH; [|done].
  by apply step_keeps_live_hashes_distinct.
Qed.

(** C1, as the code has it. Once a refresh with the raw token [r] has
    succeeded, the row it matched stores the hash of the newly issued
    refresh token, no live row stores the hash of [r], and every later
    refresh presenting [r] is refused, sets no cookie and leaves the store
    as it was. The error is "Session not found or revoked" as long as [r]
    decodes as a refresh token with a subject, and "Refresh token expired"
    once the library finds [r] expired: the token is decoded before the
    session row is looked up. This holds after any sequence of requests,
    provided the tokens issued (at the rotation and afterwards) do not hash
    to the hash of [r], and [r]'s hash was stored in at most one live row
    to begin with. *)
Theorem rotated_refresh_token_is_refused (r : string) (env1 : Env) (db1 : Db)
    (resp : Routes.RefreshResponse) (db2 : Db) (qs : list (Api.request * Env)) :
  serve (Routes.refresh_tokens settings (Some r) env1) db1 = (Ok resp, db2) →
  hash_token (Routes.refresh_token (Routes.refresh_cookies resp))
    ≠ hash_token r →
  at_most_one (live (hash_token r)) (user_sessions db1) →
  Api.never_issues settings (hash_token r) db2 qs →
  let db3 := Api.run settings db2 qs in
  (∃ k us, user_sessions db1 !! k = Some us
           ∧ live (hash_token r) us
           ∧ user_sessions db2
             = <[k := rotated settings env1
                        (Routes.refresh_token (Routes.refresh_cookies resp)) us]>
                 (user_sessions db1))
  ∧ Forall (λ us, ¬ live (hash_token r) us) (user_sessions db3)
  ∧ ∀ env2, ∃ e,
      serve (Routes.refresh_tokens settings (Some r) env2) db3 = (Raise e, db3)
      ∧ (∀ claims, decode_token env2 r = Ok claims →
           claims !! "type" = Some (CStr "refresh") →
           is_Some (claims !! "sub") →
           e = AuthenticationError "Session not found or revoked")
      ∧ (decode_token env2 r = decode_token env1 r →
         e = AuthenticationError "Session not found or revoked")
      ∧ (decode_token env2 r = Raise TokenExpiredError →
         e = AuthenticationError "Refresh token expired").
Proof.
  intros Hok Hnew Hone Hqs db3. unfold serve in Hok.
  destruct (Routes.refresh_tokens settings (Some r) env1 _) as [[r1|e] s']
    eqn:Hr; simplify_eq/=.
  apply refresh_tokens_Ok in Hr
    as (tok & claims & k & us & [= <-] & Htok & Hdec & Hty & Hsub
        & Hrow & Hw & Hst).
  simpl in *. apply list_find_Some in Hrow as (Hk & Hlive & _).
  assert (Hdead2 : Forall (λ us, ¬ live (hash_token r) us)
                     (user_sessions (stored s'))).
  { rewrite Hst, Hw. simpl. apply Forall_lookup. intros j x Hj Hx.
    destruct (decide (j = k)) as [->|Hjk].
    - rewrite list_lookup_insert_eq in Hj by (by eapply lookup_lt_Some).
      simplify_eq. by destruct Hx as [Hx _].
    - rewrite list_lookup_insert_ne in Hj by done.
      apply Hjk. eapply at_most_one_lookup; [exact Hone| | | |]; done. }
  assert (Hdead3 : Forall (λ us, ¬ live (hash_token r) us) (user_sessions db3)).
  { by apply run_keeps_hash_dead. }
  split_and!.
  - exists k, us. by rewrite Hst, Hw.
  - done.
  - intros env2.
    destruct (refresh_tokens_dead settings r env2 (mkSession db3 db3) Htok Hdead3)
      as (e & He & Hmsg).
    exists e. unfold serve. rewrite He. split_and!; [done|done| |].
    + intros Hsame. rewrite Hsame in Hmsg. by eapply Hmsg.
    + intros Hexpired.
      rewrite (refresh_tokens_expired settings r env2 _ Htok Hexpired) in He.
      congruence.
Qed.
End Sessions.

Lemma rotated_refresh_token_is_refused_witness :
  let db2 :=
    (serve (Routes.refresh_tokens (TL:=Scenario.tokens) (ST:=Scenario.store) Scenario.settings
              (Some "refresh-1") (Scenario.at_time 1000 "r2"))
           Scenario.db).2 in
  let db3 :=
    Api.run (TL:=Scenario.tokens) (PL:=Scenario.passwords) (ST:=Scenario.store) Scenario.settings
      db2 Scenario.later_requests in
  serve (Routes.refresh_tokens (TL:=Scenario.tokens) (ST:=Scenario.store) Scenario.settings
           (Some "refresh-1") (Scenario.at_time 2000 "r5")) db3
  = (Raise (AuthenticationError "Session not found or revoked"), db3).
Proof.
  intros db2 db3.
  destruct (rotated_refresh_token_is_refused (TL:=Scenario.tokens)
              (PL:=Scenario.passwords) (ST:=Scenario.store)
              Scenario.settings "refresh-1"
              (Scenario.at_time 1000 "r2") Scenario.db
              Scenario.rotation_reply db2 Scenario.later_requests)
    as (_ & _ & Hreplay).
  - vm_compute. reflexivity.
  - vm_compute. discriminate.
  - vm_compute. lia.
  - repeat split; intros c Hc; vm_compute in Hc; simplify_eq;
      vm_compute; discriminate.
  - destruct (Hreplay (Scenario.at_time 2000 "r5")) as (e & He & _ & Hmsg & _).
    fold db3 in He. rewrite He. rewrite Hmsg; reflexivity.
Defined.

(** C1 as the specification words it (the replay error for every later
    refresh with [r]) does not hold. With tokens that expire, ["refresh-1"]
    is rotated at time 1000; no live row stores its hash afterwards; and a
    refresh that presents it at time 6000, when it has expired, is refused
    with "Refresh token expired", which is not the error of a replayed or
    revoked token. *)
Lemma expired_rotated_token_is_reported_expired :
  let refresh tok env :=
    serve (Routes.refresh_tokens (TL:=Scenario.expiring_tokens)
             (ST:=Scenario.store) Scenario.settings (Some tok) env) in
  let rotation := refresh "refresh-1" (Scenario.at_time 1000 "r2") Scenario.db in
  let replay := refresh "refresh-1" (Scenario.at_time 6000 "r5") rotation.2 in
  rotation.1 = Ok Scenario.rotation_reply
  ∧ Forall (λ us, ¬ live (hash_token (TokenLib:=Scenario.expiring_tokens)
                            "refresh-1") us)
      (user_sessions rotation.2)
  ∧ replay = (Raise (AuthenticationError "Refresh token expired"), rotation.2)
  ∧ replay.1 ≠ Raise (AuthenticationError "Session not found or revoked")
  ∧ replay.1 ≠ Raise (AuthenticationError "Refresh token revoked")
  ∧ replay.1 ≠ Raise TokenRevokedError.
Proof.
  intros refresh rotation replay. split_and!.
  - vm_compute. reflexivity.
  - repeat constructor; intros [Hh Hr]; vm_compute in Hh, Hr; discriminate.
  - vm_compute. reflexivity.
  - vm_compute. discriminate.
  - vm_compute. discriminate.
  - vm_compute. discriminate.
Qed.

(** Why the token hashes must be distinct: with two live rows that store
    the hash of ["refresh-1"] (two logins answered with the same token),
    the rotation rewrites the first row only, and the same token is rotated
    once more through the second. *)
Lemma replay_through_a_second_row :
  let twice :=
    set_user_sessions
      (λ tbl, tbl ++ [UserSession.mk 3 1 "sha256:refresh-1" None "pytest"
                        false 604800 None])
      Scenario.db in
  let refresh env :=
    serve (Routes.refresh_tokens (TL:=Scenario.tokens) (ST:=Scenario.store)
             Scenario.settings (Some "refresh-1") env) in
  let rotation := refresh (Scenario.at_time 1000 "r2") twice in
  rotation.1 = Ok Scenario.rotation_reply
  ∧ ∃ reply, (refresh (Scenario.at_time 2000 "r5") rotation.2).1 = Ok reply.
Proof.
  intros twice refresh rotation. split.
  - vm_compute. reflexivity.
  - eexists. vm_compute. reflexivity.
Qed.

(** ** Password reset *)

Section ResetPassword.
Context {PL : PasswordLib}.

(** The scan of [reset_password] over the unused records. *)
Lemma reset_scan_Some token (tbl : list PasswordResetToken.t) k r :
  snd <$> list_find (λ kr : nat * PasswordResetToken.t, names token kr.2)
            (all (λ r, PasswordResetToken.used_at r = None) tbl) = Some (k, r) →
  tbl !! k = Some r ∧ PasswordResetToken.used_at r = None ∧ names token r.
Proof.
  intros Hscan. apply fmap_Some in Hscan as ([i [k' r']] & Hfind & [= <- <-]).
  apply list_find_Some in Hfind as (Hi & Hnames & _).
  apply list_elem_of_lookup_2, list_elem_of_filter in Hi as [Hunused Hin].
  apply elem_of_lookup_imap in Hin as (j & y & [= -> ->] & Hj). done.
Qed.

Lemma reset_scan_None token (tbl : list PasswordResetToken.t) :
  snd <$> list_find (λ kr : nat * PasswordResetToken.t, names token kr.2)
            (all (λ r, PasswordResetToken.used_at r = None) tbl) = None →
  Forall (λ r, PasswordResetToken.used_at r = None → ¬ names token r) tbl.
Proof.
  intros Hscan. apply fmap_None, list_find_None in Hscan.
  apply Forall_lookup. intros j r Hj Hunused Hnames.
  rewrite Forall_forall in Hscan. apply (Hscan (j, r)); [|done].
  apply list_elem_of_filter. split; [done|].
  apply elem_of_lookup_imap. by exists j, r.
Qed.

(** A token all of whose records are spent changes nothing. *)
Lemma reset_password_spent token new_password env s :
  Forall (λ r, names token r → spent (utcnow env) r)
    (password_reset_tokens (working s)) →
  ∃ detail,
    Routes.reset_password token new_password env s
    = (Raise (HTTPException HTTP_400_BAD_REQUEST detail), s).
Proof.
  intros Hspent. unfold Routes.reset_password. unfold_M. simpl.
  destruct (snd <$> list_find _ _) as [[k r]|] eqn:Hscan; [|by eexists].
  apply reset_scan_Some in Hscan as (Hk & Hunused & Hnames).
  rewrite Forall_lookup in Hspent.
  destruct (Hspent k r Hk Hnames) as [Hused|Hexpired]; [done|].
  rewrite bool_decide_eq_true_2 by done. by eexists.
Qed.

(** What a successful redemption did. *)
Lemma reset_password_Ok token new_password env s resp s' :
  Routes.reset_password token new_password env s = (Ok resp, s') →
  ∃ k r ku user,
    password_reset_tokens (working s) !! k = Some r
    ∧ names token r ∧ ¬ spent (utcnow env) r
    ∧ first (λ u, User.id u = PasswordResetToken.user_id r) (users (working s))
      = Some (ku, user)
    ∧ working s' =
        set_password_reset_tokens
          (<[k := PasswordResetToken.set_used_at (Some (utcnow env)) r]>)
          (set_users
             (<[ku := User.set_updated_at (utcnow env)
                        (User.set_password_hash
                           (Some (hash_password env new_password)) user)]>)
             (working s))
    ∧ stored s' = working s'.
Proof.
  unfold Routes.reset_password. unfold_M. simpl.
  destruct (snd <$> list_find _ _) as [[k r]|] eqn:Hscan; [|discriminate].
  apply reset_scan_Some in Hscan as (Hk & Hunused & Hnames).
  case_bool_decide as Hexp; [discriminate|].
  destruct (first _ (users _)) as [[ku user]|] eqn:Huser; [|discriminate].
  destruct (User.is_active user); [|discriminate]. simpl.
  destruct (valid _); [|discriminate]. simpl.
  intros [= <- <-]. exists k, r, ku, user. simpl.
  split_and!; try done. intros [Hused|Hexpired]; done.
Qed.

(** C2. A reset token whose records are all used or expired never changes
    a password: the request is refused and the session is left as it was.
    A successful redemption marks the token's record used in the commit
    that stores the new password hash, so that, when the token has one
    record, every later redemption of the token is refused and leaves the
    store, the user's password hash included, as it was. *)
Theorem reset_token_is_single_use (token : string) :
  (∀ new_password env s,
     Forall (λ r, names token r → spent (utcnow env) r)
       (password_reset_tokens (working s)) →
     ∃ detail,
       Routes.reset_password token new_password env s
       = (Raise (HTTPException HTTP_400_BAD_REQUEST detail), s))
  ∧ (∀ password1 env1 db1 resp db2,
       serve (Routes.reset_password token password1 env1) db1 = (Ok resp, db2) →
       at_most_one (names token) (password_reset_tokens db1) →
       (∃ k r ku user,
          password_reset_tokens db1 !! k = Some r
          ∧ names token r ∧ ¬ spent (utcnow env1) r
          ∧ users db1 !! ku = Some user
          ∧ User.id user = PasswordResetToken.user_id r
          ∧ password_reset_tokens db2
            = <[k := PasswordResetToken.set_used_at (Some (utcnow env1)) r]>
                (password_reset_tokens db1)
          ∧ users db2
            = <[ku := User.set_updated_at (utcnow env1)
                        (User.set_password_hash
                           (Some (hash_password env1 password1)) user)]>
                (users db1))
       ∧ ∀ password2 env2, ∃ detail,
           serve (Routes.reset_password token password2 env2) db2
           = (Raise (HTTPException HTTP_400_BAD_REQUEST detail), db2)).
Proof.
  split; [apply reset_password_spent|].
  intros password1 env1 db1 resp db2 Hok Hone. unfold serve in Hok.
  destruct (Routes.reset_password token password1 env1 _) as [[r1|e] s']
    eqn:Hr; simplify_eq/=.
  apply reset_password_Ok in Hr
    as (k & r & ku & user & Hk & Hnames & Hfresh & Huser & Hw & Hst).
  simpl in *. apply list_find_Some in Huser as (Hku & Hid & _).
  split.
  - exists k, r, ku, user. rewrite Hst, Hw. by simpl.
  - intros password2 env2.
    destruct (reset_password_spent token password2 env2
                (mkSession (stored s') (stored s'))) as (detail & Hd).
    + simpl. rewrite Hst, Hw. simpl. apply Forall_lookup.
      intros j x Hj Hx. left.
      destruct (decide (j = k)) as [->|Hjk].
      * rewrite list_lookup_insert_eq in Hj by (by eapply lookup_lt_Some).
        by simplify_eq.
      * rewrite list_lookup_insert_ne in Hj by done.
        destruct Hjk. eapply (at_most_one_lookup (names token)); done.
    + exists detail. unfold serve. by rewrite Hd.
Qed.
End ResetPassword.

Lemma reset_token_is_single_use_witness :
  (∃ detail,
     Routes.reset_password (PL:=Scenario.passwords) "reset-1" "NewPass123!"
       (Scenario.at_time 7200 "s1") (mkSession Scenario.db Scenario.db)
     = (Raise (HTTPException HTTP_400_BAD_REQUEST detail),
        mkSession Scenario.db Scenario.db))
  ∧ let db2 :=
      (serve (Routes.reset_password (PL:=Scenario.passwords) "reset-1"
                "NewPass123!" (Scenario.at_time 1800 "s1")) Scenario.db).2 in
    ∃ detail,
      serve (Routes.reset_password (PL:=Scenario.passwords) "reset-1"
               "Another1Pass!" (Scenario.at_time 1900 "s2")) db2
      = (Raise (HTTPException HTTP_400_BAD_REQUEST detail), db2).
Proof.
  destruct (reset_token_is_single_use (PL:=Scenario.passwords) "reset-1")
    as [Hspent Honce].
  split.
  - apply Hspent. apply Forall_singleton. intros _. right.
    vm_compute. reflexivity.
  - intros db2.
    edestruct (Honce "NewPass123!" (Scenario.at_time 1800 "s1") Scenario.db)
      as [_ Hagain].
    + vm_compute. reflexivity.
    + vm_compute. lia.
    + apply Hagain.
Defined.

(** ** Forgotten passwords *)

Section ForgotPassword.
Context {PL : PasswordLib}.

Lemma reset_eligible_unique_email (db : Db) (email : string) :
  at_most_one (λ u, User.email u = Some email) (users db) →
  reset_eligible db email = true
  ↔ ∃ user, user ∈ users db ∧ User.email user = Some email
            ∧ User.is_active user = true ∧ User.auth_provider user = "local".
Proof.
  intros Hone. unfold reset_eligible, first. split.
  - destruct (list_find _ _) as [[k user]|] eqn:Hfind; [|discriminate].
    apply list_find_Some in Hfind as (Hk & Hemail & _).
    intros [Hactive Hlocal%bool_decide_eq_true]%andb_true_iff.
    exists user. split_and!; try done. by eapply list_elem_of_lookup_2.
  - intros (user & [j Hj]%list_elem_of_lookup & Hemail & Hactive & Hlocal).
    destruct (list_find _ _) as [[k user']|] eqn:Hfind.
    + apply list_find_Some in Hfind as (Hk & Hemail' & _).
      assert (j = k) as -> by (eapply (at_most_one_lookup _ (users db)); done).
      simplify_eq. rewrite Hactive. simpl. by apply bool_decide_eq_true.
    + apply list_find_None in Hfind. rewrite Forall_lookup in Hfind.
      by destruct (Hfind j user Hj).
Qed.

(** C6. [forgot_password] answers with the same success message whatever
    the email. It stores a reset record, expiring one hour after the
    request, exactly when the user it finds for the email is active and
    local, and otherwise leaves the store as it was; with emails unique,
    that is exactly when an active local user with that email exists. *)
Theorem forgot_password_issues_token_iff_eligible (email : string) (env : Env)
    (db : Db) :
  ∃ db',
    serve (Routes.forgot_password email env) db
    = (Ok {| Routes.message :=
         "If an account with that email exists, a password reset link has been sent." |},
       db')
    ∧ (if reset_eligible db email then
         ∃ user r,
           user ∈ users db ∧ User.email user = Some email
           ∧ password_reset_tokens db' = password_reset_tokens db ++ [r]
           ∧ PasswordResetToken.user_id r = User.id user
           ∧ PasswordResetToken.token_hash r
             = hash_password env (Routes.token_urlsafe env)
           ∧ PasswordResetToken.expires_at r = utcnow env + 3600
           ∧ PasswordResetToken.used_at r = None
           ∧ users db' = users db
           ∧ user_identities db' = user_identities db
           ∧ user_sessions db' = user_sessions db
       else db' = db)
    ∧ (at_most_one (λ u, User.email u = Some email) (users db) →
       reset_eligible db email = true
       ↔ ∃ user, user ∈ users db ∧ User.email user = Some email
                 ∧ User.is_active user = true
                 ∧ User.auth_provider user = "local").
Proof.
  pose proof (reset_eligible_unique_email db email) as Hiff.
  cut (∃ db',
    serve (Routes.forgot_password email env) db
    = (Ok {| Routes.message :=
         "If an account with that email exists, a password reset link has been sent." |},
       db')
    ∧ (if reset_eligible db email then
         ∃ user r,
           user ∈ users db ∧ User.email user = Some email
           ∧ password_reset_tokens db' = password_reset_tokens db ++ [r]
           ∧ PasswordResetToken.user_id r = User.id user
           ∧ PasswordResetToken.token_hash r
             = hash_password env (Routes.token_urlsafe env)
           ∧ PasswordResetToken.expires_at r = utcnow env + 3600
           ∧ PasswordResetToken.used_at r = None
           ∧ users db' = users db
           ∧ user_identities db' = user_identities db
           ∧ user_sessions db' = user_sessions db
       else db' = db)).
  { intros (db' & Hserve & Hrow). by exists db'. }
  clear Hiff.
  unfold serve, Routes.forgot_password, reset_eligible. unfold_M. simpl.
  destruct (first _ (users db)) as [[k user]|] eqn:Hfind.
  - apply list_find_Some in Hfind as (Hk & Hemail & _).
    destruct (User.is_active user && bool_decide _) eqn:Hel; simpl.
    + eexists. split; [reflexivity|].
      exists user. eexists. split_and!; try reflexivity; try done.
      by eapply list_elem_of_lookup_2.
    + eexists. split; [reflexivity|]. done.
  - eexists. split; [reflexivity|]. done.
Qed.
End ForgotPassword.

Lemma forgot_password_issues_token_iff_eligible_witness :
  reset_eligible Scenario.db "admin@example.com" = true
  ↔ ∃ user, user ∈ users Scenario.db
            ∧ User.email user = Some "admin@example.com"
            ∧ User.is_active user = true
            ∧ User.auth_provider user = "local".
Proof.
  destruct (forgot_password_issues_token_iff_eligible (PL:=Scenario.passwords)
              "admin@example.com" (Scenario.at_time 1000 "s1") Scenario.db)
    as (db' & _ & _ & Hiff).
  apply Hiff. vm_compute. lia.
Defined.

(** ** Login *)

Section Login.
Context {TL : TokenLib} {PL : PasswordLib} {ST : Store}.
Variable settings : Settings.AuthSettings.

Lemma has_local_identity_spec (db : Db) (user : User.t) :
  is_Some (first (λ i, UserIdentity.user_id i = User.id user
                       ∧ UserIdentity.provider i = "local")
                 (user_identities db))
  ↔ ∃ i, i ∈ user_identities db
         ∧ UserIdentity.user_id i = User.id user
         ∧ UserIdentity.provider i = "local".
Proof.
  unfold first. split.
  - intros [[k i] Hfind]. apply list_find_Some in Hfind as (Hk & Hi & _).
    exists i. split; [by eapply list_elem_of_lookup_2 | done].
  - intros (i & Hin & Hi). by eapply list_find_elem_of.
Qed.

(** C3, as the code has it. A login for a username that resolves to no
    user, and a login with a wrong password for a user who has a local
    identity or is a legacy local account, are refused with the same 401
    "Invalid username or password", and the session is left as it was. A
    user with neither is refused, whatever the password, with a 401 of its
    own that names the authentication provider. *)
Theorem login_credential_failures (login_request : Routes.LoginRequest)
    (request : Routes.Request) (env : Env) (s : Session) :
  let attempt := Routes.login settings login_request request env s in
  match login_user (working s) (Routes.username login_request) with
  | None =>
      attempt = (Raise (HTTPException HTTP_401_UNAUTHORIZED
                          "Invalid username or password"), s)
  | Some user =>
      (local_account (working s) user →
       wrong_password (Routes.password login_request) user →
       attempt = (Raise (HTTPException HTTP_401_UNAUTHORIZED
                           "Invalid username or password"), s))
      ∧ (¬ local_account (working s) user →
         attempt = (Raise (HTTPException HTTP_401_UNAUTHORIZED
                      "Please use your configured authentication provider to log in"),
                    s))
  end.
Proof.
  intros attempt. subst attempt. unfold login_user, Routes.login. unfold_M.
  simpl.
  set (identity := first _ (user_identities (working s))).
  set (found := match identity with
                | Some (_, i) => first _ (users (working s))
                | None => first _ (users (working s))
                end).
  assert (Hfound : match identity with
                   | Some (_, i) =>
                       snd <$> first (λ u, User.id u = UserIdentity.user_id i)
                                 (users (working s))
                   | None =>
                       snd <$> first (λ u, User.username u
                                           = Routes.username login_request)
                                 (users (working s))
                   end = snd <$> found).
  { subst found. by destruct identity as [[ki i]|]. }
  rewrite Hfound. clearbody found. clear Hfound.
  destruct found as [[ku user]|]; simpl; [|done].
  pose proof (has_local_identity_spec (working s) user) as Hlocal.
  unfold local_account, wrong_password. split.
  - intros Hacc Hwrong.
    assert (negb (bool_decide (is_Some
              (first (λ i, UserIdentity.user_id i = User.id user
                           ∧ UserIdentity.provider i = "local")
                     (user_identities (working s)))))
            && bool_decide (User.auth_provider user ≠ "local") = false) as ->.
    { apply andb_false_iff. destruct Hacc as [Hi|Hp].
      - left. apply negb_false_iff, bool_decide_eq_true. by apply Hlocal.
      - right. apply bool_decide_eq_false. by intros Hne. }
    assert (negb (truthy (User.password_hash user))
            || negb (verify_password (Routes.password login_request)
                       (default EmptyString (User.password_hash user)))
            = true) as ->; [|done].
    apply orb_true_iff. destruct Hwrong as [-> | ->]; auto.
  - intros Hacc.
    assert (negb (bool_decide (is_Some
              (first (λ i, UserIdentity.user_id i = User.id user
                           ∧ UserIdentity.provider i = "local")
                     (user_identities (working s)))))
            && bool_decide (User.auth_provider user ≠ "local") = true) as ->;
      [|done].
    apply andb_true_iff. split.
    + apply negb_true_iff, bool_decide_eq_false. intros Hi.
      apply Hacc. left. by apply Hlocal.
    + apply bool_decide_eq_true. intros Hp. apply Hacc. by right.
Qed.
End Login.

(** C3 as the specification words it (one error for every credential
    failure) does not hold: [bob] exists, signs in through Dispatcharr and
    has no local identity; a login with a wrong password for [bob] is
    answered differently from a login for a username nobody has. *)
Lemma login_error_reveals_non_local_user :
  let attempt name :=
    (serve (Routes.login (TL:=Scenario.tokens) (PL:=Scenario.passwords)
              Scenario.settings
              {| Routes.username := name; Routes.password := "wrong" |}
              {| Routes.client_host := Some "127.0.0.1";
                 Routes.header_user_agent := Some "pytest" |}
              (Scenario.at_time 1000 "r1"))
           Scenario.db).1 in
  login_user Scenario.db "nobody" = None
  ∧ login_user Scenario.db "bob" = Some Scenario.bob
  ∧ wrong_password (PL:=Scenario.passwords) "wrong" Scenario.bob
  ∧ attempt "nobody"
    = Raise (HTTPException HTTP_401_UNAUTHORIZED "Invalid username or password")
  ∧ attempt "bob"
    = Raise (HTTPException HTTP_401_UNAUTHORIZED
               "Please use your configured authentication provider to log in")
  ∧ attempt "bob" ≠ attempt "nobody".
Proof.
  intros attempt. split_and!.
  - vm_compute. reflexivity.
  - vm_compute. reflexivity.
  - left. vm_compute. reflexivity.
  - vm_compute. reflexivity.
  - vm_compute. reflexivity.
  - vm_compute. discriminate.
Qed.

Lemma login_credential_failures_witness :
  Routes.login (TL:=Scenario.tokens) (PL:=Scenario.passwords) Scenario.settings
    {| Routes.username := "admin"; Routes.password := "wrong" |}
    {| Routes.client_host := Some "127.0.0.1";
       Routes.header_user_agent := Some "pytest" |}
    (Scenario.at_time 1000 "r1") (mkSession Scenario.db Scenario.db)
  = (Raise (HTTPException HTTP_401_UNAUTHORIZED "Invalid username or password"),
     mkSession Scenario.db Scenario.db).
Proof.
  pose proof (login_credential_failures (TL:=Scenario.tokens)
                (PL:=Scenario.passwords) Scenario.settings
                {| Routes.username := "admin"; Routes.password := "wrong" |}
                {| Routes.client_host := Some "127.0.0.1";
                   Routes.header_user_agent := Some "pytest" |}
                (Scenario.at_time 1000 "r1")
                (mkSession Scenario.db Scenario.db)) as Hlogin.
  change (login_user _ _) with (Some Scenario.admin) in Hlogin.
  destruct Hlogin as [Hwrong _]. apply Hwrong.
  - right. reflexivity.
  - right. vm_compute. reflexivity.
Defined.

(** ** Linked identities *)

Section Identities.
Context {TL : TokenLib} {PL : PasswordLib} {ST : Store}.
Variable settings : Settings.AuthSettings.

Lemma unlink_identity_Ok identity_id current_user s resp s' :
  Routes.unlink_identity identity_id current_user s = (Ok resp, s') →
  ∃ k identity,
    user_identities (working s) !! k = Some identity
    ∧ UserIdentity.id identity = identity_id
    ∧ UserIdentity.user_id identity = User.id current_user
    ∧ 1 < identity_count (User.id current_user) (working s)
    ∧ working s' = set_user_identities (delete k) (working s)
    ∧ stored s' = working s'.
Proof.
  unfold Routes.unlink_identity, identity_count. unfold_M. simpl.
  destruct (first _ _) as [[k identity]|] eqn:Hfind; [|discriminate].
  apply list_find_Some in Hfind as (Hk & [Hid Huid] & _).
  case_bool_decide; [discriminate|]. simpl. intros [= <- <-].
  exists k, identity. simpl. split_and!; try done. lia.
Qed.

Lemma unlink_identity_Raise identity_id current_user s e s' :
  Routes.unlink_identity identity_id current_user s = (Raise e, s') → s' = s.
Proof. unfold Routes.unlink_identity. run_handler; intros; by simplify_eq. Qed.

Lemma unlink_identity_keeps_one identity_id current_user db user_id :
  1 ≤ identity_count user_id db →
  1 ≤ identity_count user_id
        (serve (Routes.unlink_identity identity_id current_user) db).2.
Proof.
  intros Hone. unfold serve.
  destruct (Routes.unlink_identity _ _ _) as [[r|e] s'] eqn:Hr; simpl.
  - apply unlink_identity_Ok in Hr
      as (k & identity & Hk & _ & Huid & Hmany & Hw & ->).
    rewrite Hw. unfold identity_count, count in *. simpl in *.
    rewrite (filter_delete_length
               (λ i, UserIdentity.user_id i = user_id) _ k identity Hk) in Hone.
    rewrite (filter_delete_length
               (λ i, UserIdentity.user_id i = User.id current_user)
               _ k identity Hk) in Hmany.
    revert Hone Hmany. repeat case_decide; simplify_eq; try lia.
    rewrite Huid. lia.
  - by apply unlink_identity_Raise in Hr as ->.
Qed.

Lemma remove_user_identity_keeps_one identity_id owner db user_id :
  NoDup (UserIdentity.id <$> user_identities db) →
  1 ≤ identity_count user_id db →
  1 ≤ identity_count user_id
        (working (Routes.remove_user_identity identity_id owner
                    (mkSession db db)).2).
Proof.
  intros Hkey Hone. unfold Routes.remove_user_identity. unfold_M. simpl.
  case_bool_decide as Hmany; simpl; [done|].
  unfold identity_count, count in *. simpl.
  destruct (decide (user_id = owner)) as [->|Hother].
  - pose proof (filter_split_length
                  (λ i, UserIdentity.user_id i = owner)
                  (λ i, UserIdentity.id i = identity_id
                        ∧ UserIdentity.user_id i = owner)
                  (user_identities db)) as Hsplit.
    pose proof (primary_key_length (user_identities db) identity_id
                  (λ i, UserIdentity.user_id i = owner) Hkey) as Hkey1.
    lia.
  - rewrite filter_unaffected_length; [done|]. intros i [_ Hi]. congruence.
Qed.

Lemma login_identities lr rq env db user_id :
  identity_count user_id (serve (Routes.login settings lr rq env) db).2
  = identity_count user_id db.
Proof.
  unfold serve, Routes.login, identity_count, count. unfold_M. simpl.
  destruct (first _ (user_identities db)) as [[ki i]|] eqn:Hi.
  - apply list_find_Some in Hi as (Hki & _ & _).
    run_handler. f_equal. by apply (filter_insert_length _ _ ki i).
  - run_handler.
Qed.

Lemma refresh_tokens_identities rt env db :
  user_identities (serve (Routes.refresh_tokens settings rt env) db).2
  = user_identities db.
Proof.
  unfold serve.
  destruct (Routes.refresh_tokens settings rt env _) as [[r|e] s'] eqn:Hr.
  - apply refresh_tokens_Ok in Hr
      as (tok & claims & k & us & _ & _ & _ & _ & _ & _ & Hw & Hst).
    simpl. by rewrite Hst, Hw.
  - by apply refresh_tokens_Raise in Hr as ->.
Qed.

Lemma logout_identities rt db :
  user_identities (serve (Routes.logout rt) db).2 = user_identities db.
Proof. unfold serve, Routes.logout. run_handler. Qed.

Lemma forgot_password_identities email env db :
  user_identities (serve (Routes.forgot_password email env) db).2
  = user_identities db.
Proof. unfold serve, Routes.forgot_password. run_handler. Qed.

Lemma reset_password_identities tok pw env db :
  user_identities (serve (Routes.reset_password tok pw env) db).2
  = user_identities db.
Proof. unfold serve, Routes.reset_password. run_handler. Qed.

Lemma step_keeps_one_identity db q user_id :
  1 ≤ identity_count user_id db →
  1 ≤ identity_count user_id (Api.step settings db q).2.
Proof.
  intros Hone. destruct q as [[lr rq|rt|rt|email|tok pw|i u] env];
    unfold Api.step, Api.handler; simpl; rewrite serve_bind_ret.
  - pose proof (login_identities lr rq env db user_id) as Hl.
    destruct (serve _ db) as [[r|e] db']; simpl in *; by rewrite Hl.
  - pose proof (refresh_tokens_identities rt env db) as Hl.
    unfold identity_count in *.
    destruct (serve _ db) as [[r|e] db']; simpl in *; by rewrite Hl.
  - pose proof (logout_identities rt db) as Hl. unfold identity_count in *.
    destruct (serve _ db) as [[r|e] db']; simpl in *; by rewrite Hl.
  - pose proof (forgot_password_identities email env db) as Hl.
    unfold identity_count in *.
    destruct (serve _ db) as [[r|e] db']; simpl in *; by rewrite Hl.
  - pose proof (reset_password_identities tok pw env db) as Hl.
    unfold identity_count in *.
    destruct (serve _ db) as [[r|e] db']; simpl in *; by rewrite Hl.
  - pose proof (unlink_identity_keeps_one i u db user_id Hone) as Hl.
    destruct (serve _ db) as [[r|e] db']; simpl in *; done.
Qed.

Lemma run_keeps_one_identity qs db user_id :
  1 ≤ identity_count user_id db →
  1 ≤ identity_count user_id (Api.run settings db qs).
Proof.
  revert db. induction qs as [|q qs IH]; intros db Hone; [done|].
  simpl. apply IH. by apply step_keeps_one_identity.
Qed.

(** C4. When the user has exactly one identity the unlink is refused, by
    the endpoint with an HTTP error (the 400 that names the last identity
    when the row is the user's) and by [remove_user_identity] with [False],
    and the session is left as it was. So a user who has an identity keeps
    at least one: through [unlink_identity], through
    [remove_user_identity] when [id] is a key of the table, and through any
    sequence of requests. *)
Theorem last_identity_is_never_unlinked (identity_id : Z)
    (current_user : User.t) (db : Db) :
  (identity_count (User.id current_user) db = 1 →
   (∃ status detail,
      Routes.unlink_identity identity_id current_user (mkSession db db)
      = (Raise (HTTPException status detail), mkSession db db))
   ∧ (is_Some (first (λ i, UserIdentity.id i = identity_id
                           ∧ UserIdentity.user_id i = User.id current_user)
                     (user_identities db)) →
      Routes.unlink_identity identity_id current_user (mkSession db db)
      = (Raise (HTTPException HTTP_400_BAD_REQUEST
                  "Cannot unlink your last identity - you would be locked out"),
         mkSession db db))
   ∧ Routes.remove_user_identity identity_id (User.id current_user)
       (mkSession db db)
     = (Ok false, mkSession db db))
  ∧ (∀ user_id,
       1 ≤ identity_count user_id db →
       1 ≤ identity_count user_id
             (serve (Routes.unlink_identity identity_id current_user) db).2)
  ∧ (NoDup (UserIdentity.id <$> user_identities db) →
     ∀ owner user_id,
       1 ≤ identity_count user_id db →
       1 ≤ identity_count user_id
             (working (Routes.remove_user_identity identity_id owner
                         (mkSession db db)).2))
  ∧ (∀ qs user_id,
       1 ≤ identity_count user_id db →
       1 ≤ identity_count user_id (Api.run settings db qs)).
Proof.
  split_and!.
  - intros Hone. unfold Routes.unlink_identity, Routes.remove_user_identity.
    unfold identity_count in Hone. unfold_M. simpl. rewrite Hone. simpl.
    split_and!; [|intros [[k i] ->]|]; try done.
    destruct (first _ _) as [[k i]|]; by eexists _, _.
  - intros user_id. apply unlink_identity_keeps_one.
  - intros Hkey owner user_id. by apply remove_user_identity_keeps_one.
  - intros qs user_id. apply run_keeps_one_identity.
Qed.
End Identities.

Lemma last_identity_is_never_unlinked_witness :
  Routes.unlink_identity 1 Scenario.admin (mkSession Scenario.db Scenario.db)
  = (Raise (HTTPException HTTP_400_BAD_REQUEST
              "Cannot unlink your last identity - you would be locked out"),
     mkSession Scenario.db Scenario.db)
  ∧ 1 ≤ identity_count 1
          (working (Routes.remove_user_identity 1 1
                      (mkSession Scenario.db Scenario.db)).2).
Proof.
  destruct (last_identity_is_never_unlinked (TL:=Scenario.tokens) (ST:=Scenario.store)
              (PL:=Scenario.passwords) Scenario.settings 1 Scenario.admin
              Scenario.db) as (Hlast & _ & Hremove & _).
  split.
  - apply Hlast; [reflexivity|]. vm_compute. eauto.
  - apply Hremove; [|vm_compute; discriminate].
    apply (bool_decide_unpack _). vm_compute. exact I.
Defined.

(** ** The password policy *)

Lemma find_first {A} (f : A → bool) (l : list A) (x : A) :
  List.find f l = Some x →
  ∃ earlier later,
    l = earlier ++ x :: later
    ∧ Forall (λ y, f y = false) earlier ∧ f x = true.
Proof.
  induction l as [|z l IH]; [done|]. simpl.
  destruct (f z) eqn:Hz.
  - intros [= ->]. by exists [], l.
  - intros (earlier & later & -> & Hearlier & Hx)%IH.
    exists (z :: earlier), later. split_and!; try done. by constructor.
Qed.

Lemma validate_password_with_find cfg deny password username :
  Password.validate_password_with cfg deny password username
  = match List.find (Password.violates cfg deny password username)
            Password.rules with
    | Some r => Password.failed (Password.message cfg r)
    | None => mkPasswordValidationResult true None
    end.
Proof.
  unfold Password.validate_password_with. simpl.
  repeat (match goal with
          | |- context [if ?c then Password.failed _ else _] => destruct c
          end; [reflexivity|]).
  reflexivity.
Qed.

(** C7. [validate_password] accepts a password exactly when it violates no
    enabled rule (minimum length, uppercase, lowercase, digit, special
    character, deny-list, username); an accepted password carries no error;
    a refused one carries one message, that of the first rule, in the order
    of the specification, that it violates. With the default policy
    "Short1!" is refused for its length and "ValidPass123!" is accepted. *)
Theorem validate_password_first_failing_rule (cfg : Settings.LocalAuthSettings)
    (deny : list string) (password : string) (username : option string) :
  let res := Password.validate_password_with cfg deny password username in
  (valid res = true
   ↔ ∀ r, Password.violates cfg deny password username r = false)
  ∧ (valid res = true → error res = None)
  ∧ (valid res = false →
     ∃ earlier r later,
       Password.rules = earlier ++ r :: later
       ∧ Forall (λ r', Password.violates cfg deny password username r' = false)
           earlier
       ∧ Password.violates cfg deny password username r = true
       ∧ error res = Some (Password.message cfg r))
  ∧ Password.validate_password "Short1!" None
    = mkPasswordValidationResult false
        (Some "Password must be at least 8 characters long")
  ∧ Password.validate_password "ValidPass123!" None
    = mkPasswordValidationResult true None.
Proof.
  intros res. subst res. rewrite validate_password_with_find.
  destruct (List.find _ _) as [r|] eqn:Hfind.
  - apply find_first in Hfind as (earlier & later & Hrules & Hearlier & Hr).
    split_and!; simpl; try done.
    + split; [done|]. intros Hall. rewrite Hall in Hr. done.
    + intros _. by exists earlier, r, later.
  - split_and!; simpl; try done.
    split; [|done]. intros _ r.
    pose proof (List.find_none _ _ Hfind r) as Hnone. apply Hnone.
    destruct r; simpl; tauto.
Qed.

(** ** Access tokens *)

Section TokenRoundTrip.
Variable sign : string → Claims → Claims → string.
Variable jwt : Settings.JWTSettings.

(** C8. Decoding, before it expires, the access token created for a
    user id and a username gives back claims with that [sub] and that
    [username], and with [exp - iat] the configured lifetime in seconds:
    thirty minutes under the default settings. *)
Theorem access_token_round_trip (env env' : Env) (user_id : Z) (username : string) :
  utcnow env' ≤ utcnow env + Settings.access_token_expire_minutes jwt * 60 →
  ∃ claims iat exp,
    Tokens.decode_token sign jwt env'
      (Some (Tokens.create_access_token sign jwt env user_id username None))
    = Ok claims
    ∧ claims !! "sub" = Some (CInt user_id)
    ∧ claims !! "username" = Some (CStr username)
    ∧ claims !! "iat" = Some (CInt iat)
    ∧ claims !! "exp" = Some (CInt exp)
    ∧ exp - iat = Settings.access_token_expire_minutes jwt * 60
    ∧ (jwt = Settings.default_JWTSettings → exp - iat = 30 * 60).
Proof.
  intros Hlive. eexists _, (utcnow env), _.
  unfold Tokens.decode_token, Tokens.create_access_token, Tokens.encode. simpl.
  rewrite bool_decide_eq_false_2 by (intros Hne; by apply Hne).
  rewrite String.eqb_refl. simpl.
  set (claims := ({[ "sub" := CInt user_id; "username" := CStr username;
                     "iat" := CInt (utcnow env);
                     "exp" := CInt (utcnow env
                                    + Settings.access_token_expire_minutes jwt * 60) ]}
                  : Claims)).
  assert (Hsub : claims !! "sub" = Some (CInt user_id)) by (by vm_compute).
  assert (Hname : claims !! "username" = Some (CStr username)) by (by vm_compute).
  assert (Hiat : claims !! "iat" = Some (CInt (utcnow env))) by (by vm_compute).
  assert (Hexp : claims !! "exp"
                 = Some (CInt (utcnow env
                               + Settings.access_token_expire_minutes jwt * 60)))
    by (by vm_compute).
  rewrite Hexp. rewrite (proj2 (Z.ltb_ge _ _)) by lia.
  split_and!; try done; [lia|]. intros ->. simpl. lia.
Qed.
End TokenRoundTrip.

Lemma access_token_round_trip_witness :
  ∃ claims iat exp,
    Tokens.decode_token Scenario.sign Settings.default_JWTSettings
      (Scenario.at_time 1900 "r2")
      (Some (Tokens.create_access_token Scenario.sign
               Settings.default_JWTSettings (Scenario.at_time 1000 "r1")
               42 "testuser" None))
    = Ok claims
    ∧ claims !! "sub" = Some (CInt 42)
    ∧ claims !! "username" = Some (CStr "testuser")
    ∧ claims !! "iat" = Some (CInt iat)
    ∧ claims !! "exp" = Some (CInt exp)
    ∧ exp - iat = 30 * 60.
Proof.
  destruct (access_token_round_trip Scenario.sign Settings.default_JWTSettings
              (Scenario.at_time 1000 "r1") (Scenario.at_time 1900 "r2")
              42 "testuser")
    as (claims & iat & exp & Hdec & Hsub & Hname & Hiat & Hexp & _ & Hdefault).
  - vm_compute. discriminate.
  - exists claims, iat, exp. split_and!; try done. by apply Hdefault.
Defined.

(** ** The unit tests of the password policy, on the model *)

Example test_password_minimum_length :
  Password.validate_password "Short1!" None
  = Password.failed "Password must be at least 8 characters long"
  ∧ valid (Password.validate_password "Valid1!!" None) = true.
Proof. by vm_compute. Qed.

Example test_password_requires_uppercase :
  Password.validate_password "alllowercase123!" None
  = Password.failed "Password must contain at least one uppercase letter".
Proof. by vm_compute. Qed.

Example test_password_requires_lowercase :
  Password.validate_password "ALLUPPERCASE123!" None
  = Password.failed "Password must contain at least one lowercase letter".
Proof. by vm_compute. Qed.

Example test_password_requires_number :
  Password.validate_password "NoNumbers!!" None
  = Password.failed "Password must contain at least one number".
Proof. by vm_compute. Qed.

Example test_password_cannot_be_common :
  Forall (λ p, Password.validate_password p None
               = Password.failed "Password is too common")
    ["Password123!"; "Qwerty123!"; "Admin123!"; "Welcome123!"; "Letmein123!"].
Proof. repeat constructor. Qed.

Example test_password_cannot_match_username :
  Password.validate_password "AdminUser123!" (Some "adminuser")
  = Password.failed "Password cannot contain your username"
  ∧ valid (Password.validate_password "MyJohnDoe123!" (Some "johndoe")) = false.
Proof. by vm_compute. Qed.

(** ** The unit tests of token validation, on the model *)

Example test_decode_token_raises_for_expired_token :
  Tokens.decode_token Scenario.sign Settings.default_JWTSettings
    (Scenario.at_time 1000 "r1")
    (Some (Tokens.create_access_token Scenario.sign Settings.default_JWTSettings
             (Scenario.at_time 1000 "r1") 1 "test" (Some (-1))))
  = Raise TokenExpiredError.
Proof. by vm_compute. Qed.

Example test_decode_token_raises_for_invalid_signature :
  let token :=
    Tokens.create_access_token Scenario.sign Settings.default_JWTSettings
      (Scenario.at_time 1000 "r1") 1 "test" None in
  Tokens.decode_token Scenario.sign Settings.default_JWTSettings
    (Scenario.at_time 1000 "r1")
    (Some (Tokens.mk (Tokens.header token) (Tokens.payload token)
             "invalidsignature123"))
  = Raise (InvalidTokenError "Signature verification failed").
Proof. by vm_compute. Qed.

Example test_decode_token_raises_for_tampered_token :
  let token :=
    Tokens.create_access_token Scenario.sign Settings.default_JWTSettings
      (Scenario.at_time 1000 "r1") 1 "test" None in
  Tokens.decode_token Scenario.sign Settings.default_JWTSettings
    (Scenario.at_time 1000 "r1")
    (Some (Tokens.mk (Tokens.header token)
             (<["sub" := CInt 2]> (Tokens.payload token))
             (Tokens.signature token)))
  = Raise (InvalidTokenError "Signature verification failed").
Proof. by vm_compute. Qed.

Example test_refresh_token_has_type_claim :
  Tokens.decode_token Scenario.sign Settings.default_JWTSettings
    (Scenario.at_time 1000 "r1")
    (Some (Tokens.create_refresh_token Scenario.sign
             Settings.default_JWTSettings (Scenario.at_time 1000 "r1") 1 None))
  = Ok ({[ "sub" := CInt 1; "type" := CStr "refresh"; "iat" := CInt 1000;
           "exp" := CInt (1000 + 7 * 24 * 60 * 60) ]} : Claims).
Proof. by vm_compute. Qed.

(** ** The scenarios of the specification, on the routes *)

Example scenario_login :
  match serve (Routes.login (TL:=Scenario.tokens) (PL:=Scenario.passwords)
                 Scenario.settings
                 {| Routes.username := "admin";
                    Routes.password := "validpassword123" |}
                 {| Routes.client_host := Some "127.0.0.1";
                    Routes.header_user_agent := Some "pytest" |}
                 (Scenario.at_time 1000 "r1"))
              Scenario.db with
  | (Ok r, db') =>
      Routes.ur_username (Routes.user r) = "admin"
      ∧ Routes.refresh_token (Routes.login_cookies r) = "refresh-r1"
      ∧ UserSession.refresh_token_hash <$> user_sessions db'
        = ["sha256:refresh-1"; "sha256:refresh-carol"; "sha256:refresh-r1"]
  | (Raise _, _) => False
  end.
Proof. by vm_compute. Qed.

Example scenario_reset_token_expiry :
  let redeem now :=
    (serve (Routes.reset_password (PL:=Scenario.passwords) "reset-1"
              "NewPass123!" (Scenario.at_time now "s1")) Scenario.db).1 in
  redeem 7200
  = Raise (HTTPException HTTP_400_BAD_REQUEST "Reset token has expired")
  ∧ redeem 1800 = Ok {| Routes.message := "Password reset successfully" |}.
Proof. by vm_compute. Qed.

Example scenario_unlink_after_linking :
  let unlink := Routes.unlink_identity 1 Scenario.admin in
  let link :=
    Routes.add_user_identity 1 "dispatcharr" "admin" (Some "7")
      (Scenario.at_time 1000 "r1");; commit in
  (serve unlink Scenario.db).1
  = Raise (HTTPException HTTP_400_BAD_REQUEST
             "Cannot unlink your last identity - you would be locked out")
  ∧ (serve unlink (serve link Scenario.db).2).1
    = Ok {| Routes.message := "Identity unlinked successfully" |}.
Proof. by vm_compute. Qed.

(** * More of the settings and of the routes *)

(** ** Loading and keeping the settings *)

Section SettingsFacts.
Variable dumps : Settings.AuthSettings → option string.
Variable loads : string → option Settings.AuthSettings.

Lemma save_auth_settings_Ok s w b w' :
  Settings.save_auth_settings dumps s w = (Ok b, w') →
  Settings._cached_auth_settings w' = Some s
  ∧ Settings.next_secret w' = Settings.next_secret w
  ∧ Settings.mkdir_succeeds w' = Settings.mkdir_succeeds w
  ∧ Settings.config_disk w' = Settings.config_disk w.
Proof.
  unfold Settings.save_auth_settings, Settings._ensure_config_dir.
  destruct (Settings.mkdir_succeeds w) eqn:Hm; simpl.
  - destruct (dumps s); [|discriminate].
    destruct (Settings.write_succeeds w) eqn:Hw; intros [= <- <-]; simpl; done.
  - intros [= <- <-]. simpl. done.
Qed.

(** A directory through which a file was written can be searched. *)
Lemma write_succeeds_exists w :
  Settings.write_succeeds w = true → Settings.exists_raises w = false.
Proof.
  unfold Settings.write_succeeds, Settings.exists_raises.
  by destruct (Settings.config_disk w).
Qed.

Lemma save_auth_settings_Raise s w e w' :
  Settings.save_auth_settings dumps s w = (Raise e, w') → w' = w.
Proof.
  unfold Settings.save_auth_settings.
  destruct (negb _); [discriminate|].
  destruct (dumps s); [|by intros [= _ <-]].
  destruct (Settings.write_succeeds w); discriminate.
Qed.

Lemma load_defaults_Ok w s w' :
  Settings.load_defaults dumps w = (Ok s, w') →
  Settings._cached_auth_settings w' = Some s
  ∧ s = Settings.with_secret_key Settings.default_AuthSettings
          (Settings.next_secret w).
Proof.
  unfold Settings.load_defaults, Settings._generate_secret_key.
  destruct (Settings.save_auth_settings _ _ _) as [[b|e] w2] eqn:Hsave;
    [|discriminate].
  intros [= <- <-]. apply save_auth_settings_Ok in Hsave as (Hc & _). done.
Qed.

Lemma load_auth_settings_Ok w s w' :
  Settings.load_auth_settings dumps loads w = (Ok s, w') →
  Settings._cached_auth_settings w' = Some s.
Proof.
  unfold Settings.load_auth_settings.
  destruct (Settings._cached_auth_settings w) as [c|] eqn:Hc;
    [by intros [= <- <-]|].
  destruct (Settings.exists_raises w); [discriminate|].
  destruct (Settings.auth_config_file w) as [text|];
    [|by intros (? & _)%load_defaults_Ok].
  destruct (loads text) as [s0|]; [|by intros (? & _)%load_defaults_Ok].
  destruct (negb _); [by intros [= <- <-]|].
  destruct (Settings.save_auth_settings _ _ _) as [[b|e] w3] eqn:Hsave.
  - intros [= <- <-]. by apply save_auth_settings_Ok in Hsave as (? & _).
  - by intros (? & _)%load_defaults_Ok.
Qed.

(** X1. a loaded settings object stays: the next load returns it again and
    leaves the world (cache, file) as it is. *)
Theorem load_auth_settings_is_cached (w : Settings.World)
    (s : Settings.AuthSettings) (w' : Settings.World) :
  Settings.load_auth_settings dumps loads w = (Ok s, w') →
  Settings.load_auth_settings dumps loads w' = (Ok s, w').
Proof.
  intros Hc%load_auth_settings_Ok. unfold Settings.load_auth_settings.
  by rewrite Hc.
Qed.

Lemma next_secret_set_cache w c :
  Settings.next_secret (Settings.set_cache w c) = Settings.next_secret w.
Proof. reflexivity. Qed.

(** X2. with nothing cached, what a load returns has a signing key. *)
Theorem fresh_load_has_secret_key (w : Settings.World)
    (s : Settings.AuthSettings) (w' : Settings.World) :
  Settings._cached_auth_settings w = None →
  Settings.next_secret w ≠ EmptyString →
  Settings.load_auth_settings dumps loads w = (Ok s, w') →
  Settings.secret_key (Settings.jwt s) ≠ EmptyString.
Proof.
  intros Hc Hkey. unfold Settings.load_auth_settings. rewrite Hc.
  assert (Hdef : ∀ w0, Settings.next_secret w0 = Settings.next_secret w →
            Settings.load_defaults dumps w0 = (Ok s, w') →
            Settings.secret_key (Settings.jwt s) ≠ EmptyString).
  { intros w0 Hw0 (_ & ->)%load_defaults_Ok. simpl. by rewrite Hw0. }
  destruct (Settings.exists_raises w); [discriminate|].
  destruct (Settings.auth_config_file w) as [text|]; [|by apply Hdef].
  destruct (loads text) as [s0|]; [|by apply Hdef].
  destruct (String.eqb_spec (Settings.secret_key (Settings.jwt s0)) EmptyString)
    as [Hempty|Hfull]; simpl.
  - destruct (Settings.save_auth_settings _ _ _) as [[b|e] w3] eqn:Hsave.
    + intros [= <- <-]. done.
    + apply save_auth_settings_Raise in Hsave as ->. by apply Hdef.
  - by intros [= <- <-].
Qed.

(** X3. what [save_auth_settings] wrote is what a load reads back once the
    cache is cleared. *)
Theorem save_clear_load_round_trip (s : Settings.AuthSettings)
    (w : Settings.World) (text : string) :
  Settings.mkdir_succeeds w = true →
  Settings.write_succeeds w = true →
  dumps s = Some text →
  loads text = Some s →
  Settings.secret_key (Settings.jwt s) ≠ EmptyString →
  ∃ w1,
    Settings.save_auth_settings dumps s w = (Ok true, w1)
    ∧ Settings.auth_config_file w1 = Some text
    ∧ Settings.load_auth_settings dumps loads
        (Settings.clear_auth_settings_cache w1) = (Ok s, w1).
Proof.
  intros Hm Hw Hd Hl Hkey. eexists. split_and!.
  - unfold Settings.save_auth_settings, Settings._ensure_config_dir.
    rewrite Hm, Hd, Hw. reflexivity.
  - reflexivity.
  - unfold Settings.load_auth_settings. simpl.
    change (Settings.exists_raises _) with (Settings.exists_raises w).
    rewrite (write_succeeds_exists w Hw), Hl.
    destruct (String.eqb_spec (Settings.secret_key (Settings.jwt s))
        EmptyString);
      [done|]. reflexivity.
Qed.

(** X4. with nothing cached and a configuration file that is missing or
    does not parse, the load answers with the defaults and a fresh key
    whenever the existence of the file can be tested, whether or not the
    disk can be written. The file is then the serialized defaults when the
    write succeeded, what the failed write left of it when it did not, and
    untouched when the directory could not be created. When [exists()]
    raises, the load raises and nothing is cached. *)
Theorem load_falls_back_to_defaults (w : Settings.World) (text : string) :
  Settings._cached_auth_settings w = None →
  match Settings.auth_config_file w with
  | Some text => loads text = None
  | None => True
  end →
  let s :=
    Settings.with_secret_key Settings.default_AuthSettings
      (Settings.next_secret w) in
  dumps s = Some text →
  if Settings.exists_raises w then
    Settings.load_auth_settings dumps loads w
    = (Raise (OtherException "PermissionError"), w)
  else
    ∃ w',
      Settings.load_auth_settings dumps loads w = (Ok s, w')
      ∧ Settings._cached_auth_settings w' = Some s
      ∧ Settings.auth_config_file w'
        = if Settings.mkdir_succeeds w then
            if Settings.write_succeeds w then Some text
            else Settings.after_failed_write w text
          else Settings.auth_config_file w.
Proof.
  intros Hc Hfile s Hd. unfold Settings.load_auth_settings. rewrite Hc.
  destruct (Settings.exists_raises w); [reflexivity|].
  assert (Hdef : ∃ w',
    Settings.load_defaults dumps w = (Ok s, w')
    ∧ Settings._cached_auth_settings w' = Some s
    ∧ Settings.auth_config_file w'
      = if Settings.mkdir_succeeds w then
          if Settings.write_succeeds w then Some text
          else Settings.after_failed_write w text
        else Settings.auth_config_file w).
  { unfold Settings.load_defaults, Settings.save_auth_settings,
      Settings._ensure_config_dir, Settings._generate_secret_key. simpl.
    fold s. rewrite Hd.
    change (Settings.write_succeeds _) with (Settings.write_succeeds w).
    destruct (Settings.mkdir_succeeds w), (Settings.write_succeeds w); simpl;
      eexists; (split; [reflexivity|]); simpl; done. }
  destruct (Settings.auth_config_file w) as [t|]; [|exact Hdef].
  rewrite Hfile. exact Hdef.
Qed.

(** X5. the signing key is never empty when the generator's is not, and it
    is stable: the next call returns the same key and changes nothing. *)
Theorem jwt_secret_key_is_stable (w : Settings.World) (key : string)
    (w' : Settings.World) :
  Settings.get_jwt_secret_key dumps loads w = (Ok key, w') →
  (Settings.next_secret w ≠ EmptyString → key ≠ EmptyString)
  ∧ (key ≠ EmptyString →
     Settings.get_jwt_secret_key dumps loads w' = (Ok key, w')).
Proof.
  unfold Settings.get_jwt_secret_key, Settings.get_auth_settings.
  destruct (Settings.load_auth_settings dumps loads w) as [[s|e] w1] eqn:Hload;
    [|discriminate].
  pose proof (load_auth_settings_Ok _ _ _ Hload) as Hc1.
  destruct (String.eqb_spec (Settings.secret_key (Settings.jwt s)) EmptyString)
    as [Hempty|Hfull]; simpl.
  - destruct (Settings.save_auth_settings _ _ _) as [[b|e] w3] eqn:Hsave;
      [|discriminate].
    intros [= <- <-].
    apply save_auth_settings_Ok in Hsave as (Hc3 & Hn3 & _). simpl in *.
    assert (Hn1 : Settings.next_secret w1 = Settings.next_secret w).
    { clear -Hload. revert Hload. unfold Settings.load_auth_settings,
        Settings.load_defaults.
      repeat (case_match; simplify_eq/=; try done);
        intros; simplify_eq;
        repeat match goal with
        | H : Settings.save_auth_settings _ _ _ = (Ok _, _) |- _ =>
            apply save_auth_settings_Ok in H as (_ & H & _); simpl in H
        | H : Settings.save_auth_settings _ _ _ = (Raise _, _) |- _ =>
            apply save_auth_settings_Raise in H; subst
        end; simpl in *; congruence. }
    unfold Settings._generate_secret_key. split; [by rewrite Hn1|].
    intros Hkey. unfold Settings.load_auth_settings. rewrite Hc3. simpl.
    unfold Settings._generate_secret_key.
    destruct (String.eqb_spec (Settings.next_secret w1) EmptyString); done.
  - intros [= <- <-]. split; [done|]. intros _.
    unfold Settings.load_auth_settings. rewrite Hc1.
    destruct (String.eqb_spec (Settings.secret_key (Settings.jwt s))
        EmptyString);
      done.
Qed.

(** X6. after [mark_setup_complete] the settings in force are the ones in
    force before with the flag set, so setup is no longer required and the
    signing key is the same. *)
Theorem mark_setup_complete_sets_flag (w : Settings.World)
    (s0 : Settings.AuthSettings) (w1 w' : Settings.World) :
  Settings.get_auth_settings dumps loads w = (Ok s0, w1) →
  Settings.mark_setup_complete dumps loads w = (Ok tt, w') →
  Settings.get_auth_settings dumps loads w'
  = (Ok (Settings.with_setup_complete s0 true), w')
  ∧ Settings.is_setup_required (Settings.with_setup_complete s0 true) = false
  ∧ Settings.jwt (Settings.with_setup_complete s0 true) = Settings.jwt s0.
Proof.
  unfold Settings.mark_setup_complete. intros ->.
  destruct (Settings.save_auth_settings _ _ _) as [[b|e] w3] eqn:Hsave;
    [|discriminate].
  intros [= <-]. apply save_auth_settings_Ok in Hsave as (Hc & _).
  split_and!; try done.
  unfold Settings.get_auth_settings, Settings.load_auth_settings. by rewrite Hc.
Qed.

(** X7. [get_auth_status] reports setup as complete whenever a user exists,
    whatever the stored flag says, and leaves the flag set in the settings
    in force; with no user it reports the flag as it is. *)
Theorem get_auth_status_repairs_setup_flag (user_count : Z)
    (smtp_configured : bool) (w : Settings.World)
    (r : Routes.AuthStatusResponse.t) (w' : Settings.World) :
  Routes.get_auth_status dumps loads user_count smtp_configured w = (Ok r, w') →
  ∃ s,
    Settings.get_auth_settings dumps loads w' = (Ok s, w')
    ∧ Routes.AuthStatusResponse.setup_complete r = Settings.setup_complete s
    ∧ (0 < user_count → Settings.setup_complete s = true)
    ∧ (∀ s0 w1, Settings.get_auth_settings dumps loads w = (Ok s0, w1) →
         Settings.jwt s = Settings.jwt s0
         ∧ (user_count ≤ 0 → s = s0 ∧ w' = w1)).
Proof.
  unfold Routes.get_auth_status, Settings.get_auth_settings.
  destruct (Settings.load_auth_settings dumps loads w) as [[s0|e] w1] eqn:Hload;
    [|discriminate].
  pose proof (load_auth_settings_Ok _ _ _ Hload) as Hc1.
  destruct (Settings.setup_complete s0) eqn:Hflag; simpl.
  - intros [= <- <-]. exists s0. simpl.
    unfold Settings.load_auth_settings. rewrite Hc1.
    split_and!; first [done | lia | by intros ? ? [= <- <-]].
  - case_bool_decide as Hcount; simpl.
    + destruct (Settings.save_auth_settings _ _ _) as [[b|e] w3] eqn:Hsave;
        [|discriminate].
      intros [= <- <-]. apply save_auth_settings_Ok in Hsave as (Hc & _).
      exists (Settings.with_setup_complete s0 true). simpl.
      unfold Settings.load_auth_settings. rewrite Hc.
      split_and!; first [done | lia | intros ? ? [= <- <-]; split; [done|lia]].
    + intros [= <- <-]. exists s0. simpl.
      unfold Settings.load_auth_settings. rewrite Hc1.
      split_and!; first [done | lia | by intros ? ? [= <- <-]].
Qed.

Lemma save_auth_settings_total s w :
  is_Some (dumps s) →
  ∃ b w', Settings.save_auth_settings dumps s w = (Ok b, w').
Proof.
  intros [text Htext]. unfold Settings.save_auth_settings. rewrite Htext.
  destruct (negb _); [eauto|]. destruct (Settings.write_succeeds w); eauto.
Qed.

(** A load raises only what [exists()] raises, when the settings can be
    serialized. *)
Lemma load_auth_settings_total w :
  (∀ s, is_Some (dumps s)) →
  match Settings._cached_auth_settings w, Settings.exists_raises w with
  | None, true =>
      Settings.load_auth_settings dumps loads w
      = (Raise (OtherException "PermissionError"), w)
  | _, _ => ∃ s w', Settings.load_auth_settings dumps loads w = (Ok s, w')
  end.
Proof.
  intros Hdumps.
  assert (Hdef : ∀ w0, ∃ s w', Settings.load_defaults dumps w0 = (Ok s, w')).
  { intros w0. unfold Settings.load_defaults.
    edestruct save_auth_settings_total as (b & w' & ->); eauto. }
  unfold Settings.load_auth_settings.
  destruct (Settings._cached_auth_settings w); [eauto|].
  destruct (Settings.exists_raises w); [reflexivity|].
  destruct (Settings.auth_config_file w) as [text|]; [|apply Hdef].
  destruct (loads text) as [s|]; [|apply Hdef].
  destruct (negb _); [eauto|].
  edestruct save_auth_settings_total as (b & w' & ->); eauto.
Qed.

(** X8. a settings update by an administrator shows in the next read: each
    field the request carries has the requested value, every other field
    the value it had; the signing key, the token lifetimes, the session
    settings and the setup flag are not touched. Anyone else is refused
    with a 403 and nothing changes. For an administrator, when the
    settings can be serialized, the update fails in one case only: nothing
    is cached and [exists()] raises on the configuration file, and the
    loading the update starts with raises. In every other case it answers
    with success, also on a disk that cannot be written. *)
Theorem update_admin_auth_settings_round_trip
    (update_request : Routes.AuthSettingsUpdateRequest.t) (caller : User.t)
    (w : Settings.World) :
  (User.is_admin caller = false →
   Routes.update_admin_auth_settings dumps loads update_request caller w
   = (Raise (HTTPException HTTP_403_FORBIDDEN "Admin access required"), w))
  ∧ (∀ old w1 m w',
       Routes.get_admin_auth_settings dumps loads caller w = (Ok old, w1) →
       Routes.update_admin_auth_settings dumps loads update_request caller w
       = (Ok m, w') →
       Routes.get_admin_auth_settings dumps loads caller w'
       = (Ok {| Routes.AuthSettingsPublicResponse.require_auth :=
                  default (Routes.AuthSettingsPublicResponse.require_auth old)
                    (Routes.AuthSettingsUpdateRequest.require_auth
                        update_request);
                Routes.AuthSettingsPublicResponse.primary_auth_mode :=
                  default (Routes.AuthSettingsPublicResponse.primary_auth_mode
                      old)
                    (Routes.AuthSettingsUpdateRequest.primary_auth_mode
                        update_request);
                Routes.AuthSettingsPublicResponse.local_enabled :=
                  default (Routes.AuthSettingsPublicResponse.local_enabled old)
                    (Routes.AuthSettingsUpdateRequest.local_enabled
                        update_request);
                Routes.AuthSettingsPublicResponse.local_min_password_length :=
                  default
                    (Routes.AuthSettingsPublicResponse.local_min_password_length
                        old)
                    (Routes.AuthSettingsUpdateRequest.local_min_password_length
                       update_request);
                Routes.AuthSettingsPublicResponse.dispatcharr_enabled :=
                  default (Routes.AuthSettingsPublicResponse.dispatcharr_enabled
                      old)
                    (Routes.AuthSettingsUpdateRequest.dispatcharr_enabled
                       update_request);
                Routes.AuthSettingsPublicResponse.dispatcharr_auto_create_users
                    :=
                  default
                    (Routes.AuthSettingsPublicResponse.dispatcharr_auto_create_users
                       old)
                    (Routes.AuthSettingsUpdateRequest.dispatcharr_auto_create_users
                       update_request) |},
          w')
       ∧ ∀ s0 s,
           Settings._cached_auth_settings w1 = Some s0 →
           Settings._cached_auth_settings w' = Some s →
           Settings.jwt s = Settings.jwt s0
           ∧ Settings.session s = Settings.session s0
           ∧ Settings.setup_complete s = Settings.setup_complete s0)
  ∧ (User.is_admin caller = true →
     (∀ s, is_Some (dumps s)) →
     match Settings._cached_auth_settings w, Settings.exists_raises w with
     | None, true =>
         Routes.update_admin_auth_settings dumps loads update_request caller w
         = (Raise (OtherException "PermissionError"), w)
     | _, _ =>
         ∃ w',
           Routes.update_admin_auth_settings dumps loads update_request
             caller w
           = (Ok {| Routes.message := "Settings updated" |}, w')
     end).
Proof.
  split_and!.
  - intros Hadmin. unfold Routes.update_admin_auth_settings,
      Routes.require_admin.
    by rewrite Hadmin.
  - intros old w1 m w'.
    unfold Routes.get_admin_auth_settings, Routes.update_admin_auth_settings,
      Routes.require_admin, Settings.get_auth_settings.
    destruct (User.is_admin caller); simpl; [|discriminate].
    destruct (Settings.load_auth_settings dumps loads w) as [[s0|e] w0]
        eqn:Hload;
      [|discriminate].
    pose proof (load_auth_settings_Ok _ _ _ Hload) as Hc0.
    intros [= <- <-].
    destruct (Settings.save_auth_settings _ _ _) as [[b|e] w3] eqn:Hsave;
      [|discriminate].
    intros [= <- <-]. apply save_auth_settings_Ok in Hsave as (Hc & _).
    unfold Settings.load_auth_settings. rewrite Hc. split.
    + unfold Routes.apply_update.
      destruct update_request as [[?|] [?|] [?|] [?|] [?|] [?|]]; reflexivity.
    + intros s0' s Hs0 Hs.
      assert (s0' = s0) as -> by congruence.
      assert (s = Routes.apply_update update_request s0) as -> by congruence.
      unfold Routes.apply_update.
      destruct update_request as [[?|] [?|] [?|] [?|] [?|] [?|]]; done.
  - intros Hadmin Hdumps.
    unfold Routes.update_admin_auth_settings, Routes.require_admin,
      Settings.get_auth_settings.
    rewrite Hadmin. simpl.
    pose proof (load_auth_settings_total w Hdumps) as Hload.
    destruct (Settings._cached_auth_settings w) as [c|],
      (Settings.exists_raises w);
      try (destruct Hload as (s0 & w0 & ->);
           edestruct save_auth_settings_total as (b & w' & ->); by eauto).
    by rewrite Hload.
Qed.
End SettingsFacts.

Lemma load_auth_settings_is_cached_witness :
  ∃ s w',
    Settings.load_auth_settings Scenario.dumps Scenario.loads
        Scenario.fresh_world = (Ok s, w')
    ∧ Settings.load_auth_settings Scenario.dumps Scenario.loads w' = (Ok s, w').
Proof.
  eexists _, _. split; [vm_compute; reflexivity|].
  eapply (load_auth_settings_is_cached Scenario.dumps Scenario.loads
      Scenario.fresh_world).
  vm_compute. reflexivity.
Defined.

Lemma fresh_load_has_secret_key_witness :
  ∃ s w',
    Settings.load_auth_settings Scenario.dumps Scenario.loads
        Scenario.read_only_world = (Ok s, w')
    ∧ Settings.secret_key (Settings.jwt s) ≠ EmptyString.
Proof.
  eexists _, _. split; [vm_compute; reflexivity|].
  eapply (fresh_load_has_secret_key Scenario.dumps Scenario.loads
      Scenario.read_only_world).
  - reflexivity.
  - discriminate.
  - vm_compute. reflexivity.
Defined.

Lemma save_clear_load_round_trip_witness :
  ∃ w1,
    Settings.save_auth_settings Scenario.dumps Scenario.keyed_settings
        Scenario.fresh_world = (Ok true, w1)
    ∧ Settings.auth_config_file w1 = Some "k0"
    ∧ Settings.load_auth_settings Scenario.dumps Scenario.loads
        (Settings.clear_auth_settings_cache w1) = (Ok Scenario.keyed_settings,
            w1).
Proof.
  apply save_clear_load_round_trip; try reflexivity. discriminate.
Defined.

Lemma load_falls_back_to_defaults_witness :
  (∃ w',
     Settings.load_auth_settings Scenario.dumps Scenario.loads
       Scenario.full_world
     = (Ok (Settings.with_secret_key Settings.default_AuthSettings "k3"), w')
     ∧ Settings.auth_config_file Scenario.full_world = Some EmptyString
     ∧ Settings.auth_config_file w' = Some "k")
  ∧ Settings.load_auth_settings Scenario.dumps Scenario.loads
      Scenario.unsearchable_world
    = (Raise (OtherException "PermissionError"), Scenario.unsearchable_world).
Proof.
  split.
  - destruct (load_falls_back_to_defaults Scenario.dumps Scenario.loads
                Scenario.full_world "k3") as (w' & Hload & _ & Hfile);
      [reflexivity..|].
    exists w'. split_and!; [exact Hload|reflexivity|exact Hfile].
  - apply (load_falls_back_to_defaults Scenario.dumps Scenario.loads
             Scenario.unsearchable_world "k4"); reflexivity.
Defined.

Lemma jwt_secret_key_is_stable_witness :
  ∃ w',
    Settings.get_jwt_secret_key Scenario.dumps Scenario.loads
        Scenario.fresh_world = (Ok "k1", w')
    ∧ Settings.get_jwt_secret_key Scenario.dumps Scenario.loads w' = (Ok "k1",
        w').
Proof.
  eexists. split; [vm_compute; reflexivity|].
  eapply (jwt_secret_key_is_stable Scenario.dumps Scenario.loads
      Scenario.fresh_world).
  - vm_compute. reflexivity.
  - discriminate.
Defined.

Lemma mark_setup_complete_sets_flag_witness :
  ∃ s0 w',
    Settings.mark_setup_complete Scenario.dumps Scenario.loads
        Scenario.fresh_world = (Ok tt, w')
    ∧ Settings.get_auth_settings Scenario.dumps Scenario.loads w'
      = (Ok (Settings.with_setup_complete s0 true), w').
Proof.
  eexists _, _. split; [vm_compute; reflexivity|].
  eapply (mark_setup_complete_sets_flag Scenario.dumps Scenario.loads
      Scenario.fresh_world).
  - vm_compute. reflexivity.
  - vm_compute. reflexivity.
Defined.

Lemma get_auth_status_repairs_setup_flag_witness :
  ∃ r w' s,
    Routes.get_auth_status Scenario.dumps Scenario.loads 3 false
        Scenario.fresh_world = (Ok r, w')
    ∧ Settings.get_auth_settings Scenario.dumps Scenario.loads w' = (Ok s, w')
    ∧ Routes.AuthStatusResponse.setup_complete r = true
    ∧ Settings.setup_complete s = true.
Proof.
  eexists _, _.
  edestruct (get_auth_status_repairs_setup_flag Scenario.dumps Scenario.loads 3
      false Scenario.fresh_world)
    as (s & Hget & Hr & Hfix & _).
  - vm_compute. reflexivity.
  - exists s. split; [vm_compute; reflexivity|].
    split; [exact Hget|]. rewrite Hr. split; apply Hfix; lia.
Defined.

Lemma update_admin_auth_settings_round_trip_witness :
  ∃ w',
    Routes.update_admin_auth_settings Scenario.dumps Scenario.loads
      Scenario.settings_update Scenario.admin Scenario.read_only_world
    = (Ok {| Routes.message := "Settings updated" |}, w')
    ∧ Routes.get_admin_auth_settings Scenario.dumps Scenario.loads
        Scenario.admin w'
      = (Ok {| Routes.AuthSettingsPublicResponse.require_auth := false;
               Routes.AuthSettingsPublicResponse.primary_auth_mode := "local";
               Routes.AuthSettingsPublicResponse.local_enabled := true;
               Routes.AuthSettingsPublicResponse.local_min_password_length :=
                   12;
               Routes.AuthSettingsPublicResponse.dispatcharr_enabled := true;
               Routes.AuthSettingsPublicResponse.dispatcharr_auto_create_users
                 := true |}, w')
    ∧ Routes.update_admin_auth_settings Scenario.dumps Scenario.loads
        Scenario.settings_update Scenario.admin Scenario.unsearchable_world
      = (Raise (OtherException "PermissionError"),
         Scenario.unsearchable_world).
Proof.
  destruct (update_admin_auth_settings_round_trip Scenario.dumps
              Scenario.loads Scenario.settings_update Scenario.admin
              Scenario.read_only_world) as (_ & Hround & Htotal).
  destruct Htotal as [w' Hupdate]; [reflexivity|by eexists|].
  exists w'. split; [exact Hupdate|].
  eassert (Hold : Routes.get_admin_auth_settings Scenario.dumps
                    Scenario.loads Scenario.admin Scenario.read_only_world
                  = (Ok _, _)) by (vm_compute; reflexivity).
  destruct (Hround _ _ _ _ Hold Hupdate) as [Hget _]. split; [exact Hget|].
  destruct (update_admin_auth_settings_round_trip Scenario.dumps
              Scenario.loads Scenario.settings_update Scenario.admin
              Scenario.unsearchable_world) as (_ & _ & Hraises).
  apply Hraises; [reflexivity|by eexists].
Defined.

Lemma at_most_one_intro {A} (P : A → Prop) `{∀ x, Decision (P x)}
    (tbl : list A) :
  (∀ j k x y, tbl !! j = Some x → tbl !! k = Some y → P x → P y → j = k) →
  at_most_one P tbl.
Proof.
  unfold at_most_one. induction tbl as [|z tbl IH]; intros Huniq; [simpl; lia|].
  rewrite filter_cons. destruct (decide (P z)) as [Hz|Hz].
  - simpl. rewrite (filter_none_length P); [lia|].
    apply Forall_lookup. intros i x Hi Hx.
    by specialize (Huniq 0%nat (S i) z x eq_refl Hi Hz Hx).
  - apply IH. intros j k x y Hj Hk Hx Hy.
    by specialize (Huniq (S j) (S k) x y Hj Hk Hx Hy) as [= ->].
Qed.

(** ** Logout *)

Section Logout.
Context {TL : TokenLib} {ST : Store}.
Variable settings : Settings.AuthSettings.

(** What [logout] does to the store. *)
Lemma logout_serve rt db :
  serve (Routes.logout rt) db
  = (Ok {| Routes.message := "Logged out successfully" |},
     if truthy rt then
       match first (λ s, UserSession.refresh_token_hash s
                         = hash_token (default EmptyString rt))
                   (user_sessions db) with
       | Some (k, us) =>
           set_user_sessions (<[k := UserSession.set_is_revoked true us]>) db
       | None => db
       end
     else db).
Proof.
  unfold serve, Routes.logout. unfold_M. simpl.
  destruct (truthy rt); [|done]. simpl.
  by destruct (first _ _) as [[k us]|].
Qed.

(** X9. logout always answers with success, and a second logout with the
    same cookie changes nothing more. *)
Theorem logout_is_idempotent (rt : option string) (db : Db) :
  ∃ db',
    serve (Routes.logout rt) db
    = (Ok {| Routes.message := "Logged out successfully" |}, db')
    ∧ serve (Routes.logout rt) db'
      = (Ok {| Routes.message := "Logged out successfully" |}, db')
    ∧ (truthy rt = false → db' = db)
    ∧ users db' = users db
    ∧ user_identities db' = user_identities db
    ∧ password_reset_tokens db' = password_reset_tokens db.
Proof.
  rewrite logout_serve. eexists. split; [reflexivity|].
  destruct (truthy rt) eqn:Hrt; [|by rewrite logout_serve, Hrt].
  destruct (first _ _) as [[k us]|] eqn:Hfind.
  - split_and!; try done. rewrite logout_serve, Hrt. simpl.
    apply list_find_Some in Hfind as (Hk & Hhash & Hfirst).
    assert (Hfind' :
      first (λ s, UserSession.refresh_token_hash s
                  = hash_token (default EmptyString rt))
            (<[k := UserSession.set_is_revoked true us]> (user_sessions db))
      = Some (k, UserSession.set_is_revoked true us)).
    { apply list_find_Some. split_and!.
      - apply list_lookup_insert_eq. by eapply lookup_lt_Some.
      - done.
      - intros j y Hj Hjk. rewrite list_lookup_insert_ne in Hj by lia.
        by eapply Hfirst. }
    rewrite Hfind'. f_equal. unfold set_user_sessions. simpl.
    by rewrite list_insert_insert_eq.
  - split_and!; try done. by rewrite logout_serve, Hrt, Hfind.
Qed.

(** X10. after a logout with a refresh token, no refresh with that token
    is accepted, provided one session row stores its hash. *)
Theorem logout_then_refresh_is_refused (tok : string) (db : Db) (env : Env) :
  tok ≠ EmptyString →
  at_most_one (λ s, UserSession.refresh_token_hash s = hash_token tok)
    (user_sessions db) →
  let db' := (serve (Routes.logout (Some tok)) db).2 in
  ∃ e,
    serve (Routes.refresh_tokens settings (Some tok) env) db' = (Raise e, db')
    ∧ ∀ claims, decode_token env tok = Ok claims →
        claims !! "type" = Some (CStr "refresh") →
        is_Some (claims !! "sub") →
        e = AuthenticationError "Session not found or revoked".
Proof.
  intros Htok Hone db'. subst db'. rewrite logout_serve.
  rewrite (truthy_Some _ Htok). simpl.
  set (db' := match first _ _ with Some _ => _ | None => db end).
  assert (Hdead : Forall (λ us, ¬ live (hash_token tok) us)
                    (user_sessions db')).
  { subst db'. destruct (first _ _) as [[k us]|] eqn:Hfind.
    - apply list_find_Some in Hfind as (Hk & Hhash & _). simpl.
      apply Forall_lookup. intros j x Hj [Hx Hlive].
      destruct (decide (j = k)) as [->|Hjk].
      + rewrite list_lookup_insert_eq in Hj by (by eapply lookup_lt_Some).
        by simplify_eq.
      + rewrite list_lookup_insert_ne in Hj by done. apply Hjk.
        eapply (at_most_one_lookup _ (user_sessions db)); done.
    - apply list_find_None in Hfind.
      eapply Forall_impl; [exact Hfind|]. intros x Hx [Hh _]. by apply Hx. }
  destruct (refresh_tokens_dead settings tok env (mkSession db' db') Htok Hdead)
    as (e & He & Hmsg).
  exists e. unfold serve. by rewrite He.
Qed.
End Logout.

Lemma logout_then_refresh_is_refused_witness :
  let db' :=
    (serve (Routes.logout (TL:=Scenario.tokens) (Some "refresh-1"))
       Scenario.db).2 in
  serve (Routes.refresh_tokens (TL:=Scenario.tokens) (ST:=Scenario.store)
      Scenario.settings
           (Some "refresh-1") (Scenario.at_time 1000 "r2")) db'
  = (Raise (AuthenticationError "Session not found or revoked"), db').
Proof.
  intros db'.
  destruct (logout_then_refresh_is_refused (TL:=Scenario.tokens)
      (ST:=Scenario.store)
              Scenario.settings "refresh-1" Scenario.db
              (Scenario.at_time 1000 "r2")) as (e & He & Hmsg).
  - discriminate.
  - vm_compute. lia.
  - fold db' in He. rewrite He. f_equal. f_equal.
    eapply Hmsg; vm_compute; eauto.
Defined.

(** ** Login and the sessions it opens *)

Section LoginSessions.
Context {TL : TokenLib} {PL : PasswordLib} {ST : Store}.
Variable settings : Settings.AuthSettings.

Lemma login_Ok lr rq env s r s' :
  Routes.login settings lr rq env s = (Ok r, s') →
  ∃ ku user,
    users (working s) !! ku = Some user
    ∧ login_user (working s) (Routes.username lr) = Some user
    ∧ local_account (working s) user
    ∧ truthy (User.password_hash user) = true
    ∧ verify_password (Routes.password lr)
        (default EmptyString (User.password_hash user)) = true
    ∧ User.is_active user = true
    ∧ r = {| Routes.user :=
               Routes.model_validate
                 (User.set_last_login_at (Some (utcnow env)) user);
             Routes.login_message := "Login successful";
             Routes.login_cookies :=
               {| Routes.access_token :=
                    create_access_token env (User.id user) (User.username user);
                  Routes.refresh_token :=
                    create_refresh_token env (User.id user) |} |}
    ∧ user_sessions (working s')
      = user_sessions (working s) ++ [opened_session settings (working s) user
          rq env]
    ∧ users (working s')
      = <[ku := User.set_last_login_at (Some (utcnow env)) user]>
          (users (working s))
    ∧ password_reset_tokens (working s') = password_reset_tokens (working s)
    ∧ stored s' = working s'.
Proof.
  unfold login_user, Routes.login. unfold_M. simpl.
  set (identity := first _ (user_identities (working s))).
  set (found := match identity with
                | Some (_, i) => first _ (users (working s))
                | None => first _ (users (working s))
                end).
  assert (Hfound : match identity with
                   | Some (_, i) =>
                       snd <$> first (λ u, User.id u = UserIdentity.user_id i)
                                 (users (working s))
                   | None =>
                       snd <$> first (λ u, User.username u = Routes.username lr)
                                 (users (working s))
                   end = snd <$> found).
  { subst found. by destruct identity as [[ki i]|]. }
  rewrite Hfound.
  assert (Hrow : ∀ ku user, found = Some (ku, user) →
                   users (working s) !! ku = Some user).
  { subst found. intros ku user.
    destruct identity as [[ki i]|]; by intros (? & _)%list_find_Some. }
  clearbody found. clear Hfound.
  destruct found as [[ku user]|]; simpl; [|discriminate].
  pose proof (has_local_identity_spec (working s) user) as Hlocal.
  destruct (negb (bool_decide _) && _) eqn:Hguard; [discriminate|].
  destruct (negb (truthy _) || _) eqn:Hpw; [discriminate|].
  apply orb_false_iff in Hpw as [Hhash%negb_false_iff Hverify%negb_false_iff].
  assert (Hacc : local_account (working s) user).
  { apply andb_false_iff in Hguard as [Hi|Hp].
    - left. apply Hlocal. by apply negb_false_iff, bool_decide_eq_true in Hi.
    - right. apply bool_decide_eq_false in Hp. by apply dec_stable. }
  destruct identity as [[ki i]|]; simpl;
    (destruct (User.is_active user) eqn:Hactive; simpl; [|discriminate]);
    intros [= <- <-]; exists ku, user; simpl; split_and!; eauto.
Qed.

(** X11. [login] opens a session only for a user it resolved, who may use a
    password, whose stored hash verifies the password given and who is
    active; the session row it stores carries the hash of the refresh
    cookie it sets, not the token. *)
Theorem login_requires_verified_password (login_request : Routes.LoginRequest)
    (request : Routes.Request) (env : Env) (db : Db)
    (r : Routes.LoginResponse) (db' : Db) :
  serve (Routes.login settings login_request request env) db = (Ok r, db') →
  ∃ user us,
    login_user db (Routes.username login_request) = Some user
    ∧ local_account db user
    ∧ verify_password (Routes.password login_request)
        (default EmptyString (User.password_hash user)) = true
    ∧ User.is_active user = true
    ∧ Routes.ur_username (Routes.user r) = User.username user
    ∧ user_sessions db' = user_sessions db ++ [us]
    ∧ UserSession.user_id us = User.id user
    ∧ UserSession.refresh_token_hash us
      = hash_token (Routes.refresh_token (Routes.login_cookies r))
    ∧ UserSession.is_revoked us = false.
Proof.
  unfold serve.
  destruct (Routes.login _ _ _ _ _) as [[r0|e] s'] eqn:Hlogin; [|discriminate].
  intros [= <- <-].
  apply login_Ok in Hlogin
    as (ku & user & Hku & Huser & Hacc & Hhash & Hverify & Hactive & -> & Hs
        & Hu & Hr & ->).
  exists user, (opened_session settings db user request env). simpl in *.
  split_and!; done.
Qed.

(** X12. a deactivated account is told so only after its password verified,
    and nothing of the attempt is stored. *)
Theorem login_refuses_disabled_account (login_request : Routes.LoginRequest)
    (request : Routes.Request) (env : Env) (db : Db) (user : User.t) :
  login_user db (Routes.username login_request) = Some user →
  local_account db user →
  truthy (User.password_hash user) = true →
  verify_password (Routes.password login_request)
    (default EmptyString (User.password_hash user)) = true →
  User.is_active user = false →
  serve (Routes.login settings login_request request env) db
  = (Raise (HTTPException HTTP_401_UNAUTHORIZED "User account is disabled"),
      db).
Proof.
  intros Huser Hacc Hhash Hverify Hactive.
  unfold serve, Routes.login. revert Huser. unfold login_user. unfold_M. simpl.
  set (identity := first _ (user_identities db)).
  set (found := match identity with
                | Some (_, i) => first _ (users db)
                | None => first _ (users db)
                end).
  assert (Hfound : match identity with
                   | Some (_, i) =>
                       snd <$> first (λ u, User.id u = UserIdentity.user_id i)
                                 (users db)
                   | None =>
                       snd <$> first (λ u, User.username u
                                           = Routes.username login_request)
                                 (users db)
                   end = snd <$> found).
  { subst found. by destruct identity as [[ki i]|]. }
  rewrite Hfound. clearbody found. clear Hfound.
  destruct found as [[ku user']|]; simpl; [|discriminate]. intros [= ->].
  pose proof (has_local_identity_spec db user) as Hlocal.
  assert (negb (bool_decide (is_Some
            (first (λ i, UserIdentity.user_id i = User.id user
                         ∧ UserIdentity.provider i = "local")
                   (user_identities db))))
          && bool_decide (User.auth_provider user ≠ "local") = false) as ->.
  { apply andb_false_iff. destruct Hacc as [Hi|Hp].
    - left. apply negb_false_iff, bool_decide_eq_true. by apply Hlocal.
    - right. apply bool_decide_eq_false. by intros Hne. }
  rewrite Hhash, Hverify. simpl.
  destruct identity as [[ki i]|]; simpl; by rewrite Hactive.
Qed.
End LoginSessions.

Lemma login_requires_verified_password_witness :
  ∃ user us,
    login_user Scenario.db "admin" = Some user
    ∧ local_account Scenario.db user
    ∧ verify_password (PasswordLib:=Scenario.passwords) "validpassword123"
        (default EmptyString (User.password_hash user)) = true
    ∧ User.is_active user = true
    ∧ UserSession.user_id us = User.id user
    ∧ UserSession.refresh_token_hash us = "sha256:refresh-r1".
Proof.
  edestruct (login_requires_verified_password (TL:=Scenario.tokens)
               (PL:=Scenario.passwords) Scenario.settings Scenario.admin_login
                   Scenario.request
               (Scenario.at_time 1000 "r1") Scenario.db)
    as (user & us & Huser & Hacc & Hverify & Hactive & _ & _ & Huid & Hhash &
        _).
  - vm_compute. reflexivity.
  - exists user, us. split_and!; done.
Defined.

Lemma login_refuses_disabled_account_witness :
  serve (Routes.login (TL:=Scenario.tokens) (PL:=Scenario.passwords)
           Scenario.settings Scenario.carol_login Scenario.request
               (Scenario.at_time 1000 "r1"))
    Scenario.db
  = (Raise (HTTPException HTTP_401_UNAUTHORIZED "User account is disabled"),
     Scenario.db).
Proof.
  apply (login_refuses_disabled_account (TL:=Scenario.tokens)
           (PL:=Scenario.passwords) Scenario.settings Scenario.carol_login
               Scenario.request
           (Scenario.at_time 1000 "r1") Scenario.db Scenario.carol).
  - vm_compute. reflexivity.
  - right. reflexivity.
  - reflexivity.
  - vm_compute. reflexivity.
  - reflexivity.
Defined.

Section Continuity.
Context {TL : TokenLib} {PL : PasswordLib} {ST : Store}.
Variable settings : Settings.AuthSettings.

(** When [refresh_tokens] accepts. *)
Lemma refresh_tokens_accepts tok env s claims sub k us ku user a n :
  tok ≠ EmptyString →
  decode_token env tok = Ok claims →
  claims !! "type" = Some (CStr "refresh") →
  claims !! "sub" = Some sub →
  first (live (hash_token tok)) (user_sessions (working s)) = Some (k, us) →
  utcnow env ≤ UserSession.expires_at us →
  first (λ u, column_eq (User.id u) sub = true) (users (working s))
  = Some (ku, user) →
  User.is_active user = true →
  rotate_refresh_token env tok = Ok (a, n) →
  Routes.refresh_tokens settings (Some tok) env s
  = (Ok {| Routes.refresh_message := "Token refreshed";
           Routes.refresh_cookies :=
             {| Routes.access_token := a; Routes.refresh_token := n |} |},
     let db' := set_user_sessions (<[k := rotated settings env n us]>)
                  (working s) in
     mkSession db' db').
Proof.
  intros Htok Hdec Hty Hsub Hrow Hexp Huser Hactive Hrot.
  unfold Routes.refresh_tokens. rewrite (truthy_Some _ Htok). simpl. unfold_M.
  rewrite Hdec. rewrite bool_decide_eq_false_2 by (intros Hne; by apply Hne).
  rewrite Hsub, <- first_live, Hrow. rewrite bool_decide_eq_false_2 by lia.
  rewrite Huser, Hactive. simpl. rewrite Hrot. reflexivity.
Qed.

(** The user a successful refresh found. *)
Lemma refresh_tokens_Ok_user rt env s resp s' :
  Routes.refresh_tokens settings rt env s = (Ok resp, s') →
  ∃ tok claims sub ku user,
    rt = Some tok
    ∧ decode_token env tok = Ok claims
    ∧ claims !! "sub" = Some sub
    ∧ first (λ u, column_eq (User.id u) sub = true) (users (working s))
      = Some (ku, user)
    ∧ User.is_active user = true.
Proof.
  unfold Routes.refresh_tokens. destruct (truthy rt) eqn:Hrt; [|discriminate].
  destruct rt as [tok|]; [|discriminate]. simpl. unfold_M.
  destruct (decode_token env tok) as [claims|e] eqn:Hdec; [|by destruct e].
  case_bool_decide as Hty; [discriminate|].
  destruct (claims !! "sub") as [sub|] eqn:Hsub; [|discriminate].
  destruct (first _ (user_sessions _)) as [[k us]|]; [|discriminate].
  case_bool_decide; [discriminate|].
  destruct (first _ (users _)) as [[ku user]|] eqn:Huser; [|discriminate].
  destruct (User.is_active user) eqn:Hactive; [|discriminate]. simpl.
  destruct (rotate_refresh_token env tok) as [[na nr]|e]; [|by destruct e].
  intros _. by exists tok, claims, sub, ku, user.
Qed.

(** X13. the refresh cookie a login sets is accepted by the next refresh,
    which answers with the rotated pair and stores the new token's hash. *)
Theorem login_session_can_be_refreshed (login_request : Routes.LoginRequest)
    (request : Routes.Request) (env1 env2 : Env) (db db1 : Db)
    (r : Routes.LoginResponse) (claims : Claims) (a n : string) :
  serve (Routes.login settings login_request request env1) db = (Ok r, db1) →
  let tok := Routes.refresh_token (Routes.login_cookies r) in
  tok ≠ EmptyString →
  decode_token env2 tok = Ok claims →
  claims !! "type" = Some (CStr "refresh") →
  claims !! "sub" = Some (CInt (Routes.id (Routes.user r))) →
  rotate_refresh_token env2 tok = Ok (a, n) →
  utcnow env2
  ≤ utcnow env1 + Settings.refresh_token_expire_days (Settings.jwt settings)
                  * Routes.seconds_per_day →
  Forall (λ us, ¬ live (hash_token tok) us) (user_sessions db) →
  at_most_one (λ u, User.id u = Routes.id (Routes.user r)) (users db) →
  ∃ db2 us,
    serve (Routes.refresh_tokens settings (Some tok) env2) db1
    = (Ok {| Routes.refresh_message := "Token refreshed";
             Routes.refresh_cookies :=
               {| Routes.access_token := a; Routes.refresh_token := n |} |},
       db2)
    ∧ us ∈ user_sessions db2
    ∧ live (hash_token n) us.
Proof.
  unfold serve.
  destruct (Routes.login _ _ _ _ _) as [[r0|e] s'] eqn:Hlogin; [|discriminate].
  intros [= <- <-]. cbv zeta.
  apply login_Ok in Hlogin
    as (ku & user & Hku & Huser & Hacc & Hhash & Hverify & Hactive & -> & Hs
        & Hu & Hr & Hst).
  simpl in *. intros Htok Hdec Hty Hsub Hrot Htime Hfresh Hkey.
  set (row := opened_session settings db user request env1) in *.
  assert (Hrow : first (live (hash_token
                                (create_refresh_token env1 (User.id user))))
                   (user_sessions (stored s'))
                 = Some (length (user_sessions db), row)).
  { rewrite Hst, Hs. unfold first.
    rewrite list_find_app_r by (by apply list_find_None).
    simpl. rewrite decide_True by done. simpl. repeat f_equal; lia. }
  assert (Hfound : ∃ user',
            first (λ u, column_eq (User.id u) (CInt (User.id user)) = true)
              (users (stored s')) = Some (ku, user')
            ∧ User.is_active user' = true).
  { rewrite Hst, Hu.
    exists (User.set_last_login_at (Some (utcnow env1)) user).
    split; [|done]. apply list_find_Some. split_and!.
    - apply list_lookup_insert_eq. by eapply lookup_lt_Some.
    - rewrite column_eq_int. by apply bool_decide_eq_true.
    - intros j y Hj Hjk Hy. rewrite column_eq_int in Hy.
      apply bool_decide_eq_true in Hy.
      rewrite list_lookup_insert_ne in Hj by lia.
      assert (j = ku); [|lia].
      eapply (at_most_one_lookup _ (users db)); done. }
  destruct Hfound as (user' & Hfind & Hactive').
  rewrite (refresh_tokens_accepts _ _ (mkSession (stored s') (stored s'))
             claims _ _ row ku user' a n Htok Hdec Hty Hsub Hrow);
    [|done|done|done|done].
  simpl. eexists _, _. split; [reflexivity|]. split.
  - simpl. eapply list_elem_of_lookup_2.
    apply list_lookup_insert_eq. rewrite Hst, Hs, length_app. simpl. lia.
  - done.
Qed.

(** X14. the refresh token a rotation issues is accepted by the next
    refresh: rotation continues the session. *)
Theorem rotated_token_is_accepted_next (rt : string) (env1 env2 : Env)
    (db db1 : Db) (resp : Routes.RefreshResponse) (claims1 claims2 : Claims)
    (a n' : string) :
  serve (Routes.refresh_tokens settings (Some rt) env1) db = (Ok resp, db1) →
  let n := Routes.refresh_token (Routes.refresh_cookies resp) in
  n ≠ EmptyString →
  decode_token env1 rt = Ok claims1 →
  decode_token env2 n = Ok claims2 →
  claims2 !! "type" = Some (CStr "refresh") →
  claims2 !! "sub" = claims1 !! "sub" →
  rotate_refresh_token env2 n = Ok (a, n') →
  utcnow env2
  ≤ utcnow env1 + Settings.refresh_token_expire_days (Settings.jwt settings)
                  * Routes.seconds_per_day →
  Forall (λ us, ¬ live (hash_token n) us) (user_sessions db) →
  ∃ db2,
    serve (Routes.refresh_tokens settings (Some n) env2) db1
    = (Ok {| Routes.refresh_message := "Token refreshed";
             Routes.refresh_cookies :=
               {| Routes.access_token := a; Routes.refresh_token := n' |} |},
       db2).
Proof.
  unfold serve.
  destruct (Routes.refresh_tokens _ _ _ _) as [[r0|e] s'] eqn:Hr;
      [|discriminate].
  intros [= <- <-]. cbv zeta.
  pose proof (refresh_tokens_Ok_user _ _ _ _ _ Hr)
    as (tok & claims & sub & ku & user & [= <-] & Hdec1 & Hsub1 & Huser
        & Hactive).
  apply refresh_tokens_Ok in Hr
    as (tok & claims' & k & us & [= <-] & _ & _ & _ & _ & Hrow & Hw & Hst).
  simpl in *. intros Hn Hdec1' Hdec2 Hty Hsub Hrot Htime Hfresh.
  assert (claims1 = claims) as -> by congruence.
  apply list_find_Some in Hrow as (Hk & [_ Hrev] & _).
  set (new := Routes.refresh_token (Routes.refresh_cookies r0)) in *.
  assert (Hrow : first (live (hash_token new)) (user_sessions (stored s'))
                 = Some (k, rotated settings env1 new us)).
  { rewrite Hst, Hw. simpl. apply list_find_Some. split_and!.
    - apply list_lookup_insert_eq. by eapply lookup_lt_Some.
    - split; [done|]. exact Hrev.
    - intros j y Hj Hjk. rewrite list_lookup_insert_ne in Hj by lia.
      rewrite Forall_lookup in Hfresh. by eapply Hfresh. }
  eexists.
  rewrite (refresh_tokens_accepts _ _ (mkSession (stored s') (stored s'))
             claims2 sub k (rotated settings env1 new us) ku user a n'
             Hn Hdec2 Hty); first [reflexivity | done | congruence | idtac].
  all: by rewrite Hst, Hw.
Qed.
End Continuity.

Lemma login_session_can_be_refreshed_witness :
  ∃ r db1 db2 us,
    serve (Routes.login (TL:=Scenario.tokens) (PL:=Scenario.passwords)
             Scenario.settings Scenario.admin_login Scenario.request
             (Scenario.at_time 1000 "r1")) Scenario.db = (Ok r, db1)
    ∧ serve (Routes.refresh_tokens (TL:=Scenario.tokens) (ST:=Scenario.store)
        Scenario.settings
               (Some "refresh-r1") (Scenario.at_time 2000 "r2")) db1
      = (Ok Scenario.rotation_reply, db2)
    ∧ us ∈ user_sessions db2
    ∧ live "sha256:refresh-r2" us.
Proof.
  eexists _, _.
  edestruct (login_session_can_be_refreshed (TL:=Scenario.tokens)
      (ST:=Scenario.store)
               (PL:=Scenario.passwords) Scenario.settings Scenario.admin_login
                   Scenario.request
               (Scenario.at_time 1000 "r1") (Scenario.at_time 2000 "r2")
               Scenario.db)
    as (db2 & us & Hrefresh & Hin & Hlive).
  - vm_compute. reflexivity.
  - discriminate.
  - vm_compute. reflexivity.
  - vm_compute. reflexivity.
  - vm_compute. reflexivity.
  - vm_compute. reflexivity.
  - vm_compute. discriminate.
  - repeat constructor; intros [Hh _]; vm_compute in Hh; discriminate.
  - vm_compute. lia.
  - exists db2, us. split; [vm_compute; reflexivity|]. split_and!; done.
Defined.

Lemma rotated_token_is_accepted_next_witness :
  ∃ db1 db2,
    serve (Routes.refresh_tokens (TL:=Scenario.tokens) (ST:=Scenario.store)
        Scenario.settings
             (Some "refresh-1") (Scenario.at_time 1000 "r2")) Scenario.db
    = (Ok Scenario.rotation_reply, db1)
    ∧ serve (Routes.refresh_tokens (TL:=Scenario.tokens) (ST:=Scenario.store)
        Scenario.settings
               (Some "refresh-r2") (Scenario.at_time 2000 "r3")) db1
      = (Ok {| Routes.refresh_message := "Token refreshed";
               Routes.refresh_cookies :=
                 {| Routes.access_token := "access-r3";
                    Routes.refresh_token := "refresh-r3" |} |}, db2).
Proof.
  eexists.
  edestruct (rotated_token_is_accepted_next (TL:=Scenario.tokens)
      (ST:=Scenario.store)
               Scenario.settings "refresh-1" (Scenario.at_time 1000 "r2")
               (Scenario.at_time 2000 "r3") Scenario.db)
    as (db2 & Hnext).
  - vm_compute. reflexivity.
  - discriminate.
  - vm_compute. reflexivity.
  - vm_compute. reflexivity.
  - vm_compute. reflexivity.
  - vm_compute. reflexivity.
  - vm_compute. reflexivity.
  - vm_compute. discriminate.
  - repeat constructor; intros [Hh _]; vm_compute in Hh; discriminate.
  - exists db2. split; [vm_compute; reflexivity|]. exact Hnext.
Defined.

(** ** Changing a password *)

Section ChangePassword.
Context {PL : PasswordLib}.

(** X15. [change_password] succeeds exactly when the current password
    verifies and the new one passes the policy; it then replaces the hash
    of the caller's row, and in no case touches another user, a session, an
    identity or a reset token: open sessions stay open. *)
Theorem change_password_changes_one_hash
    (change_request : Routes.ChangePasswordRequest.t) (ku : nat)
    (current_user : User.t) (env : Env) (db : Db) :
  let accepted :=
    truthy (User.password_hash current_user)
    && verify_password
         (Routes.ChangePasswordRequest.current_password change_request)
         (default EmptyString (User.password_hash current_user))
    && valid (validate_password
                (Routes.ChangePasswordRequest.new_password change_request)
                (Some (User.username current_user))) in
  let '(r, db') :=
    serve (Routes.change_password change_request (ku, current_user) env) db in
  user_sessions db' = user_sessions db
  ∧ user_identities db' = user_identities db
  ∧ password_reset_tokens db' = password_reset_tokens db
  ∧ (if accepted then
       r = Ok {| Routes.message := "Password changed successfully" |}
       ∧ users db'
         = <[ku := User.set_updated_at (utcnow env)
                     (User.set_password_hash
                        (Some (hash_password env
                                 (Routes.ChangePasswordRequest.new_password
                                    change_request)))
                        current_user)]> (users db)
     else (∃ status detail, r = Raise (HTTPException status detail))
          ∧ db' = db).
Proof.
  unfold serve, Routes.change_password. unfold_M. simpl.
  destruct (truthy _); simpl; [|eauto 10].
  destruct (verify_password _ _); simpl; [|eauto 10].
  destruct (valid _); simpl; eauto 10.
Qed.
End ChangePassword.

(** ** From a forgotten password to a new one *)

Section ForgotThenReset.
Context {PL : PasswordLib}.

(** X16. the token [forgot_password] mails can be redeemed within the
    hour: [reset_password] then accepts it with a password that passes the
    policy. *)
Theorem forgotten_password_can_be_reset (email new_password : string)
    (env1 env2 : Env) (db : Db) (k : nat) (user : User.t) :
  first (λ u, User.email u = Some email) (users db) = Some (k, user) →
  User.is_active user = true →
  User.auth_provider user = "local" →
  at_most_one (λ u, User.id u = User.id user) (users db) →
  let raw_token := Routes.token_urlsafe env1 in
  verify_password raw_token (hash_password env1 raw_token) = true →
  Forall (λ r, ¬ names raw_token r) (password_reset_tokens db) →
  utcnow env2 ≤ utcnow env1 + 3600 →
  valid (validate_password new_password (Some (User.username user))) = true →
  let db1 := (serve (Routes.forgot_password email env1) db).2 in
  ∃ db2,
    serve (Routes.reset_password raw_token new_password env2) db1
    = (Ok {| Routes.message := "Password reset successfully" |}, db2)
    ∧ users db2
      = <[k := User.set_updated_at (utcnow env2)
                 (User.set_password_hash
                    (Some (hash_password env2 new_password)) user)]> (users db)
    ∧ Forall (λ r, names raw_token r → PasswordResetToken.used_at r ≠ None)
        (password_reset_tokens db2).
Proof.
  intros Hfind Hactive Hlocal Hkey raw_token Hverify Hfresh Htime Hvalid db1.
  subst db1. unfold serve at 2, Routes.forgot_password. unfold_M. simpl.
  rewrite Hfind, Hactive, Hlocal. simpl.
  set (rec := PasswordResetToken.mk _ _ _ _ _).
  set (db1 := set_password_reset_tokens _ db).
  apply list_find_Some in Hfind as (Hk & Hemail & _).
  assert (Huser : first (λ u, User.id u = User.id user) (users db1)
                  = Some (k, user)).
  { subst db1. simpl. apply list_find_Some. split_and!; try done.
    intros j y Hj Hjk Hy. assert (j = k); [|lia].
    eapply (at_most_one_lookup _ (users db)); done. }
  unfold serve, Routes.reset_password. unfold_M. simpl.
  subst db1. simpl in Huser.
  match goal with
  | |- context [snd <$> @list_find ?A ?P ?D ?l] =>
      assert (Hscan : snd <$> @list_find A P D l
                      = Some (length (password_reset_tokens db), rec))
  end.
  { unfold all. simpl. rewrite imap_app, filter_app. simpl.
    rewrite (list.filter_singleton_True _ _ []) by done.
    rewrite list_find_app_r.
    - simpl. rewrite decide_True by exact Hverify. simpl.
      repeat f_equal; lia.
    - apply list_find_None, Forall_forall. intros [j r].
      intros [_ Hin]%list_elem_of_filter.
      apply elem_of_lookup_imap in Hin as (j' & r' & [= -> ->] & Hj).
      rewrite Forall_lookup in Hfresh. by apply (Hfresh j' r'). }
  rewrite Hscan. simpl.
  rewrite bool_decide_eq_false_2 by (unfold Routes.seconds_per_hour; lia).
  rewrite Huser, Hactive. simpl. rewrite Hvalid. simpl.
  eexists. split; [reflexivity|]. split; [done|]. simpl.
  rewrite insert_app_r_alt by lia. rewrite Nat.sub_diag. simpl.
  apply Forall_app. split.
  - eapply Forall_impl; [exact Hfresh|]. by intros r Hr Hn.
  - apply Forall_singleton. by intros _.
Qed.
End ForgotThenReset.

Lemma forgotten_password_can_be_reset_witness :
  let env1 := Scenario.at_time 1000 "r5" in
  let env2 := Scenario.at_time 2000 "r6" in
  let raw_token := Routes.token_urlsafe env1 in
  let db1 :=
    (serve (Routes.forgot_password (PL:=Scenario.passwords)
              "admin@example.com" env1) Scenario.db).2 in
  ∃ db2,
    serve (Routes.reset_password (PL:=Scenario.passwords) raw_token
             "NewPass123!" env2) db1
    = (Ok {| Routes.message := "Password reset successfully" |}, db2)
    ∧ users db2
      = <[0%nat := User.set_updated_at 2000
                     (User.set_password_hash (Some "$2b$12$NewPass123!")
                        Scenario.admin)]> (users Scenario.db)
    ∧ Forall (λ r, names (PL:=Scenario.passwords) raw_token r →
                   PasswordResetToken.used_at r ≠ None)
        (password_reset_tokens db2).
Proof.
  apply (forgotten_password_can_be_reset (PL:=Scenario.passwords)
           "admin@example.com" "NewPass123!" (Scenario.at_time 1000 "r5")
           (Scenario.at_time 2000 "r6") Scenario.db 0 Scenario.admin).
  - vm_compute. reflexivity.
  - reflexivity.
  - reflexivity.
  - vm_compute. lia.
  - vm_compute. reflexivity.
  - repeat constructor; intros Hn; vm_compute in Hn; discriminate.
  - vm_compute. discriminate.
  - vm_compute. reflexivity.
Defined.

(** ** Administration of users *)

Section Administration.
Variable on_delete_user : User.t → list UserIdentity.t → list UserIdentity.t.

(** X17. after [delete_user] succeeds no session and no reset token of the
    deleted id is left, those of other users are all kept, one user row is
    gone and every row with the caller's id is still there. It succeeds
    exactly for an administrator who names an existing user other than
    themselves; otherwise nothing changes. *)
Theorem delete_user_removes_sessions_and_tokens (user_id : Z) (caller : User.t)
    (db : Db) :
  let '(r, db') := serve (Routes.delete_user on_delete_user user_id caller) db
      in
  ((∃ m, r = Ok m)
   ↔ User.is_admin caller = true ∧ user_id ≠ User.id caller
     ∧ ∃ u, u ∈ users db ∧ User.id u = user_id)
  ∧
  match r with
  | Ok _ =>
      User.is_admin caller = true
      ∧ user_id ≠ User.id caller
      ∧ user_sessions db'
        = filter (λ s, UserSession.user_id s ≠ user_id) (user_sessions db)
      ∧ password_reset_tokens db'
        = filter (λ t, PasswordResetToken.user_id t ≠ user_id)
            (password_reset_tokens db)
      ∧ Forall (λ s, UserSession.user_id s ≠ user_id) (user_sessions db')
      ∧ Forall (λ t, PasswordResetToken.user_id t ≠ user_id)
          (password_reset_tokens db')
      ∧ (∃ k user, users db !! k = Some user ∧ User.id user = user_id
                   ∧ users db' = delete k (users db))
      ∧ ∀ u, u ∈ users db → User.id u = User.id caller → u ∈ users db'
  | Raise _ => db' = db
  end.
Proof.
  unfold serve, Routes.delete_user, Routes.require_admin. unfold_M. simpl.
  destruct (User.is_admin caller) eqn:Hadmin; simpl.
  2: { split; [|done]. split; [by intros [? ?]|by intros [? _]]. }
  destruct (first _ (users db)) as [[k user]|] eqn:Hfind.
  2: { split; [|done]. split; [by intros [? ?]|].
       intros (_ & _ & u & Hu & Hid).
       apply (list_find_None (λ u, User.id u = user_id)) in Hfind.
       by eapply Forall_forall in Hfind. }
  apply list_find_Some in Hfind as (Hk & Hid & _).
  case_bool_decide as Hself; simpl.
  { split; [|done]. split; [by intros [? ?]|]. intros (_ & Hne & _). congruence.
      }
  split.
  { split; [|by eauto]. intros _. split_and!; [done|congruence|].
    exists user. split; [|done]. by eapply list_elem_of_lookup_2. }
  split_and!; try done.
  - congruence.
  - apply Forall_forall. by intros s [? _]%list_elem_of_filter.
  - apply Forall_forall. by intros s [? _]%list_elem_of_filter.
  - by exists k, user.
  - intros u [j Hj]%list_elem_of_lookup Hu.
    assert (j ≠ k) by (intros ->; congruence).
    apply list_elem_of_lookup.
    destruct (decide (j < k)%nat).
    + exists j. by rewrite list_lookup_delete_lt.
    + exists (pred j). rewrite list_lookup_delete_ge by lia.
      by replace (S (pred j)) with j by lia.
Qed.

(** X18. an administrator cannot lock themselves out through
    [update_user]: whatever the request, a row with the caller's id that is
    an active administrator before is one after. *)
Theorem update_user_keeps_caller_active_admin (user_id : Z)
    (update_request : Routes.UserUpdateRequest.t) (caller : User.t) (env : Env)
    (db : Db) (j : nat) (u : User.t) :
  users db !! j = Some u →
  User.id u = User.id caller →
  User.is_admin u = true →
  User.is_active u = true →
  ∃ u',
    users (serve (Routes.update_user user_id update_request caller env) db).2
      !! j = Some u'
    ∧ User.id u' = User.id caller
    ∧ User.is_admin u' = true
    ∧ User.is_active u' = true.
Proof.
  intros Hj Hid Hadmin Hactive.
  unfold serve, Routes.update_user, Routes.require_admin. unfold_M. simpl.
  destruct (User.is_admin caller); simpl; [|by exists u].
  destruct (first _ (users db)) as [[k user]|] eqn:Hfind; [|by exists u].
  apply list_find_Some in Hfind as (Hk & Hkid & _).
  destruct (bool_decide (Routes.UserUpdateRequest.is_admin update_request
                         = Some false) && _) eqn:Hdemote; simpl;
    [by exists u|].
  destruct (bool_decide (Routes.UserUpdateRequest.is_active update_request
                         = Some false) && _) eqn:Hoff; simpl;
    [by exists u|].
  destruct (decide (j = k)) as [->|Hjk].
  - rewrite list_lookup_insert_eq by (by eapply lookup_lt_Some).
    simplify_eq. eexists. split; [reflexivity|].
    rewrite (bool_decide_eq_true_2 (User.id u = User.id caller)) in Hdemote,
        Hoff
      by done.
    rewrite andb_true_r in Hdemote, Hoff.
    apply bool_decide_eq_false in Hdemote, Hoff.
    destruct update_request as [[[]|] [[]|] [?|] [?|]]; simpl in *; done.
  - rewrite list_lookup_insert_ne by done. by exists u.
Qed.
End Administration.

Lemma delete_user_removes_sessions_and_tokens_witness :
  ∃ m db',
    serve (Routes.delete_user Scenario.cascade 3 Scenario.admin) Scenario.db
    = (Ok m, db')
    ∧ user_sessions db'
      = [UserSession.mk 1 1 "sha256:refresh-1" None "pytest" false 604800 None]
    ∧ Forall (λ s, UserSession.user_id s ≠ 3) (user_sessions db').
Proof.
  pose proof (delete_user_removes_sessions_and_tokens Scenario.cascade 3
                Scenario.admin Scenario.db) as H.
  destruct (serve _ Scenario.db) as [r db'].
  destruct H as [[_ Hok] Hrest].
  destruct Hok as [m ->].
  { split_and!; [reflexivity|discriminate|].
    exists Scenario.carol. split; [|reflexivity].
    apply list_elem_of_lookup. by exists 2%nat. }
  destruct Hrest as (_ & _ & Hsessions & _ & Hnone & _).
  exists m, db'. split; [reflexivity|]. split; [|exact Hnone].
  rewrite Hsessions. vm_compute. reflexivity.
Defined.

Lemma update_user_keeps_caller_active_admin_witness :
  ∃ u',
    users (serve (Routes.update_user 1 Scenario.demote_self Scenario.admin
                    (Scenario.at_time 1000 "r1")) Scenario.db).2 !! 0%nat
    = Some u'
    ∧ User.id u' = User.id Scenario.admin
    ∧ User.is_admin u' = true
    ∧ User.is_active u' = true.
Proof.
  apply (update_user_keeps_caller_active_admin 1 Scenario.demote_self
      Scenario.admin
           (Scenario.at_time 1000 "r1") Scenario.db 0 Scenario.admin);
    reflexivity.
Defined.

(** ** The caller's profile *)

Lemma or_none_Some value e : Routes.or_none value = Some e → value = e ∧ e ≠
    EmptyString.
Proof.
  unfold Routes.or_none. destruct (String.eqb_spec value EmptyString); [done|].
  by intros [= ->].
Qed.

Lemma update_current_user_profile_serve update_request ku current_user env db :
  let '(r, db') :=
    serve (Routes.update_current_user_profile update_request
             (ku, current_user) env) db in
  match r with
  | Ok _ =>
      ∃ updated,
        users db' = <[ku := updated]> (users db)
        ∧ User.id updated = User.id current_user
        ∧ User.password_hash updated = User.password_hash current_user
        ∧ User.is_admin updated = User.is_admin current_user
        ∧ User.is_active updated = User.is_active current_user
        ∧ user_sessions db' = user_sessions db
        ∧ user_identities db' = user_identities db
        ∧ match Routes.UpdateProfileRequest.email update_request with
          | Some email =>
              User.email updated = Routes.or_none email
              ∧ (email ≠ EmptyString →
                 Forall (λ u, ¬ (User.email u = Some email
                                 ∧ User.id u ≠ User.id current_user))
                   (<[ku := match Routes.UpdateProfileRequest.display_name
                                    update_request with
                            | Some d =>
                                User.set_display_name (Routes.or_none d)
                                  current_user
                            | None => current_user
                            end]> (users db)))
          | None => User.email updated = User.email current_user
          end
  | Raise e =>
      db' = db
      ∧ e = HTTPException HTTP_409_CONFLICT "Email already in use"
  end.
Proof.
  unfold serve, Routes.update_current_user_profile. unfold_M. simpl.
  destruct (Routes.UpdateProfileRequest.email update_request) as [email|];
    simpl.
  - destruct (String.eqb_spec email EmptyString) as [->|Hne]; simpl.
    + eexists. split; [by rewrite list_insert_insert_eq|].
      destruct (Routes.UpdateProfileRequest.display_name update_request);
        simpl; split_and!; done.
    + case_bool_decide as Hconflict; simpl; [done|].
      eexists. split; [by rewrite list_insert_insert_eq|].
      assert (Hnone : ∀ tbl, ¬ is_Some (first
                (λ u, User.email u = Some email
                      ∧ User.id u ≠ User.id current_user) tbl) →
              Forall (λ u, ¬ (User.email u = Some email
                              ∧ User.id u ≠ User.id current_user)) tbl).
      { intros tbl Hn.
        destruct (first _ tbl) eqn:Hf; [destruct Hn; by eexists|].
        by apply list_find_None in Hf. }
      destruct (Routes.UpdateProfileRequest.display_name update_request);
        simpl in *; split_and!; try done; intros _; by apply Hnone.
  - eexists. split; [by rewrite list_insert_insert_eq|].
    destruct (Routes.UpdateProfileRequest.display_name update_request);
      simpl; split_and!; done.
Qed.

(** X19. [update_current_user_profile] never gives two users the same
    email: when emails are unique and ids are a key, they are unique after
    the update, and a taken email is refused with a 409 and nothing
    stored. It never changes the caller's password hash, admin flag or
    active flag. *)
Theorem update_profile_keeps_emails_unique
    (update_request : Routes.UpdateProfileRequest.t) (ku : nat)
    (current_user : User.t) (env : Env) (db : Db) :
  users db !! ku = Some current_user →
  at_most_one (λ u, User.id u = User.id current_user) (users db) →
  emails_unique db →
  let '(r, db') :=
    serve (Routes.update_current_user_profile update_request
             (ku, current_user) env) db in
  emails_unique db'
  ∧ (∃ updated, users db' !! ku = Some updated
       ∧ User.password_hash updated = User.password_hash current_user
       ∧ User.is_admin updated = User.is_admin current_user
       ∧ User.is_active updated = User.is_active current_user)
  ∧ (∀ email, Routes.UpdateProfileRequest.email update_request = Some email →
       email ≠ EmptyString →
       (∃ u, u ∈ users db ∧ User.email u = Some email
             ∧ User.id u ≠ User.id current_user) →
       r = Raise (HTTPException HTTP_409_CONFLICT "Email already in use")
       ∧ db' = db).
Proof.
  intros Hku Hkey Hunique.
  pose proof (update_current_user_profile_serve update_request ku current_user
                env db) as Hserve.
  destruct (serve _ db) as [[r|e] db'].
  - destruct Hserve as (updated & Hu & Hid & Hhash & Hadmin & Hactive & _ & _
                        & Hemail).
    split_and!.
    + intros e. apply at_most_one_intro. rewrite Hu.
      assert (Hold : ∀ j x, j ≠ ku → <[ku := updated]> (users db) !! j = Some x
          →
                users db !! j = Some x).
      { intros j x Hj. by rewrite list_lookup_insert_ne. }
      assert (Hnew : ∀ j x, users db !! j = Some x → j ≠ ku →
                User.email x = Some e → User.email updated = Some e → False).
      { intros j x Hj Hjk Hx Hupd.
        destruct (Routes.UpdateProfileRequest.email update_request)
          as [email|].
        - destruct Hemail as [Hem Hcheck]. rewrite Hem in Hupd.
          apply or_none_Some in Hupd as [-> Hne].
          specialize (Hcheck Hne). rewrite Forall_lookup in Hcheck.
          assert (Hx' : <[ku := match Routes.UpdateProfileRequest.display_name
                                        update_request with
                                | Some d =>
                                    User.set_display_name (Routes.or_none d)
                                      current_user
                                | None => current_user
                                end]> (users db) !! j = Some x)
            by (by rewrite list_lookup_insert_ne).
          specialize (Hcheck j x Hx').
          destruct (decide (User.id x = User.id current_user)) as [Hsame|Hdiff].
          + apply Hjk. eapply (at_most_one_lookup _ (users db)); done.
          + by apply Hcheck.
        - rewrite Hemail in Hupd. apply Hjk.
          eapply (at_most_one_lookup _ (users db)); [apply (Hunique e)|..];
            done. }
      intros j1 j2 x y Hj1 Hj2 Hx Hy.
      destruct (decide (j1 = ku)) as [->|H1], (decide (j2 = ku)) as [->|H2];
        try done.
      * rewrite list_lookup_insert_eq in Hj1 by (by eapply lookup_lt_Some).
        simplify_eq. apply Hold in Hj2; [|done]. by destruct (Hnew j2 y).
      * rewrite list_lookup_insert_eq in Hj2 by (by eapply lookup_lt_Some).
        simplify_eq. apply Hold in Hj1; [|done]. by destruct (Hnew j1 x).
      * apply Hold in Hj1, Hj2; try done.
        eapply (at_most_one_lookup _ (users db)); [apply (Hunique e)|..]; done.
    + exists updated. rewrite Hu.
      rewrite list_lookup_insert_eq by (by eapply lookup_lt_Some). done.
    + intros email Hreq Hne (u & [j Hj]%list_elem_of_lookup & Hue & Huid).
      rewrite Hreq in Hemail. destruct Hemail as [_ Hcheck].
      specialize (Hcheck Hne). rewrite Forall_lookup in Hcheck.
      assert (j ≠ ku) by (intros ->; congruence).
      destruct (Hcheck j u); [by rewrite list_lookup_insert_ne|done].
  - destruct Hserve as [-> ->]. split_and!; try done.
    exists current_user. done.
Qed.

Lemma update_profile_keeps_emails_unique_witness :
  let '(r, db') :=
    serve (Routes.update_current_user_profile Scenario.take_bobs_email
             (0%nat, Scenario.admin) (Scenario.at_time 1000 "r1"))
      Scenario.db in
  emails_unique db'
  ∧ r = Raise (HTTPException HTTP_409_CONFLICT "Email already in use")
  ∧ db' = Scenario.db.
Proof.
  pose proof (update_profile_keeps_emails_unique Scenario.take_bobs_email 0
                Scenario.admin (Scenario.at_time 1000 "r1") Scenario.db) as H.
  destruct (serve _ Scenario.db) as [r db'].
  destruct H as (Hunique & _ & Htaken).
  - reflexivity.
  - vm_compute. lia.
  - intros e. unfold at_most_one. simpl users.
    rewrite !filter_cons, filter_nil.
    repeat case_decide; simplify_eq/=; lia.
  - split; [exact Hunique|].
    apply (Htaken "bob@example.com"); [reflexivity|discriminate|].
    exists Scenario.bob. split_and!; [|reflexivity|discriminate].
    apply list_elem_of_lookup. by exists 1%nat.
Defined.

(** ** First-run setup *)

Section Setup.
Context {TL : TokenLib} {PL : PasswordLib} {ST : Store}.
Variable settings : Settings.AuthSettings.

Lemma initial_setup_serve setup_request env db :
  serve (Routes.initial_setup setup_request env) db
  = if bool_decide (0 < Z.of_nat (length (users db))) then
      (Raise (HTTPException HTTP_403_FORBIDDEN
                "Setup already completed. Users already exist."), db)
    else if valid (validate_password
                     (Routes.SetupRequest.password setup_request)
                     (Some (Routes.SetupRequest.username setup_request))) then
      (Ok {| Routes.um_user := Routes.model_validate (first_admin setup_request
          env);
             Routes.um_message := "Setup complete" |},
       set_user_identities
         (λ tbl, tbl ++ [UserIdentity.mk
                           (next_id (UserIdentity.id <$> user_identities db))
                           1 "local" None
                           (Routes.SetupRequest.username setup_request)
                           (utcnow env) None])
         (set_users (λ _, [first_admin setup_request env]) db))
    else
      (Raise (HTTPException HTTP_422_UNPROCESSABLE_ENTITY
                (default EmptyString
                   (error (validate_password
                             (Routes.SetupRequest.password setup_request)
                             (Some (Routes.SetupRequest.username
                                 setup_request)))))),
       db).
Proof.
  unfold serve, Routes.initial_setup. unfold_M. simpl.
  case_bool_decide as Hcount; [done|].
  destruct (users db) as [|u tbl] eqn:Husers; [|simpl in Hcount; lia].
  destruct (valid _); simpl; [|done].
  unfold set_user_identities, set_users, first_admin. simpl.
  by rewrite Husers.
Qed.

(** X20. setup is one-shot. On a store without users and with a password
    that passes the policy it creates exactly one user, an active local
    administrator with a local identity under the same name; after that
    setup is no longer required and every further setup request is refused
    with a 403 that stores nothing. *)
Theorem initial_setup_is_one_shot (setup_request : Routes.SetupRequest.t)
    (env : Env) (db : Db) :
  users db = [] →
  valid (validate_password (Routes.SetupRequest.password setup_request)
           (Some (Routes.SetupRequest.username setup_request))) = true →
  ∃ db1 admin identity,
    serve (Routes.initial_setup setup_request env) db
    = (Ok {| Routes.um_user := Routes.model_validate admin;
             Routes.um_message := "Setup complete" |}, db1)
    ∧ users db1 = [admin]
    ∧ User.username admin = Routes.SetupRequest.username setup_request
    ∧ User.is_admin admin = true ∧ User.is_active admin = true
    ∧ User.auth_provider admin = "local"
    ∧ User.password_hash admin
      = Some (hash_password env (Routes.SetupRequest.password setup_request))
    ∧ user_identities db1 = user_identities db ++ [identity]
    ∧ UserIdentity.user_id identity = User.id admin
    ∧ UserIdentity.provider identity = "local"
    ∧ UserIdentity.identifier identity
      = Routes.SetupRequest.username setup_request
    ∧ user_sessions db1 = user_sessions db
    ∧ (serve Routes.check_setup_required db).1 = Ok {| Routes.required := true
        |}
    ∧ (serve Routes.check_setup_required db1).1
      = Ok {| Routes.required := false |}
    ∧ ∀ again env',
        serve (Routes.initial_setup again env') db1
        = (Raise (HTTPException HTTP_403_FORBIDDEN
                    "Setup already completed. Users already exist."), db1).
Proof.
  intros Hempty Hvalid. rewrite initial_setup_serve, Hempty, Hvalid. simpl.
  eexists _, _, _. split; [reflexivity|]. simpl.
  split_and!;
    first [ done
          | by (unfold serve, Routes.check_setup_required; unfold_M; simpl;
                rewrite Hempty)
          | by (intros again env'; rewrite initial_setup_serve) ].
Qed.

(** X21. the administrator setup creates can log in with the password
    given at setup. *)
Theorem first_admin_can_log_in (setup_request : Routes.SetupRequest.t)
    (request : Routes.Request) (env env' : Env) (db : Db) :
  users db = [] →
  user_identities db = [] →
  valid (validate_password (Routes.SetupRequest.password setup_request)
           (Some (Routes.SetupRequest.username setup_request))) = true →
  let hashed :=
    hash_password env (Routes.SetupRequest.password setup_request) in
  hashed ≠ EmptyString →
  verify_password (Routes.SetupRequest.password setup_request) hashed = true →
  let db1 := (serve (Routes.initial_setup setup_request env) db).2 in
  ∃ r db2,
    serve (Routes.login settings
             {| Routes.username := Routes.SetupRequest.username setup_request;
                Routes.password := Routes.SetupRequest.password setup_request |}
             request env') db1
    = (Ok r, db2)
    ∧ Routes.ur_username (Routes.user r)
      = Routes.SetupRequest.username setup_request
    ∧ Routes.is_admin (Routes.user r) = true.
Proof.
  intros Hempty Hnone Hvalid hashed Hhash Hverify db1. subst db1 hashed.
  rewrite initial_setup_serve, Hempty, Hvalid. simpl.
  unfold serve, Routes.login. unfold_M. simpl. rewrite Hnone. simpl.
  repeat (rewrite decide_True by done; simpl).
  rewrite ?bool_decide_eq_true_2 by eauto. simpl.
  destruct (String.eqb_spec (hash_password env
              (Routes.SetupRequest.password setup_request)) EmptyString);
    [done|]. simpl.
  rewrite Hverify. simpl. eexists _, _. split; [reflexivity|]. done.
Qed.
End Setup.

Lemma initial_setup_is_one_shot_witness :
  ∃ db1 admin,
    serve (Routes.initial_setup (PL:=Scenario.passwords) Scenario.setup_request
             (Scenario.at_time 1000 "r1")) Scenario.empty_db
    = (Ok {| Routes.um_user := Routes.model_validate admin;
             Routes.um_message := "Setup complete" |}, db1)
    ∧ users db1 = [admin]
    ∧ User.is_admin admin = true
    ∧ ∀ again env',
        serve (Routes.initial_setup (PL:=Scenario.passwords) again env') db1
        = (Raise (HTTPException HTTP_403_FORBIDDEN
                    "Setup already completed. Users already exist."), db1).
Proof.
  destruct (initial_setup_is_one_shot (PL:=Scenario.passwords)
      Scenario.setup_request
              (Scenario.at_time 1000 "r1") Scenario.empty_db)
    as (db1 & admin & identity & Hsetup & Husers & _ & Hadmin & _ & _ & _ & _
        & _ & _ & _ & _ & _ & _ & Hagain).
  - reflexivity.
  - vm_compute. reflexivity.
  - exists db1, admin. split_and!; done.
Defined.

Lemma first_admin_can_log_in_witness :
  let db1 :=
    (serve (Routes.initial_setup (PL:=Scenario.passwords) Scenario.setup_request
              (Scenario.at_time 1000 "r1")) Scenario.empty_db).2 in
  ∃ r db2,
    serve (Routes.login (TL:=Scenario.tokens) (PL:=Scenario.passwords)
             Scenario.settings
             {| Routes.username := "root"; Routes.password := "ValidPass123!" |}
             Scenario.request (Scenario.at_time 2000 "r2")) db1
    = (Ok r, db2)
    ∧ Routes.ur_username (Routes.user r) = "root"
    ∧ Routes.is_admin (Routes.user r) = true.
Proof.
  apply (first_admin_can_log_in (TL:=Scenario.tokens) (PL:=Scenario.passwords)
           Scenario.settings Scenario.setup_request Scenario.request
           (Scenario.at_time 1000 "r1") (Scenario.at_time 2000 "r2")
               Scenario.empty_db).
  - reflexivity.
  - reflexivity.
  - vm_compute. reflexivity.
  - discriminate.
  - vm_compute. reflexivity.
Defined.
